(** * Fee reconciliation and order processing: a shallow embedding

    This development embeds two programs of the repository:

    - [scripts/properly_populate_transaction_fees.js], the batch job that
      scans the ledger in pairs and normalises the sign of the fee columns
      (modules [Js], [Ledger], [FeeMigration], [Cli] and [Script]);
    - the order processor whose source is appended to
      [test/usergroup.routes.test.js] ([processOrder] and
      [getSubscriptionTrialEndDate]; modules [JsDate] and [OrderProcessor]).

    JavaScript numbers are rationals rounded to the precision of a double
    after every operation; objects that the code mutates are modelled by
    explicit state passing; promise chains by a state-and-error monad in
    which the effects made before a rejection stay in place. *)

From Stdlib Require Import ZArith QArith Qround Qpower Qreduction Lia List String.
From Stdlib Require OrderedTypeEx Sorted Qabs Lqa.
From stdpp Require Import base strings gmap list pretty.

Local Open Scope Z_scope.

(* ===================================================================== *)
(** * JavaScript values and operators used by the scripts *)
(* ===================================================================== *)

Module Js.

(** A column value: [null] or a number, written as the rational the
    column holds.  The script holds a number as a double (binary64): the
    rational is read as the double nearest to it, and the result of an
    arithmetic operation is the double nearest to the exact result, ties
    going to the even significand.  The exponent of a double is not bounded
    here: the model has no overflow to an infinity and no underflow, which
    take a magnitude above 1.7e308 or below 2.3e-308, and no NaN. *)
Inductive value : Type :=
| VNull
| VNum (q : Q).

(** ** Doubles *)

Definition pow2 (e : Z) : Q := Qpower 2 e.

(** The exponent of a positive rational: [pow2 k <= q < pow2 (k + 1)]. *)
Definition ilog2 (q : Q) : Z :=
  let k0 := Z.log2 (Qnum q) - Z.log2 (Zpos (Qden q)) in
  if Qle_bool (pow2 k0) q then k0 else k0 - 1.

(** The nearest integer, a tie going to the even one. *)
Definition round_half_even (x : Q) : Z :=
  let f := Qfloor x in
  match (x - inject_Z f ?= 1 # 2)%Q with
  | Lt => f
  | Gt => f + 1
  | Eq => if Z.even f then f else f + 1
  end.

(** The double nearest to a positive rational: a significand of 53 bits
    times a power of two. *)
Definition double_of_positive (q : Q) : Q :=
  let e := ilog2 q - 52 in
  (inject_Z (round_half_even (q * pow2 (- e))) * pow2 e)%Q.

(** The double nearest to a rational, as a fraction in lowest terms. *)
Definition double (q : Q) : Q :=
  Qred (match (q ?= 0)%Q with
        | Eq => 0
        | Gt => double_of_positive q
        | Lt => - double_of_positive (- q)
        end)%Q.

(** [a + b], [a - b] and [a * b] on doubles. *)
Definition js_add (a b : Q) : Q := double (a + b).
Definition js_sub (a b : Q) : Q := double (a - b).
Definition js_mul (a b : Q) : Q := double (a * b).

(** [a / b] on doubles, for a divisor that is not zero (JavaScript gives
    an infinity or NaN for a zero divisor, which this model does not have:
    here the quotient is then 0). *)
Definition js_div (a b : Q) : Q := double (a / b).

(** ** Conversions and comparisons *)

(** [ToNumber]: [null] converts to [0], a number is held as a double. *)
Definition ToNumber (v : value) : Q :=
  match v with
  | VNull => 0%Q
  | VNum q => double q
  end.

(** [ToBoolean]: [null] and [0] are falsy, every other number is truthy
    (the double of a rational is 0 only when the rational is). *)
Definition ToBoolean (v : value) : bool :=
  match v with
  | VNull => false
  | VNum q => negb (Qeq_bool q 0)
  end.

(** [a === b] on column values: numbers are compared as doubles. *)
Definition strict_eq (a b : value) : bool :=
  match a, b with
  | VNull, VNull => true
  | VNum x, VNum y => Qeq_bool (double x) (double y)
  | _, _ => false
  end.

(** [a > 0] on numbers. *)
Definition Qgtb (a b : Q) : bool := negb (Qle_bool a b).

(** [Math.round]: the closest integer, ties going towards +infinity. *)
Definition Math_round (q : Q) : Q := inject_Z (Qfloor (q + (1 # 2))).

(** [parseInt(x, 10)] on a number: the integer part, truncated towards
    zero.  This is what JavaScript gives for a number that it prints
    without an exponent, that is 0 or a magnitude from 1e-6 up to 1e21. *)
Definition parseInt (q : Q) : Q :=
  inject_Z (if Qle_bool 0 q then Qfloor q else Qceiling q).

(** What a script can throw. *)
Inductive exn : Type :=
| Error (message : string)
| TypeError (message : string).

End Js.

(* ===================================================================== *)
(** * The ledger rows *)
(* ===================================================================== *)

Module Ledger.
Import Js.

(** One row of the Transaction table, with the columns the job reads. *)
Record Transaction : Type := mkTransaction {
  id : Z;
  type : string;
  TransactionGroup : string;
  OrderId : option Z;
  ExpenseId : option Z;
  amount : value;
  amountInHostCurrency : value;
  hostFeeInHostCurrency : value;
  platformFeeInHostCurrency : value;
  paymentProcessorFeeInHostCurrency : value;
  hostCurrencyFxRate : value;
  netAmountInCollectiveCurrency : value;
  deletedAt : option Z
}.

(** Field assignments [tr.field = v]. *)
Definition set_hostFeeInHostCurrency (v : value) (tr : Transaction) :=
  mkTransaction (id tr) (type tr) (TransactionGroup tr) (OrderId tr)
    (ExpenseId tr) (amount tr) (amountInHostCurrency tr)
    v (platformFeeInHostCurrency tr) (paymentProcessorFeeInHostCurrency tr)
    (hostCurrencyFxRate tr) (netAmountInCollectiveCurrency tr) (deletedAt tr).

Definition set_platformFeeInHostCurrency (v : value) (tr : Transaction) :=
  mkTransaction (id tr) (type tr) (TransactionGroup tr) (OrderId tr)
    (ExpenseId tr) (amount tr) (amountInHostCurrency tr)
    (hostFeeInHostCurrency tr) v (paymentProcessorFeeInHostCurrency tr)
    (hostCurrencyFxRate tr) (netAmountInCollectiveCurrency tr) (deletedAt tr).

Definition set_paymentProcessorFeeInHostCurrency (v : value) (tr : Transaction) :=
  mkTransaction (id tr) (type tr) (TransactionGroup tr) (OrderId tr)
    (ExpenseId tr) (amount tr) (amountInHostCurrency tr)
    (hostFeeInHostCurrency tr) (platformFeeInHostCurrency tr) v
    (hostCurrencyFxRate tr) (netAmountInCollectiveCurrency tr) (deletedAt tr).

Definition set_hostCurrencyFxRate (v : value) (tr : Transaction) :=
  mkTransaction (id tr) (type tr) (TransactionGroup tr) (OrderId tr)
    (ExpenseId tr) (amount tr) (amountInHostCurrency tr)
    (hostFeeInHostCurrency tr) (platformFeeInHostCurrency tr)
    (paymentProcessorFeeInHostCurrency tr)
    v (netAmountInCollectiveCurrency tr) (deletedAt tr).

(** [a !== null && a === b] on nullable foreign keys. *)
Definition same_non_null (a b : option Z) : bool :=
  match a, b with
  | Some x, Some y => Z.eqb x y
  | _, _ => false
  end.

(** The table, in insertion order. *)
Definition table := list Transaction.

(** [where: { deletedAt: null }]. *)
Definition not_deleted (tr : Transaction) : bool :=
  match deletedAt tr with
  | None => true
  | Some _ => false
  end.

(** [order: ['TransactionGroup']]: a stable insertion sort on the group
    identifier. *)
Fixpoint insert_by_group (tr : Transaction) (l : list Transaction) :=
  match l with
  | [] => [tr]
  | x :: l' =>
      if String.leb (TransactionGroup tr) (TransactionGroup x)
      then tr :: l
      else x :: insert_by_group tr l'
  end.

Definition order_by_group (l : list Transaction) : list Transaction :=
  foldr insert_by_group [] l.

(** Modelled from the spec: [models.Transaction.count({ where: { deletedAt:
    null } })], the number of non-deleted transactions (the model is not in
    the sources). *)
Definition count_valid (db : table) : nat :=
  length (List.filter not_deleted db).

(** Modelled from the spec: [models.Transaction.findAll({ where, order,
    limit, offset })], the ordered, offset-paginated scan over non-deleted
    transactions sorted by group identifier. *)
Definition findAll_valid (db : table) (limit offset : nat) : list Transaction :=
  take limit (drop offset
    (order_by_group (List.filter not_deleted db))).

End Ledger.

(* ===================================================================== *)
(** * The migration script, class [Migration] *)
(* ===================================================================== *)

Module FeeMigration.
Import Js Ledger.

(** ** Console output *)

(** One argument of a [console.log] call. *)
Inductive log_arg : Type :=
| LStr (s : string)
| LBool (b : bool)
| LNum (q : Q)
| LVal (v : value)
| LInt (z : Z).

(** One [console.log] call: its arguments in order.  A template string is
    listed by its pieces. *)
Definition console_line := list log_arg.
Definition console := list console_line.

(** ** Pure helpers *)

(** [trValue]: net value of a transaction.  The three sums and the
    product are operations on doubles; [Math.round] is exact. *)
Definition trValue (tr : Transaction) : Q :=
  js_mul
    (Math_round
       (js_add
          (js_add
             (js_add (ToNumber (amountInHostCurrency tr))
                     (ToNumber (hostFeeInHostCurrency tr)))
             (ToNumber (platformFeeInHostCurrency tr)))
          (ToNumber (paymentProcessorFeeInHostCurrency tr))))
    (ToNumber (hostCurrencyFxRate tr)).

(** [verify]: [trValue(tr) === tr.netAmountInCollectiveCurrency]. *)
Definition verify (tr : Transaction) : bool :=
  strict_eq (VNum (trValue tr)) (netAmountInCollectiveCurrency tr).

(** [difference]. *)
Definition difference (tr : Transaction) : Q :=
  js_sub (trValue tr) (ToNumber (netAmountInCollectiveCurrency tr)).

(** [toNegative]: [value > 0 ? -value : value]. *)
Definition toNegative (v : value) : value :=
  if Qgtb (ToNumber v) 0 then VNum (- ToNumber v)%Q else v.

(** [ensureHostCurrencyFxRate]. *)
Definition ensureHostCurrencyFxRate (tr : Transaction) : Transaction :=
  if strict_eq (amount tr) (amountInHostCurrency tr)
     && negb (ToBoolean (hostCurrencyFxRate tr))
  then set_hostCurrencyFxRate (VNum 1) tr
  else tr.

(** One disjunct of [hasFees]: [fee && parseInt(fee, 10) !== 0]. *)
Definition fee_present (fee : value) : bool :=
  ToBoolean fee && negb (Qeq_bool (parseInt (ToNumber fee)) 0).

(** [hasFees], as a condition. *)
Definition hasFees (tr : Transaction) : bool :=
  fee_present (hostFeeInHostCurrency tr)
  || fee_present (platformFeeInHostCurrency tr)
  || fee_present (paymentProcessorFeeInHostCurrency tr).

(** ** The two rows of a pair as a store *)

(** [migrate] names its arguments a second time ([credit], [debit]); the two
    names may denote the same object.  A pair is a store of two cells and a
    name is a reference to one of them. *)
Inductive ref : Type := Tr1 | Tr2.

Definition store : Type := Transaction * Transaction.

Definition deref (s : store) (r : ref) : Transaction :=
  match r with
  | Tr1 => fst s
  | Tr2 => snd s
  end.

Definition update (r : ref) (f : Transaction -> Transaction) (s : store) : store :=
  match r with
  | Tr1 => (f (fst s), snd s)
  | Tr2 => (fst s, f (snd s))
  end.

(** [const credit = tr1.type === 'CREDIT' ? tr1 : tr2]. *)
Definition credit_of (tr1 : Transaction) : ref :=
  if String.eqb (type tr1) "CREDIT" then Tr1 else Tr2.

(** [const debit = tr1.type === 'DEBIT' ? tr1 : tr2]. *)
Definition debit_of (tr1 : Transaction) : ref :=
  if String.eqb (type tr1) "DEBIT" then Tr1 else Tr2.

(** [rewriteFees]: each line is [credit.f = debit.f = toNegative(credit.f)];
    the right-hand side is evaluated once, stored in [debit], then in
    [credit]. *)
Definition rewriteFees (credit debit : ref) (s : store) : store :=
  let v1 := toNegative (hostFeeInHostCurrency (deref s credit)) in
  let s := update debit (set_hostFeeInHostCurrency v1) s in
  let s := update credit (set_hostFeeInHostCurrency v1) s in
  let v2 := toNegative (platformFeeInHostCurrency (deref s credit)) in
  let s := update debit (set_platformFeeInHostCurrency v2) s in
  let s := update credit (set_platformFeeInHostCurrency v2) s in
  let v3 := toNegative (paymentProcessorFeeInHostCurrency (deref s credit)) in
  let s := update debit (set_paymentProcessorFeeInHostCurrency v3) s in
  let s := update credit (set_paymentProcessorFeeInHostCurrency v3) s in
  s.

(** ** [migrate] *)

(** How an [async] function ends. *)
Inductive outcome : Type :=
| Resolved
| Rejected (e : exn).

(** The ten lines printed at the end of [migrate]. *)
Definition summary_lines (credit debit : Transaction) : console :=
  [ [LStr "    * C:amount......: "; LVal (amountInHostCurrency credit)];
    [LStr "    * C:netAmount...: "; LVal (netAmountInCollectiveCurrency credit)];
    [LStr "    * C:hostFee.....: "; LVal (hostFeeInHostCurrency credit)];
    [LStr "    * C:platformFee.: "; LVal (platformFeeInHostCurrency credit)];
    [LStr "    * C:ppFee.......: "; LVal (paymentProcessorFeeInHostCurrency credit)];
    [LStr "    * D:amount......: "; LVal (amountInHostCurrency debit)];
    [LStr "    * D:netAmount...: "; LVal (netAmountInCollectiveCurrency debit)];
    [LStr "    * D:hostFee.....: "; LVal (hostFeeInHostCurrency debit)];
    [LStr "    * D:platformFee.: "; LVal (platformFeeInHostCurrency debit)];
    [LStr "    * D:ppFee.......: "; LVal (paymentProcessorFeeInHostCurrency debit)] ].

(** The line printed for a row that does not add up. *)
Definition doesnt_add_up (kind : string) (tr : Transaction) : console_line :=
  [LStr "    doesn't add up"; LInt (id tr); LStr kind;
   LStr (TransactionGroup tr); LNum (difference tr)].

Definition report_if_wrong (kind : string) (tr : Transaction) : console :=
  if verify tr then [] else [doesnt_add_up kind tr].

(** [migrate(tr1, tr2)]: the outcome, the two rows as the call leaves them
    and the lines it printed. *)
Definition migrate (tr1 tr2 : Transaction) : outcome * store * console :=
  let s : store := (tr1, tr2) in
  let out0 := [[LStr (TransactionGroup tr1)]; [LStr (TransactionGroup tr2)]] in
  if negb (String.eqb (TransactionGroup tr1) (TransactionGroup tr2)) then
    (Rejected (Error "Wrong transaction pair detected"), s, out0)
  else
    let credit := credit_of tr1 in
    let debit := debit_of tr1 in
    if same_non_null (ExpenseId tr1) (ExpenseId tr2) then
      (Resolved, s,
       out0 ++ [[LStr "  Expense.:"; LBool (verify tr1); LBool (verify tr2)]]
            ++ summary_lines (deref s credit) (deref s debit))
    else if same_non_null (OrderId tr1) (OrderId tr2) then
      let s := update credit ensureHostCurrencyFxRate s in
      let s := update debit ensureHostCurrencyFxRate s in
      let out1 := out0 ++ [[LStr "  Order...:"; LBool (verify (deref s credit));
                            LBool (verify (deref s debit))]] in
      if negb (hasFees (fst s)) && negb (hasFees (snd s)) then
        (Resolved, s, out1 ++ [[LStr "    No fees, skipping"]])
      else
        let s := rewriteFees credit debit s in
        (Resolved, s,
         out1 ++ report_if_wrong "CREDIT" (deref s credit)
              ++ report_if_wrong "DEBIT" (deref s debit)
              ++ summary_lines (deref s credit) (deref s debit))
    else
      (Resolved, s,
       out0 ++ [[LStr "  WAT.....:"; LBool (verify tr1); LBool (verify tr2)]]
            ++ summary_lines (deref s credit) (deref s debit)).

End FeeMigration.

(* ===================================================================== *)
(** * Command line options and the scan loop *)
(* ===================================================================== *)

Module Cli.
Import Js Ledger FeeMigration.

(** A value of the options object: [null], a number (a default written in
    the script) or a string (what the user typed after a flag). *)
Inductive arg : Type :=
| ANull
| ANum (n : nat)
| AStr (s : string).

(** [ToBoolean] on such a value: [null], [0] and the empty string are
    falsy. *)
Definition truthy (a : arg) : bool :=
  match a with
  | ANull => false
  | ANum n => negb (Nat.eqb n 0)
  | AStr s => negb (String.eqb s "")
  end.

(** [a || b]. *)
Definition js_or (a b : arg) : arg := if truthy a then a else b.

Definition digit_of (c : Ascii.ascii) : option nat :=
  let n := Ascii.nat_of_ascii c in
  if (48 <=? n)%nat && (n <=? 57)%nat then Some (n - 48)%nat else None.

Fixpoint digits_value (s : string) (acc : nat) : option nat :=
  match s with
  | EmptyString => Some acc
  | String c s' =>
      match digit_of c with
      | Some d => digits_value s' (10 * acc + d)%nat
      | None => None
      end
  end.

(** [ToNumber] on such a value, for the non-negative integers the scan can
    use; [None] stands for every other result (NaN, a negative number). *)
Definition Number (a : arg) : option nat :=
  match a with
  | ANull => Some 0%nat
  | ANum n => Some n
  | AStr s => digits_value s 0
  end.

(** The object returned by [parseCommandLineArguments]. *)
Record options : Type := mkOptions {
  dryRun : bool;
  verbose : bool;
  limit : arg;
  batchSize : arg
}.

(** The command line: which flags were passed, and with which text. *)
Record argv : Type := mkArgv {
  passed_verbose : bool;
  passed_notdryrun : bool;
  passed_limit : option string;
  passed_batch_size : option string
}.

(** The namespace [parser.parseArgs()] returns: a [storeConst] flag holds
    its constant when passed and its default otherwise; a valued flag
    holds the text passed, its [defaultValue] when it has one, and [null]
    when it has none. *)
Record namespace : Type := mkNamespace {
  ns_verbose : bool;
  ns_notdryrun : bool;
  ns_limit : arg;
  ns_batch_size : arg
}.

Definition parseArgs (a : argv) : namespace :=
  {| ns_verbose := if passed_verbose a then true else false;
     ns_notdryrun := if passed_notdryrun a then true else false;
     ns_limit := match passed_limit a with
                 | Some s => AStr s
                 | None => ANull
                 end;
     ns_batch_size := match passed_batch_size a with
                      | Some s => AStr s
                      | None => ANum 10
                      end |}.

(** [parseCommandLineArguments]. *)
Definition parseCommandLineArguments (a : argv) : options :=
  let args := parseArgs a in
  {| dryRun := negb (ns_notdryrun args);
     verbose := ns_verbose args;
     limit := ns_limit args;
     batchSize := js_or (ns_batch_size args) (ANum 100) |}.

(** ** The [Migration] object and its world *)

(** The fields [this.offset] and [this.migrated]. *)
Record migration : Type := mkMigration {
  offset : nat;
  migrated : nat
}.

(** What the job can touch: the table and the console. *)
Record world : Type := mkWorld {
  db : table;
  out : console
}.

(** [countValidTransactions]. *)
Definition countValidTransactions (w : world) : nat := count_valid (db w).

(** [retrieveValidTransactions]: the batch, and the cursor moved by its
    length.  The query fails when the batch size is not a usable number. *)
Definition retrieveValidTransactions (o : options) (m : migration) (w : world)
  : exn + (list Transaction * migration) :=
  match batchSize o with
  | ANull =>
      let transactions := drop (offset m) (order_by_group (List.filter not_deleted (db w))) in
      inr (transactions, mkMigration (offset m + length transactions) (migrated m))
  | b =>
      match Number b with
      | Some n =>
          let transactions := findAll_valid (db w) n (offset m) in
          inr (transactions, mkMigration (offset m + length transactions) (migrated m))
      | None => inl (Error "SequelizeDatabaseError")
      end
  end.

(** [this.offset < count]. *)
Definition offset_below (m : migration) (count : arg) : bool :=
  match Number count with
  | Some n => (offset m <? n)%nat
  | None => false
  end.

(** The [for] loop of [run] over one batch: [i] advances by two; reading
    [transactions[i + 1].TransactionGroup] past the end of the batch is a
    property access on [undefined].  The promise [migrate] returns is
    dropped, and so are the rows it changed. *)
Fixpoint for_pairs (transactions : list Transaction) (out : console)
  : outcome * console :=
  match transactions with
  | [] => (Resolved, out)
  | t1 :: rest =>
      match rest with
      | [] =>
          (Rejected (TypeError "Cannot read property 'TransactionGroup' of undefined"), out)
      | t2 :: rest' =>
          if negb (String.eqb (TransactionGroup t1) (TransactionGroup t2)) then
            (Rejected (Error ("Cannot find pair for the transaction id "
                              ++ pretty.pretty (id t1))), out)
          else
            let '(_, _, lines) := migrate t1 t2 in
            for_pairs rest' (out ++ lines)
      end
  end.

(** The [while] loop of [run], for at most [fuel] iterations: how the call
    settled ([None] while it is still looping), the cursor and the world at
    that point. *)
Fixpoint run_loop (fuel : nat) (o : options) (count : arg)
                  (m : migration) (w : world)
  : option outcome * migration * world :=
  match fuel with
  | O => (None, m, w)
  | S fuel' =>
      if offset_below m count then
        match retrieveValidTransactions o m w with
        | inl e => (Some (Rejected e), m, w)
        | inr (transactions, m') =>
            match for_pairs transactions (out w) with
            | (Resolved, out') => run_loop fuel' o count m' (mkWorld (db w) out')
            | (Rejected e, out') => (Some (Rejected e), m', mkWorld (db w) out')
            end
        end
      else (Some Resolved, m, w)
  end.

(** [new Migration(options)]. *)
Definition new_Migration : migration := mkMigration 0 0.

(** [run]: [count] is the limit when it is truthy, else the number of
    valid rows, read once. *)
Definition run (fuel : nat) (o : options) (w : world)
  : option outcome * migration * world :=
  let count := js_or (limit o) (ANum (countValidTransactions w)) in
  run_loop fuel o count new_Migration w.

End Cli.

(* ===================================================================== *)
(** * JavaScript dates *)
(* ===================================================================== *)

Module JsDate.

(** A [Date] object holds a time value: milliseconds since the epoch.  The
    functions below are the abstract operations of the language standard;
    time values are unbounded integers (no [TimeClip], no invalid date). *)

Definition msPerDay : Z := 86400000.

Definition Day (t : Z) : Z := t / msPerDay.
Definition TimeWithinDay (t : Z) : Z := t mod msPerDay.

(** The proleptic Gregorian calendar, by eras of 400 years (146097 days)
    that start on a first of March: [yoe] is the year of the era, [doy] the
    day of the year counted from the first of March, [mp] the month counted
    from March, [doe] the day of the era. *)
Definition doe_of (yoe doy : Z) : Z := yoe * 365 + yoe / 4 - yoe / 100 + doy.
Definition doy_of_month (mp : Z) : Z := (153 * mp + 2) / 5.
Definition yoe_of_doe (doe : Z) : Z :=
  (doe - doe / 1460 + doe / 36524 - doe / 146096) / 365.
Definition mp_of_doy (doy : Z) : Z := (5 * doy + 2) / 153.

(** Day number of the civil date [y]-[m]-[d], [m] counted from 1; day 0 is
    1970-01-01. *)
Definition days_from_civil (y m d : Z) : Z :=
  let y' := if m <=? 2 then y - 1 else y in
  let era := y' / 400 in
  let yoe := y' - era * 400 in
  let mp := if 2 <? m then m - 3 else m + 9 in
  era * 146097 + doe_of yoe (doy_of_month mp + d - 1) - 719468.

(** The civil date of day [doe] of era [era]: year, month counted from 1,
    day of the month. *)
Definition civil_of_era (era doe : Z) : Z * Z * Z :=
  let yoe := yoe_of_doe doe in
  let doy := doe - doe_of yoe 0 in
  let mp := mp_of_doy doy in
  let m := if mp <? 10 then mp + 3 else mp - 9 in
  (if m <=? 2 then yoe + era * 400 + 1 else yoe + era * 400,
   m,
   doy - doy_of_month mp + 1).

(** The civil date of a day number. *)
Definition civil_from_days (z : Z) : Z * Z * Z :=
  let z' := z + 719468 in
  let era := z' / 146097 in
  civil_of_era era (z' - era * 146097).

Definition YearFromTime (t : Z) : Z := (civil_from_days (Day t)).1.1.
(** Months are counted from 0. *)
Definition MonthFromTime (t : Z) : Z := (civil_from_days (Day t)).1.2 - 1.
Definition DateFromTime (t : Z) : Z := (civil_from_days (Day t)).2.

(** [MakeDay]: the month may lie outside 0..11 and carries into the year;
    the day of the month may lie outside the month. *)
Definition MakeDay (year month date : Z) : Z :=
  let ym := year + month / 12 in
  let mn := month mod 12 in
  days_from_civil ym (mn + 1) 1 + date - 1.

Definition MakeDate (day time : Z) : Z := day * msPerDay + time.

Section TimeZone.

(** The offset of local time, in milliseconds: [LocalTZA t true] at the
    UTC instant [t], [LocalTZA t false] at the local time [t]. *)
Variable LocalTZA : Z -> bool -> Z.

Definition LocalTime (t : Z) : Z := t + LocalTZA t true.
Definition UTC (t : Z) : Z := t - LocalTZA t false.

(** [d.getTime()] and [new Date(ms)]. *)
Definition getTime (d : Z) : Z := d.
Definition new_Date (ms : Z) : Z := ms.

(** [d.getMonth()]. *)
Definition getMonth (d : Z) : Z := MonthFromTime (LocalTime d).

(** [d.setDate(date)]: the new time value of [d]. *)
Definition setDate (d date : Z) : Z :=
  let t := LocalTime d in
  UTC (MakeDate (MakeDay (YearFromTime t) (MonthFromTime t) date)
                (TimeWithinDay t)).

(** [d.setMonth(month)]: the new time value of [d], which the call also
    returns. *)
Definition setMonth (d month : Z) : Z :=
  let t := LocalTime d in
  UTC (MakeDate (MakeDay (YearFromTime t) month (DateFromTime t))
                (TimeWithinDay t)).

(** [getSubscriptionTrialEndDate]: [None] is [null]; [Math.floor(x / 1000)]
    on an integer [x] is the quotient rounded down, [x / 1000] on [Z]. *)
Definition getSubscriptionTrialEndDate (originalDate : Z) (interval : string)
  : option Z :=
  let newDate := new_Date (getTime originalDate) in
  let newDate := setDate newDate 1 in
  if String.eqb interval "month" then
    Some (setMonth newDate (getMonth newDate + 1) / 1000)
  else if String.eqb interval "year" then
    Some (setMonth newDate (getMonth newDate + 12) / 1000)
  else None.

End TimeZone.

(** The time zone of a process that runs in UTC. *)
Definition utc_zone : Z -> bool -> Z := fun _ _ => 0.

End JsDate.

(* ===================================================================== *)
(** * The order processor *)
(* ===================================================================== *)

Module OrderProcessor.
Import Js.

(** ** Entities *)

Record StripeAccount : Type := mkStripeAccount {
  username : string
}.

Record Collective : Type := mkCollective {
  collective_id : Z;
  slug : string;
  hostFeePercent : Z;
  info : string;
  minimal : string;
  (** what [getHostStripeAccount()] settles to: the account, or the error
      raised when the collective has none *)
  hostStripeAccount : exn + StripeAccount
}.

Record User : Type := mkUser {
  user_id : Z;
  email : string;
  user_minimal : string
}.

Record PaymentMethod : Type := mkPaymentMethod {
  pm_id : Z;
  token : string;
  customerId : option string;
  (** [data], when it is an object, and its key [CustomerIdForHost], when
      present: host user name to customer id *)
  data : option (option (gmap string string));
  confirmedAt : option Z
}.

Record Subscription : Type := mkSubscription {
  subscription_id : Z;
  interval : string;
  stripeSubscriptionId : option string;
  isActive : bool
}.

Record Order : Type := mkOrder {
  order_id : Z;
  FromCollectiveId : Z;
  TierId : option Z;
  totalAmount : Z;
  currency : string;
  description : string;
  createdAt : Z;
  processedAt : option Z;
  fromCollective : Collective;
  toCollective : Collective;
  createdByUser : User;
  tier : option string
}.

(** ** What the gateway exchanges *)

Record Customer : Type := mkCustomer { customer_id : string }.
Record Token : Type := mkToken { token_id : string }.
Record Charge : Type := mkCharge {
  charge_id : string;
  balance_transaction : string
}.
Record BalanceTransaction : Type := mkBalanceTransaction {
  bt_amount : Z;
  bt_currency : string
}.
Record Fees : Type := mkFees { applicationFee : Z; stripeFee : Z }.
Record Plan : Type := mkPlan { plan_id : string }.
Record StripeSubscription : Type := mkStripeSubscription { stripe_subscription_id : string }.

Record Metadata : Type := mkMetadata {
  md_from : string;
  md_to : string;
  md_customerEmail : option string;
  md_PaymentMethodId : Z
}.

Record customer_profile : Type := mkProfile {
  profile_email : string;
  profile_collective : string
}.

Record charge_request : Type := mkChargeRequest {
  cr_amount : Z;
  cr_currency : string;
  cr_source : string;
  cr_description : string;
  cr_application_fee : Z;
  cr_metadata : Metadata
}.

Record plan_request : Type := mkPlanRequest {
  pr_interval : string;
  pr_amount : Z;
  pr_currency : string
}.

Record subscription_request : Type := mkSubscriptionRequest {
  sr_plan : string;
  sr_application_fee_percent : Z;
  sr_trial_end : option Z;
  sr_metadata : Metadata
}.

(** The calls made to the gateway, in order. *)
Inductive call : Type :=
| CallCreateCustomer
| CallCreateToken
| CallCreateCharge
| CallRetrieveBalanceTransaction
| CallGetOrCreatePlan
| CallCreateSubscription.

(** The module [gateways/stripe] as the processor sees it: each call
    settles to a value or to an error, and may depend on the calls made
    before it. *)
Module Stripe.
Record Gateway : Type := mkGateway {
  createCustomer : list call -> option StripeAccount -> string -> customer_profile -> exn + Customer;
  createToken : list call -> StripeAccount -> option string -> exn + Token;
  createCharge : list call -> StripeAccount -> charge_request -> exn + Charge;
  retrieveBalanceTransaction : list call -> StripeAccount -> string -> exn + BalanceTransaction;
  extractFees : BalanceTransaction -> Fees;
  getOrCreatePlan : list call -> StripeAccount -> plan_request -> exn + Plan;
  createSubscription : list call -> StripeAccount -> string -> subscription_request -> exn + StripeSubscription
}.
End Stripe.

(** ** What is persisted *)

(** The [transaction] object of the payload given to
    [models.Transaction.createFromPayload]. *)
Record transaction_payload : Type := mkPayload {
  p_type : string;
  p_OrderId : Z;
  p_amount : Z;
  p_currency : string;
  p_txnCurrency : string;
  p_amountInTxnCurrency : Z;
  p_txnCurrencyFxRate : Q;
  p_hostFeeInTxnCurrency : Z;
  p_platformFeeInTxnCurrency : Z;
  p_paymentProcessorFeeInTxnCurrency : Z;
  p_description : string;
  p_data : Charge * BalanceTransaction;
  p_CreatedByUserId : Z;
  p_FromCollectiveId : Z;
  p_ToCollectiveId : Z
}.

Record Activity : Type := mkActivity {
  activity_type : string;
  activity_collective : string;
  activity_user : string;
  activity_tier : option string;
  activity_subscription : Subscription
}.

Record Member : Type := mkMember {
  member_user : Z;
  member_collective : Z;
  member_role : string;
  member_TierId : option Z
}.

(** The order being processed with the objects it references, the tables
    written to, the calls received by the gateway and the errors it
    answered them with, and the clock. *)
Record world : Type := mkWorld {
  order : Order;
  paymentMethod : PaymentMethod;
  subscription : option Subscription;
  Transactions : list transaction_payload;
  Activities : list Activity;
  Members : list Member;
  calls : list call;
  errors : list (call * exn);
  now : Z
}.

(** ** Promises *)

(** A promise chain: it runs on the world, changes it, and settles to a
    value or to an error.  What was done before a rejection stays done. *)
Definition promise (A : Type) : Type := world -> (exn + A) * world.

Definition resolve {A} (a : A) : promise A := fun w => (inr a, w).
Definition reject {A} (e : exn) : promise A := fun w => (inl e, w).

(** [p.then(f)]. *)
Definition and_then {A B} (p : promise A) (f : A -> promise B) : promise B :=
  fun w =>
    match p w with
    | (inr a, w') => f a w'
    | (inl e, w') => (inl e, w')
    end.

(** [p.tap(f)]: waits for [f], keeps the value of [p]. *)
Definition tap {A B} (p : promise A) (f : A -> promise B) : promise A :=
  and_then p (fun a => and_then (f a) (fun _ => resolve a)).

Definition settle {A} (r : exn + A) : promise A := fun w => (r, w).
Definition get : promise world := fun w => (inr w, w).
Definition modify (f : world -> world) : promise unit := fun w => (inr tt, f w).

Definition record_call (c : call) : promise unit :=
  modify (fun w => mkWorld (order w) (paymentMethod w) (subscription w)
                     (Transactions w) (Activities w) (Members w)
                     (calls w ++ [c]) (errors w) (now w)).

Definition record_error (c : call) (e : exn) : promise unit :=
  modify (fun w => mkWorld (order w) (paymentMethod w) (subscription w)
                     (Transactions w) (Activities w) (Members w)
                     (calls w) (errors w ++ [(c, e)]) (now w)).

(** A call to the gateway: it answers from the calls received so far, and
    is then recorded, with its error when it answers with one. *)
Definition gateway_call {A} (c : call) (answer : list call -> exn + A) : promise A :=
  fun w =>
    let '(_, w') := record_call c w in
    match answer (calls w) with
    | inl e => let '(_, w'') := record_error c e w' in (inl e, w'')
    | inr a => (inr a, w')
    end.

Definition set_paymentMethod (f : PaymentMethod -> PaymentMethod) : promise unit :=
  modify (fun w => mkWorld (order w) (f (paymentMethod w)) (subscription w)
                     (Transactions w) (Activities w) (Members w) (calls w)
                     (errors w) (now w)).

Definition set_order (f : Order -> Order) : promise unit :=
  modify (fun w => mkWorld (f (order w)) (paymentMethod w) (subscription w)
                     (Transactions w) (Activities w) (Members w) (calls w)
                     (errors w) (now w)).

Definition set_subscription (s : Subscription) : promise unit :=
  modify (fun w => mkWorld (order w) (paymentMethod w) (Some s)
                     (Transactions w) (Activities w) (Members w) (calls w)
                     (errors w) (now w)).

Declare Scope promise_scope.
Delimit Scope promise_scope with promise.
Notation "'let*' x ':=' p 'in' k" := (and_then p (fun x => k))
  (at level 10, x pattern, p at level 100, k at level 200) : promise_scope.
Notation "p ';;' k" := (and_then p (fun _ => k))
  (at level 100, k at level 200, right associativity) : promise_scope.
Local Open Scope promise_scope.

(** Truthiness of a nullable string. *)
Definition truthy_string (s : option string) : bool :=
  match s with
  | Some s => negb (String.eqb s "")
  | None => false
  end.

(** ** Persistence *)

(** The models and their instance methods are not in the sources.  An
    entity is kept in one copy, so that a field written to the object is
    written to its row. *)

(** Modelled from the spec: the persistence interface, each write of which
    is a step that may fail.  For every method that the chain waits for,
    the error it settles to, if any, given the world and the arguments of
    the call. *)
Module Models.
Record Persistence : Type := mkPersistence {
  createFromPayload : world -> transaction_payload -> option exn;
  subscription_update : world -> Subscription -> string -> option exn;
  subscription_activate : world -> Subscription -> option exn;
  Activity_create : world -> Activity -> option exn;
  findOrAddUserWithRole :
    world -> Collective -> User -> string -> option Z -> option exn;
  order_update : world -> Z -> option exn;
  paymentMethod_update : world -> Z -> option exn
}.
End Models.

(** A write that the chain waits for: it is rejected with the error of the
    model and then has written nothing, or it is done. *)
Definition persist {A} (failure : option exn) (write : promise A) : promise A :=
  match failure with
  | Some e => reject e
  | None => write
  end.

(** Modelled from the spec: [models.Transaction.createFromPayload], the
    operation that persists a CREDIT/DEBIT pair from one computed payload.
    The pair is kept as the payload it was made from, which is also what
    the call hands back. *)
Definition createFromPayload (models : Models.Persistence)
    (transaction : transaction_payload) : promise transaction_payload :=
  let* w := get in
  persist (Models.createFromPayload models w transaction)
    (modify (fun w => mkWorld (order w) (paymentMethod w) (subscription w)
                        (Transactions w ++ [transaction]) (Activities w)
                        (Members w) (calls w) (errors w) (now w)) ;;
     resolve transaction).

(** Modelled from the spec: [subscription.update({ stripeSubscriptionId })],
    which persists the returned gateway subscription id on the local
    subscription and hands the subscription back. *)
Definition subscription_update (models : Models.Persistence)
    (sub : Subscription) (stripe_id : string) : promise Subscription :=
  let sub' := mkSubscription (subscription_id sub) (interval sub)
                (Some stripe_id) (isActive sub) in
  let* w := get in
  persist (Models.subscription_update models w sub stripe_id)
    (set_subscription sub' ;; resolve sub').

(** Modelled from the spec: [subscription.activate()], which transitions
    the subscription to active and hands it back. *)
Definition subscription_activate (models : Models.Persistence)
    (sub : Subscription) : promise Subscription :=
  let sub' := mkSubscription (subscription_id sub) (interval sub)
                (stripeSubscriptionId sub) true in
  let* w := get in
  persist (Models.subscription_activate models w sub)
    (set_subscription sub' ;; resolve sub').

(** Modelled from the spec: [models.Activity.create], which records one
    activity. *)
Definition Activity_create (models : Models.Persistence)
    (activity : Activity) : promise Activity :=
  let* w := get in
  persist (Models.Activity_create models w activity)
    (modify (fun w => mkWorld (order w) (paymentMethod w) (subscription w)
                        (Transactions w) (Activities w ++ [activity])
                        (Members w) (calls w) (errors w) (now w)) ;;
     resolve activity).

(** Modelled from the spec: [toCollective.findOrAddUserWithRole], the
    idempotent grant of a role on a collective. *)
Definition findOrAddUserWithRole (models : Models.Persistence)
    (c : Collective) (user : User) (role : string) (TierId : option Z)
  : promise unit :=
  let* w := get in
  persist (Models.findOrAddUserWithRole models w c user role TierId)
    (modify (fun w =>
       if existsb (fun m => Z.eqb (member_user m) (user_id user)
                            && Z.eqb (member_collective m) (collective_id c)
                            && String.eqb (member_role m) role) (Members w)
       then w
       else mkWorld (order w) (paymentMethod w) (subscription w)
              (Transactions w) (Activities w)
              (Members w ++ [mkMember (user_id user) (collective_id c) role TierId])
              (calls w) (errors w) (now w))).

(** Modelled from the spec: [order.update({ processedAt: new Date() })],
    which marks the order as processed now. *)
Definition order_update_processedAt (models : Models.Persistence)
  : promise unit :=
  let* w := get in
  persist (Models.order_update models w (now w))
    (set_order (fun o =>
       mkOrder (order_id o) (FromCollectiveId o) (TierId o) (totalAmount o)
         (currency o) (description o) (createdAt o) (Some (now w))
         (fromCollective o) (toCollective o) (createdByUser o) (tier o))).

(** Modelled from the spec: [paymentMethod.update({ confirmedAt: new Date })],
    which marks the payment method as confirmed now. *)
Definition paymentMethod_update_confirmedAt (models : Models.Persistence)
  : promise unit :=
  let* w := get in
  persist (Models.paymentMethod_update models w (now w))
    (set_paymentMethod (fun pm =>
       mkPaymentMethod (pm_id pm) (token pm) (customerId pm) (data pm)
         (Some (now w)))).

(** Modelled from the spec: [paymentMethod.customerId = id] followed by
    [paymentMethod.update({ customerId: id })], which persists the new
    customer id.  The handler that calls it does not return its promise:
    the chain does not wait for it and a rejection of it does not reach
    the chain, while the field of the object is set by the assignment. *)
Definition paymentMethod_update_customerId (id : string) : promise unit :=
  set_paymentMethod (fun pm =>
    mkPaymentMethod (pm_id pm) (token pm) (Some id) (data pm) (confirmedAt pm)).

(** Modelled from the spec: [paymentMethod.data = data] followed by
    [paymentMethod.save()], which persists the cache of customer ids per
    host.  Here too the handler drops the promise of the call, and the
    field of the object is set by the assignment. *)
Definition paymentMethod_save_data (CustomerIdForHost : gmap string string)
  : promise unit :=
  set_paymentMethod (fun pm =>
    mkPaymentMethod (pm_id pm) (token pm) (customerId pm)
      (Some (Some CustomerIdForHost)) (confirmedAt pm)).

Section Processor.

(** The gateway, the models, the time zone of the process, and the
    constants of the modules [constants/transactions], [constants/roles],
    [constants/activities] and [config]. *)
Variable stripe : Stripe.Gateway.
Variable models : Models.Persistence.
Variable LocalTZA : Z -> bool -> Z.
Variable OC_FEE_PERCENT : Z.
Variable DONATION BACKER SUBSCRIPTION_CONFIRMED website : string.

(** [`${config.host.website}/${collective.slug}`]. *)
Definition collective_url (c : Collective) : string :=
  website ++ "/" ++ slug c.

(** [getOrCreateCustomerIdForHost].  When [paymentMethod.data] is an
    object, the local [data] is that same object and the default written to
    its key [CustomerIdForHost] lands in the payment method at once. *)
Definition getOrCreateCustomerIdForHost (hostStripeAccount : StripeAccount)
  : promise string :=
  let* w := get in
  let user := createdByUser (order w) in
  let CustomerIdForHost : gmap string string :=
    match data (paymentMethod w) with
    | Some (Some m) => m
    | _ => ∅
    end in
  match data (paymentMethod w) with
  | Some _ =>
      set_paymentMethod (fun pm =>
        mkPaymentMethod (pm_id pm) (token pm) (customerId pm)
          (Some (Some CustomerIdForHost)) (confirmedAt pm))
  | None => resolve tt
  end ;;
  if truthy_string (CustomerIdForHost !! username hostStripeAccount) then
    resolve (default "" (CustomerIdForHost !! username hostStripeAccount))
  else
    let* tok := gateway_call CallCreateToken (fun h =>
      Stripe.createToken stripe h hostStripeAccount (customerId (paymentMethod w))) in
    let* customer := gateway_call CallCreateCustomer (fun h =>
      Stripe.createCustomer stripe h (Some hostStripeAccount) (token_id tok)
        (mkProfile (email user) (info (fromCollective (order w))))) in
    let customerId' := customer_id customer in
    paymentMethod_save_data
      (<[username hostStripeAccount := customerId']> CustomerIdForHost) ;;
    resolve customerId'.

(** [createSubscription]. *)
Definition createSubscription (hostStripeAccount : StripeAccount)
    (sub : Subscription) : promise Activity :=
  let* w := get in
  let user := createdByUser (order w) in
  let* hostStripePlan := gateway_call CallGetOrCreatePlan (fun h =>
    Stripe.getOrCreatePlan stripe h hostStripeAccount
      (mkPlanRequest (interval sub) (totalAmount (order w))
                     (currency (order w)))) in
  let* hostStripeCustomerId := getOrCreateCustomerIdForHost hostStripeAccount in
  let* stripeSubscription := gateway_call CallCreateSubscription (fun h =>
    Stripe.createSubscription stripe h hostStripeAccount hostStripeCustomerId
      (mkSubscriptionRequest (plan_id hostStripePlan) OC_FEE_PERCENT
         (JsDate.getSubscriptionTrialEndDate LocalTZA (createdAt (order w))
            (interval sub))
         (mkMetadata (collective_url (fromCollective (order w)))
                     (collective_url (toCollective (order w)))
                     None (pm_id (paymentMethod w))))) in
  let* sub := subscription_update models sub
                (stripe_subscription_id stripeSubscription) in
  let* sub := subscription_activate models sub in
  Activity_create models
    (mkActivity SUBSCRIPTION_CONFIRMED (minimal (toCollective (order w)))
       (user_minimal user) (tier (order w)) sub).

(** [createChargeAndTransactions]. *)
Definition createChargeAndTransactions (hostStripeAccount : StripeAccount)
    (hostStripeToken : Token) : promise transaction_payload :=
  let* w := get in
  let o := order w in
  let user := createdByUser o in
  let* charge := gateway_call CallCreateCharge (fun h =>
    Stripe.createCharge stripe h hostStripeAccount
      (mkChargeRequest (totalAmount o) (currency o)
         (token_id hostStripeToken) (description o)
         (Z.quot (totalAmount o * OC_FEE_PERCENT) 100)
         (mkMetadata (collective_url (fromCollective o))
                     (collective_url (toCollective o))
                     (Some (email user)) (pm_id (paymentMethod w))))) in
  let* balanceTransaction := gateway_call CallRetrieveBalanceTransaction (fun h =>
    Stripe.retrieveBalanceTransaction stripe h hostStripeAccount
      (balance_transaction charge)) in
  let fees := Stripe.extractFees stripe balanceTransaction in
  let percent := hostFeePercent (toCollective o) in
  let transaction :=
    mkPayload DONATION (order_id o) (totalAmount o) (currency o)
      (bt_currency balanceTransaction) (bt_amount balanceTransaction)
      (js_div (inject_Z (totalAmount o))
              (inject_Z (bt_amount balanceTransaction)))
      (Z.quot (bt_amount balanceTransaction * percent) 100)
      (applicationFee fees) (stripeFee fees) (description o)
      (charge, balanceTransaction)
      (user_id user) (FromCollectiveId o) (collective_id (toCollective o)) in
  createFromPayload models transaction.

(** [processOrder].  Each [.tap] of the chain runs its handler, waits for
    it, and passes on the value it received. *)
Definition processOrder : promise transaction_payload :=
  let* w0 := get in
  let user := createdByUser (order w0) in
  let collective := toCollective (order w0) in
  let* hostStripeAccount := settle (hostStripeAccount collective) in
  (* get or create a customer under the platform stripe account *)
  let* _ :=
    tap (if truthy_string (customerId (paymentMethod w0))
         then resolve (default "" (customerId (paymentMethod w0)))
         else
           let* customer := gateway_call CallCreateCustomer (fun h =>
             Stripe.createCustomer stripe h None (token (paymentMethod w0))
               (mkProfile (email user) (info (fromCollective (order w0))))) in
           resolve (customer_id customer))
        (fun platformCustomerId =>
           let* w := get in
           if negb (truthy_string (customerId (paymentMethod w))) then
             paymentMethod_update_customerId platformCustomerId
           else resolve tt) in
  (* create a token for the host stripe account *)
  let* w := get in
  let* hostStripeToken := gateway_call CallCreateToken (fun h =>
    Stripe.createToken stripe h hostStripeAccount (customerId (paymentMethod w))) in
  (* both one-time and subscriptions get charged immediately *)
  let* transactions := createChargeAndTransactions hostStripeAccount hostStripeToken in
  tap (tap (tap (tap (resolve transactions)
    (* if this is a subscription, we create it now on Stripe *)
    (fun _ =>
       match subscription w0 with
       | Some s => createSubscription hostStripeAccount s ;; resolve tt
       | None => resolve tt
       end))
    (* add user to the collective *)
    (fun _ => findOrAddUserWithRole models collective user BACKER
                (TierId (order w0))))
    (* mark order row as processed *)
    (fun _ => order_update_processedAt models))
    (* mark paymentMethod as confirmed *)
    (fun _ => paymentMethod_update_confirmedAt models).

End Processor.

End OrderProcessor.

(* ===================================================================== *)
(** * The script's entry point *)
(* ===================================================================== *)

Module Script.
Import Js Ledger FeeMigration Cli.

(** The process: the world of the job and the connection pool of the ORM
    ([sequelize]), open when the script starts. *)
Record process : Type := mkProcess {
  job : world;
  connected : bool
}.

(** [vprint]: prints [message] if [options.verbose] is true. *)
Definition vprint (o : options) (message : string) (w : world) : world :=
  if verbose o then mkWorld (db w) (out w ++ [[LStr message]]) else w.

(** [sequelize.close()], a call into the ORM: it closes the connection
    pool, and is taken to succeed. *)
Definition sequelize_close (p : process) : process :=
  mkProcess (job p) false.

(** [entryPoint], for at most [fuel] iterations of the loop of [run]: the
    [finally] block runs whether [run] resolved or threw, and the line
    after it only when nothing was thrown. *)
Definition entryPoint (fuel : nat) (o : options) (p : process)
  : option outcome * process :=
  let w := vprint o "Starting to migrate fees" (job p) in
  match run fuel o w with
  | (None, _, w') => (None, mkProcess w' (connected p))
  | (Some (Rejected e), _, w') =>
      (Some (Rejected e), sequelize_close (mkProcess w' (connected p)))
  | (Some Resolved, _, w') =>
      let p' := sequelize_close (mkProcess w' (connected p)) in
      (Some Resolved,
       mkProcess (vprint o "Finished migrating fees" (job p')) (connected p'))
  end.

End Script.


(* ===================================================================== *)
(** * Fixtures *)
(* ===================================================================== *)

Module Fixtures.
Import Js Ledger FeeMigration Cli.

Definition int (z : Z) : value := VNum (inject_Z z).

(** The pair of the end-to-end example: same currency, order 7. *)
Definition example_credit : Transaction :=
  mkTransaction 1 "CREDIT" "6f1c" (Some 7) None
    (int 1000) (int 1000) (int 0) (int 0) (int 0) (int 1) (int 1000) None.

Definition example_debit : Transaction :=
  mkTransaction 2 "DEBIT" "6f1c" (Some 7) None
    (int (-1000)) (int (-1000)) (int 50) (int 30) (int 20) (int 1)
    (int (-1000)) None.

(** The two rows as [migrate] leaves them. *)
Definition migrated_example : store :=
  (migrate example_credit example_debit).1.2.

(** A pair that belongs to expense 3, with fees of the wrong sign and no
    rate. *)
Definition expense_credit : Transaction :=
  mkTransaction 3 "CREDIT" "a2e0" None (Some 3)
    (int 500) (int 500) (int 25) (int 0) (int 15) VNull (int 460) None.

Definition expense_debit : Transaction :=
  mkTransaction 4 "DEBIT" "a2e0" None (Some 3)
    (int (-500)) (int (-500)) (int 25) (int 0) (int 15) VNull (int (-500)) None.

(** A row paid in another currency: 1000 in the collective's currency is
    2000 in the host's, at a rate of one half; no fees. *)
Definition cross_currency_row : Transaction :=
  mkTransaction 5 "CREDIT" "c0de" (Some 8) None
    (int 1000) (int 2000) (int 0) (int 0) (int 0) (VNum (1 # 2)) (int 1000)
    None.

(** Two rows whose rate is a decimal that no double holds exactly: 1000 at
    1.1 recorded as 1100, and 100 at 0.07 recorded as 7. *)
Definition tenth_above_rate_row : Transaction :=
  mkTransaction 7 "CREDIT" "1a1a" (Some 10) None
    (int 1000) (int 1000) (int 0) (int 0) (int 0) (VNum (11 # 10)) (int 1100)
    None.

Definition seven_percent_rate_row : Transaction :=
  mkTransaction 8 "CREDIT" "7c7c" (Some 11) None
    (int 100) (int 100) (int 0) (int 0) (int 0) (VNum (7 # 100)) (int 7)
    None.

(** A row whose rate column holds 0. *)
Definition zero_rate_row : Transaction :=
  mkTransaction 6 "CREDIT" "0f0f" (Some 9) None
    (int 100) (int 100) (int 0) (int 0) (int 0) (int 0) (int 100) None.

(** The command line without any flag. *)
Definition no_flags : argv := mkArgv false false None None.

(** The command line [--notdryrun]. *)
Definition not_dry_run : argv := mkArgv false true None None.

(** The command line [--notdryrun --limit 4]. *)
Definition limit_four : argv := mkArgv false true (Some "4") None.

(** A table that holds one row only, and a table that holds one pair. *)
Definition single_row_table : table := [example_credit].
Definition one_pair_table : table := [example_credit; example_debit].

End Fixtures.

Module OrderFixtures.
Import Js OrderProcessor.

Definition host_account : StripeAccount := mkStripeAccount "host-acct".

Definition refusal : exn := Error "subscription refused".

(** A gateway that accepts everything but subscriptions. *)
Definition refusing_gateway : Stripe.Gateway :=
  Stripe.mkGateway
    (fun _ _ _ _ => inr (mkCustomer "cus_1"))
    (fun _ _ _ => inr (mkToken "tok_1"))
    (fun _ _ _ => inr (mkCharge "ch_1" "txn_1"))
    (fun _ _ _ => inr (mkBalanceTransaction 1000 "usd"))
    (fun _ => mkFees 50 59)
    (fun _ _ _ => inr (mkPlan "plan_1"))
    (fun _ _ _ _ => inl refusal).

Definition backer : User := mkUser 11 "backer@example.org" "backer".
Definition payer : Collective :=
  mkCollective 21 "payer" 0 "payer-info" "payer-min" (inl (Error "no host")).
Definition payee : Collective :=
  mkCollective 22 "payee" 10 "payee-info" "payee-min" (inr host_account).

(** An order of 1000 created on 2020-03-15T00:00:00Z, with a monthly
    subscription and a payment method that has no customer yet. *)
Definition monthly_order : Order :=
  mkOrder 31 21 None 1000 "usd" "monthly donation" 1584230400000 None
          payer payee backer None.

Definition monthly_world : world :=
  mkWorld monthly_order
          (mkPaymentMethod 41 "tok_card" None None None)
          (Some (mkSubscription 51 "month" None false))
          [] [] [] [] [] 1584230500000.

(** Models none of whose writes fails. *)
Definition reliable_models : Models.Persistence :=
  Models.mkPersistence
    (fun _ _ => None) (fun _ _ _ => None) (fun _ _ => None)
    (fun _ _ => None) (fun _ _ _ _ _ => None) (fun _ _ => None)
    (fun _ _ => None).

(** That order processed with that gateway and those models, in UTC, with
    a fee of 5 percent. *)
Definition refused_run : (exn + transaction_payload) * world :=
  processOrder refusing_gateway reliable_models JsDate.utc_zone 5 "DONATION"
               "BACKER" "subscription.confirmed" "https://example.org"
               monthly_world.

End OrderFixtures.

Module ExtraFixtures.
Import Js Ledger FeeMigration Cli.

(** A row of a type from before the ledger had credits and debits, with
    a positive fee and no rate. *)
Definition legacy_donation : Transaction :=
  mkTransaction 7 "DONATION" "6f1c" (Some 7) None
    (Fixtures.int 1000) (Fixtures.int 1000) (Fixtures.int 50) VNull VNull
    VNull (Fixtures.int 950) None.

(** An order pair whose credit row carries its fees as positive numbers. *)
Definition positive_fee_credit : Transaction :=
  mkTransaction 10 "CREDIT" "9b3e" (Some 12) None
    (Fixtures.int 1000) (Fixtures.int 1000) (Fixtures.int 50)
    (Fixtures.int 30) (Fixtures.int 20) (Fixtures.int 1) (Fixtures.int 900)
    None.

Definition positive_fee_debit : Transaction :=
  mkTransaction 11 "DEBIT" "9b3e" (Some 12) None
    (Fixtures.int (-900)) (Fixtures.int (-900)) (Fixtures.int 0)
    (Fixtures.int 0) (Fixtures.int 0) (Fixtures.int 1) (Fixtures.int (-1000))
    None.

(** A row without a partner, in a group of its own. *)
Definition stray_row : Transaction :=
  mkTransaction 12 "DEBIT" "c41d" (Some 13) None
    (Fixtures.int (-40)) (Fixtures.int (-40)) VNull VNull VNull
    (Fixtures.int 1) (Fixtures.int (-40)) None.

(** Two pairs, inserted interleaved. *)
Definition two_pair_table : table :=
  [Fixtures.expense_credit; Fixtures.example_credit;
   Fixtures.expense_debit; Fixtures.example_debit].

Definition two_pair_world : world := mkWorld two_pair_table [].

(** A pair followed, in the order of the scan, by two rows of different
    groups. *)
Definition mismatch_world : world :=
  mkWorld [stray_row; Fixtures.example_credit; Fixtures.expense_credit;
           Fixtures.example_debit] [].

(** Options as the constructor of [Migration] receives them. *)
Definition batch_of (n : nat) : options := mkOptions true false ANull (ANum n).

(** The process at the start of the script, on a table of one row, and
    the command line [-v]. *)
Definition single_row_process : Script.process :=
  Script.mkProcess (mkWorld Fixtures.single_row_table []) true.

Definition verbose_flag : argv := mkArgv true false None None.

End ExtraFixtures.

Module OrderExtraFixtures.
Import Js OrderProcessor.

(** A gateway that accepts everything. *)
Definition accepting_gateway : Stripe.Gateway :=
  Stripe.mkGateway
    (fun _ _ _ _ => inr (mkCustomer "cus_1"))
    (fun _ _ _ => inr (mkToken "tok_1"))
    (fun _ _ _ => inr (mkCharge "ch_1" "txn_1"))
    (fun _ _ _ => inr (mkBalanceTransaction 1000 "usd"))
    (fun _ => mkFees 50 59)
    (fun _ _ _ => inr (mkPlan "plan_1"))
    (fun _ _ _ _ => inr (mkStripeSubscription "sub_1")).

Definition lost_balance : exn := Error "no such balance transaction".

(** A gateway that charges but cannot show the balance transaction of the
    charge. *)
Definition forgetful_gateway : Stripe.Gateway :=
  Stripe.mkGateway
    (fun _ _ _ _ => inr (mkCustomer "cus_1"))
    (fun _ _ _ => inr (mkToken "tok_1"))
    (fun _ _ _ => inr (mkCharge "ch_1" "txn_1"))
    (fun _ _ _ => inl lost_balance)
    (fun _ => mkFees 50 59)
    (fun _ _ _ => inr (mkPlan "plan_1"))
    (fun _ _ _ _ => inr (mkStripeSubscription "sub_1")).

(** A gateway that refuses the charge. *)
Definition declined : exn := Error "card declined".

Definition declining_gateway : Stripe.Gateway :=
  Stripe.mkGateway
    (fun _ _ _ _ => inr (mkCustomer "cus_1"))
    (fun _ _ _ => inr (mkToken "tok_1"))
    (fun _ _ _ => inl declined)
    (fun _ _ _ => inr (mkBalanceTransaction 1000 "usd"))
    (fun _ => mkFees 50 59)
    (fun _ _ _ => inr (mkPlan "plan_1"))
    (fun _ _ _ _ => inr (mkStripeSubscription "sub_1")).

(** The monthly order of [OrderFixtures] without its subscription, and
    paid with a payment method that is a customer of the platform
    already. *)
Definition one_time_world : world :=
  mkWorld OrderFixtures.monthly_order
          (mkPaymentMethod 41 "tok_card" None None None)
          None [] [] [] [] [] 1584230500000.

Definition known_customer_world : world :=
  mkWorld OrderFixtures.monthly_order
          (mkPaymentMethod 41 "tok_card" (Some "cus_9") None None)
          None [] [] [] [] [] 1584230500000.

(** An order to a collective without a host account. *)
Definition orphan_world : world :=
  mkWorld (mkOrder 32 21 None 1000 "usd" "donation" 1584230400000 None
                   OrderFixtures.payer OrderFixtures.payer
                   OrderFixtures.backer None)
          (mkPaymentMethod 41 "tok_card" None None None)
          None [] [] [] [] [] 1584230500000.

(** The transaction that the charge of the monthly order gives rise to. *)
Definition monthly_payload : transaction_payload :=
  mkPayload "DONATION" 31 1000 "usd" "usd" 1000
    (js_div (inject_Z 1000) (inject_Z 1000)) 100 50 59 "monthly donation"
    (mkCharge "ch_1" "txn_1", mkBalanceTransaction 1000 "usd") 11 21 22.

(** Models that fail to save the payment method, and no other row. *)
Definition unsaved : exn := Error "payment method not saved".

Definition unconfirming_models : Models.Persistence :=
  Models.mkPersistence
    (fun _ _ => None) (fun _ _ _ => None) (fun _ _ => None)
    (fun _ _ => None) (fun _ _ _ _ _ => None) (fun _ _ => None)
    (fun _ _ => Some unsaved).

Definition process_with (stripe : Stripe.Gateway) (models : Models.Persistence)
    (w : world) : (exn + transaction_payload) * world :=
  processOrder stripe models JsDate.utc_zone 5 "DONATION" "BACKER"
               "subscription.confirmed" "https://example.org" w.

Definition process (stripe : Stripe.Gateway) (w : world)
  : (exn + transaction_payload) * world :=
  process_with stripe OrderFixtures.reliable_models w.

(** The runs the examples are about. *)
Definition accepted_run := process accepting_gateway OrderFixtures.monthly_world.
Definition declined_run := process declining_gateway one_time_world.
Definition forgotten_run := process forgetful_gateway one_time_world.
Definition known_customer_run := process accepting_gateway known_customer_world.
Definition unconfirmed_run :=
  process_with accepting_gateway unconfirming_models one_time_world.

Definition host_customer_run : (exn + string) * world :=
  getOrCreateCustomerIdForHost accepting_gateway OrderFixtures.host_account
    one_time_world.

Definition charge_run : (exn + transaction_payload) * world :=
  createChargeAndTransactions accepting_gateway OrderFixtures.reliable_models
    5 "DONATION" "https://example.org" OrderFixtures.host_account (mkToken "tok_1")
    one_time_world.

End OrderExtraFixtures.


(* ===================================================================== *)
(** * Notions used in the statements *)
(* ===================================================================== *)

Import Js Ledger FeeMigration.

(** The net value that uses the column [amount], as the data model of the
    specification words it. *)
Definition netValue_on_amount (tr : Transaction) : Q :=
  js_mul
    (Math_round
       (js_add (js_add (js_add (ToNumber (amount tr))
                               (ToNumber (hostFeeInHostCurrency tr)))
                       (ToNumber (platformFeeInHostCurrency tr)))
               (ToNumber (paymentProcessorFeeInHostCurrency tr))))
    (ToNumber (hostCurrencyFxRate tr)).

(** The sum [trValue] rounds: the three additions, left to right, each one
    rounded to a double. *)
Definition host_currency_sum (tr : Transaction) : Q :=
  js_add (js_add (js_add (ToNumber (amountInHostCurrency tr))
                         (ToNumber (hostFeeInHostCurrency tr)))
                 (ToNumber (platformFeeInHostCurrency tr)))
         (ToNumber (paymentProcessorFeeInHostCurrency tr)).

(** The columns that no assignment of the script targets. *)
Definition same_untouched_columns (a b : Transaction) : Prop :=
  id a = id b /\ type a = type b /\
  TransactionGroup a = TransactionGroup b /\
  OrderId a = OrderId b /\ ExpenseId a = ExpenseId b /\
  amount a = amount b /\ amountInHostCurrency a = amountInHostCurrency b /\
  netAmountInCollectiveCurrency a = netAmountInCollectiveCurrency b /\
  deletedAt a = deletedAt b.

(** The local time of the first day of the month of [t], at the time of
    day of [t]. *)
Definition first_of_month (tz : Z -> bool -> Z) (t : Z) : Z :=
  let lt := JsDate.LocalTime tz t in
  JsDate.MakeDate
    (JsDate.MakeDay (JsDate.YearFromTime lt) (JsDate.MonthFromTime lt) 1)
    (JsDate.TimeWithinDay lt).

(** Local midnight of a civil date, as a local time value. *)
Definition local_midnight (y m d : Z) : Z :=
  JsDate.MakeDate (JsDate.days_from_civil y m d) 0.

(** A batch whose rows come in adjacent pairs of one group each. *)
Inductive paired : list Transaction -> Prop :=
| paired_nil : paired []
| paired_cons (t1 t2 : Transaction) (l : list Transaction) :
    TransactionGroup t1 = TransactionGroup t2 -> paired l ->
    paired (t1 :: t2 :: l).

(** Filling in the rates of both named rows, as the order branch does. *)
Definition ensure_both (credit debit : ref) (s : store) : store :=
  update debit ensureHostCurrencyFxRate
    (update credit ensureHostCurrencyFxRate s).

(** A row with its three fee columns replaced. *)
Definition with_fees (h p pp : value) (tr : Transaction) : Transaction :=
  set_paymentProcessorFeeInHostCurrency pp
    (set_platformFeeInHostCurrency p (set_hostFeeInHostCurrency h tr)).

(** Whether a cell of the pair is the one named [credit] or [debit]. *)
Definition named (credit debit r : ref) : bool :=
  match r, credit, debit with
  | Tr1, Tr1, _ | Tr1, _, Tr1 | Tr2, Tr2, _ | Tr2, _, Tr2 => true
  | _, _, _ => false
  end.

(** The valid rows of a table in the order of the scan. *)
Definition scanned (d : table) : list Transaction :=
  order_by_group (List.filter not_deleted d).


(** The loop of [run] over all the valid rows of the table as one batch. *)
Definition one_pass (w : Cli.world) : outcome * console :=
  Cli.for_pairs (scanned (Cli.db w)) (Cli.out w).

(** The order of the scan on two rows. *)
Definition le_group (a b : Transaction) : Prop :=
  String.leb (TransactionGroup a) (TransactionGroup b) = true.

(** The number of rows of a group. *)
Definition group_size (g : string) (l : list Transaction) : nat :=
  length (List.filter (fun t => String.eqb (TransactionGroup t) g) l).

(** What [entryPoint] prints after the connection is closed. *)
Definition closing_lines (o : Cli.options) (r : outcome) : console :=
  match r with
  | Resolved =>
      if Cli.verbose o then [[LStr "Finished migrating fees"]] else []
  | Rejected _ => []
  end.

(** Whether a row of [Members] grants [role] on the collective to the
    user. *)
Definition grants (role : string) (user : OrderProcessor.User)
    (c : OrderProcessor.Collective) (m : OrderProcessor.Member) : Prop :=
  OrderProcessor.member_user m = OrderProcessor.user_id user /\
  OrderProcessor.member_collective m = OrderProcessor.collective_id c /\
  OrderProcessor.member_role m = role.

(** Unfolding the promise chain of the order processor down to the world,
    and following it through every settlement. *)
Ltac unfold_chain :=
  unfold OrderProcessor.processOrder,
    OrderProcessor.createChargeAndTransactions,
    OrderProcessor.createSubscription,
    OrderProcessor.getOrCreateCustomerIdForHost,
    OrderProcessor.findOrAddUserWithRole, OrderProcessor.createFromPayload,
    OrderProcessor.subscription_update, OrderProcessor.subscription_activate,
    OrderProcessor.Activity_create, OrderProcessor.order_update_processedAt,
    OrderProcessor.paymentMethod_update_confirmedAt,
    OrderProcessor.paymentMethod_update_customerId,
    OrderProcessor.paymentMethod_save_data;
  unfold OrderProcessor.tap, OrderProcessor.and_then, OrderProcessor.get,
    OrderProcessor.settle, OrderProcessor.gateway_call,
    OrderProcessor.record_call, OrderProcessor.record_error,
    OrderProcessor.set_order, OrderProcessor.set_subscription,
    OrderProcessor.set_paymentMethod, OrderProcessor.modify,
    OrderProcessor.persist, OrderProcessor.resolve, OrderProcessor.reject.

Ltac follow_chain :=
  repeat match goal with
  | |- context [match ?x with inl _ => _ | inr _ => _ end] =>
      destruct x eqn:?; cbn
  | |- context [if ?c then _ else _] => destruct c eqn:?; cbn
  | |- context [match ?x with Some _ => _ | None => _ end] =>
      destruct x eqn:?; cbn
  end.

(** A time zone whose offset from UTC never changes. *)
Definition fixed_zone (offset : Z) : Z -> bool -> Z := fun _ _ => offset.
(* ===================================================================== *)
(** * Properties of doubles *)
(* ===================================================================== *)

(** ** Exponent and significand *)

Lemma pow2_pos (e : Z) : (0 < pow2 e)%Q.
Proof. apply Qpower_0_lt. reflexivity. Qed.

Lemma pow2_add (a b : Z) : (pow2 (a + b) == pow2 a * pow2 b)%Q.
Proof. apply Qpower_plus. discriminate. Qed.

Lemma pow2_lt (a b : Z) : a < b -> (pow2 a < pow2 b)%Q.
Proof. intros H. apply Qpower_lt_compat_l; [exact H|reflexivity]. Qed.

Lemma pow2_le (a b : Z) : a <= b -> (pow2 a <= pow2 b)%Q.
Proof. intros H. apply Qpower_le_compat_l; [exact H|discriminate]. Qed.

Lemma pow2_lt_inv (a b : Z) : (pow2 a < pow2 b)%Q -> a < b.
Proof. intros H. apply (Qpower_lt_compat_l_inv 2); [exact H|reflexivity]. Qed.

Lemma pow2_Z (n : Z) : 0 <= n -> (inject_Z (2 ^ n) == pow2 n)%Q.
Proof. intros H. apply Zpower_Qpower. exact H. Qed.

Lemma Q_as_fraction (q : Q) :
  (q * inject_Z (Zpos (Qden q)) == inject_Z (Qnum q))%Q.
Proof.
  destruct q as [n d]. unfold Qeq, Qmult, inject_Z. cbn [Qnum Qden].
  rewrite Pos.mul_1_r. lia.
Qed.

Lemma ilog2_bounds (q : Q) :
  (0 < q)%Q ->
  let k0 := Z.log2 (Qnum q) - Z.log2 (Zpos (Qden q)) in
  (pow2 (k0 - 1) < q)%Q /\ (q < pow2 (k0 + 1))%Q.
Proof.
  intros Hq. cbv zeta.
  assert (Hn : 0 < Qnum q).
  { destruct q as [n d]. unfold Qlt in Hq. cbn in *. lia. }
  set (n := Qnum q) in *. set (d := Zpos (Qden q)).
  assert (Hd : 0 < d) by (unfold d; lia).
  destruct (Z.log2_spec n Hn) as [Hn1 Hn2].
  destruct (Z.log2_spec d Hd) as [Hd1 Hd2].
  pose proof (Z.log2_nonneg n) as Ha. pose proof (Z.log2_nonneg d) as Hb.
  set (a := Z.log2 n) in *. set (b := Z.log2 d) in *.
  assert (Hdq : (0 < inject_Z d)%Q).
  { unfold Qlt. cbn. lia. }
  pose proof (Q_as_fraction q) as Hfrac. fold n d in Hfrac.
  split.
  - apply (Qmult_lt_r _ _ (inject_Z d) Hdq). rewrite Hfrac.
    apply Qlt_le_trans with (pow2 a).
    + replace a with ((a - b - 1) + (b + 1)) at 2 by lia.
      rewrite pow2_add. apply Qmult_lt_l; [apply pow2_pos|].
      rewrite <- pow2_Z by lia. rewrite <- Zlt_Qlt.
      replace (Z.succ b) with (b + 1) in Hd2 by lia. exact Hd2.
    + rewrite <- pow2_Z by lia. rewrite <- Zle_Qle. exact Hn1.
  - apply (Qmult_lt_r _ _ (inject_Z d) Hdq). rewrite Hfrac.
    apply Qlt_le_trans with (pow2 (a + 1)).
    + rewrite <- pow2_Z by lia. rewrite <- Zlt_Qlt.
      replace (Z.succ a) with (a + 1) in Hn2 by lia. exact Hn2.
    + replace (a + 1) with ((a - b + 1) + b) at 1 by lia.
      rewrite pow2_add. apply Qmult_le_l; [apply pow2_pos|].
      rewrite <- pow2_Z by lia. rewrite <- Zle_Qle. exact Hd1.
Qed.

Lemma ilog2_spec (q : Q) :
  (0 < q)%Q -> (pow2 (ilog2 q) <= q)%Q /\ (q < pow2 (ilog2 q + 1))%Q.
Proof.
  intros Hq. destruct (ilog2_bounds q Hq) as [Hlo Hhi]. cbv zeta in *.
  unfold ilog2. cbv zeta.
  set (k0 := Z.log2 (Qnum q) - Z.log2 (Zpos (Qden q))) in *.
  destruct (Qle_bool (pow2 k0) q) eqn:E.
  - split; [apply Qle_bool_iff; exact E|exact Hhi].
  - split; [apply Qlt_le_weak; exact Hlo|].
    replace (k0 - 1 + 1) with k0 by lia.
    apply Qnot_le_lt. intros H. apply Qle_bool_iff in H. congruence.
Qed.

Lemma ilog2_unique (q : Q) (k : Z) :
  (pow2 k <= q)%Q -> (q < pow2 (k + 1))%Q -> ilog2 q = k.
Proof.
  intros Hlo Hhi.
  assert (Hq : (0 < q)%Q) by (eapply Qlt_le_trans; [apply pow2_pos|exact Hlo]).
  destruct (ilog2_spec q Hq) as [Hlo' Hhi'].
  assert (H1 : ilog2 q < k + 1)
    by (apply pow2_lt_inv; eapply Qle_lt_trans; eassumption).
  assert (H2 : k < ilog2 q + 1)
    by (apply pow2_lt_inv; eapply Qle_lt_trans; eassumption).
  lia.
Qed.

Lemma ilog2_comp (q q' : Q) : (q == q')%Q -> (0 < q)%Q -> ilog2 q = ilog2 q'.
Proof.
  intros H Hq. destruct (ilog2_spec q Hq) as [Hlo Hhi].
  symmetry. apply ilog2_unique; rewrite <- H; assumption.
Qed.

Lemma round_half_even_comp (x y : Q) :
  (x == y)%Q -> round_half_even x = round_half_even y.
Proof.
  intros H. unfold round_half_even. cbv zeta.
  rewrite (Qfloor_comp _ _ H).
  assert (Hc : (x - inject_Z (Qfloor y) ?= 1 # 2)%Q
               = (y - inject_Z (Qfloor y) ?= 1 # 2)%Q)
    by (rewrite H; reflexivity).
  rewrite Hc. reflexivity.
Qed.

Lemma round_half_even_Z (z : Z) : round_half_even (inject_Z z) = z.
Proof.
  unfold round_half_even. cbv zeta. rewrite Qfloor_Z.
  assert (Hc : (inject_Z z - inject_Z z ?= 1 # 2)%Q = Lt).
  { rewrite <- Qlt_alt. setoid_replace (inject_Z z - inject_Z z)%Q with 0%Q
      using relation Qeq by ring.
    reflexivity. }
  rewrite Hc. reflexivity.
Qed.

Lemma round_half_even_floor (x : Q) :
  round_half_even x = Qfloor x \/
  (round_half_even x = Qfloor x + 1 /\ (inject_Z (Qfloor x) < x)%Q).
Proof.
  unfold round_half_even. cbv zeta.
  destruct (x - inject_Z (Qfloor x) ?= 1 # 2)%Q eqn:E.
  - apply Qeq_alt in E.
    assert (Hx : (inject_Z (Qfloor x) < x)%Q).
    { setoid_replace x with (inject_Z (Qfloor x) + (1 # 2))%Q
        using relation Qeq at 2 by (rewrite <- E; ring).
      rewrite <- (Qplus_0_r (inject_Z (Qfloor x))) at 1.
      apply Qplus_lt_r. reflexivity. }
    destruct (Z.even (Qfloor x)); [left; reflexivity|right; split; [reflexivity|exact Hx]].
  - left. reflexivity.
  - right. split; [reflexivity|]. apply Qgt_alt in E.
    apply Qlt_trans with (inject_Z (Qfloor x) + (1 # 2))%Q.
    + rewrite <- (Qplus_0_r (inject_Z (Qfloor x))) at 1.
      apply Qplus_lt_r. reflexivity.
    + apply Qplus_lt_l with (z := (- inject_Z (Qfloor x))%Q).
      setoid_replace (inject_Z (Qfloor x) + (1 # 2) + - inject_Z (Qfloor x))%Q
        with (1 # 2)%Q using relation Qeq by ring.
      exact E.
Qed.

Lemma round_half_even_ge (x : Q) (z : Z) :
  (inject_Z z <= x)%Q -> z <= round_half_even x.
Proof.
  intros H. apply Qfloor_resp_le in H. rewrite Qfloor_Z in H.
  destruct (round_half_even_floor x) as [-> | [-> _]]; lia.
Qed.

Lemma round_half_even_le (x : Q) (z : Z) :
  (x <= inject_Z z)%Q -> round_half_even x <= z.
Proof.
  intros H. pose proof (Qfloor_resp_le _ _ H) as Hf. rewrite Qfloor_Z in Hf.
  destruct (round_half_even_floor x) as [-> | [-> Hlt]]; [exact Hf|].
  assert (Hz : (inject_Z (Qfloor x) < inject_Z z)%Q)
    by (eapply Qlt_le_trans; eassumption).
  rewrite <- Zlt_Qlt in Hz. lia.
Qed.

(** The significand and the exponent of the double of a positive number. *)
Lemma double_of_positive_form (q : Q) :
  (0 < q)%Q ->
  2 ^ 52 <= round_half_even (q * pow2 (- (ilog2 q - 52))) <= 2 ^ 53.
Proof.
  intros Hq. destruct (ilog2_spec q Hq) as [Hlo Hhi].
  set (k := ilog2 q) in *.
  assert (Hs : (0 < pow2 (- (k - 52)))%Q) by apply pow2_pos.
  split.
  - apply round_half_even_ge. rewrite (pow2_Z 52) by lia.
    replace (pow2 52) with (pow2 (k + - (k - 52))) by (f_equal; lia).
    rewrite (pow2_add k (- (k - 52))).
    apply Qmult_le_r; assumption.
  - apply round_half_even_le. rewrite (pow2_Z 53) by lia.
    replace (pow2 53) with (pow2 ((k + 1) + - (k - 52))) by (f_equal; lia).
    rewrite (pow2_add (k + 1) (- (k - 52))).
    apply Qlt_le_weak. apply Qmult_lt_r; assumption.
Qed.

Lemma double_of_positive_pos (q : Q) :
  (0 < q)%Q -> (0 < double_of_positive q)%Q.
Proof.
  intros Hq. unfold double_of_positive. cbv zeta.
  destruct (double_of_positive_form q Hq) as [Hm _].
  apply Qmult_lt_0_compat; [|apply pow2_pos].
  change 0%Q with (inject_Z 0). rewrite <- Zlt_Qlt.
  assert (0 < 2 ^ 52) by (apply Z.pow_pos_nonneg; lia). lia.
Qed.

Lemma double_of_positive_comp (q q' : Q) :
  (q == q')%Q -> (0 < q)%Q ->
  (double_of_positive q == double_of_positive q')%Q.
Proof.
  intros H Hq. unfold double_of_positive. cbv zeta.
  rewrite <- (ilog2_comp q q' H Hq).
  assert (Hx : (q * pow2 (- (ilog2 q - 52)) == q' * pow2 (- (ilog2 q - 52)))%Q).
  { apply Qmult_comp; [exact H|reflexivity]. }
  rewrite (round_half_even_comp _ _ Hx). reflexivity.
Qed.

(** A number with a significand of 53 bits is its own double. *)
Lemma double_of_positive_fixed (m e : Z) :
  2 ^ 52 <= m <= 2 ^ 53 ->
  (double_of_positive (inject_Z m * pow2 e) == inject_Z m * pow2 e)%Q.
Proof.
  intros [Hlo Hhi].
  assert (H52 : (inject_Z (2 ^ 52) == pow2 52)%Q) by (apply pow2_Z; lia).
  assert (H53 : (inject_Z (2 ^ 53) == pow2 53)%Q) by (apply pow2_Z; lia).
  assert (He : (0 < pow2 e)%Q) by apply pow2_pos.
  destruct (Z.eq_dec m (2 ^ 53)) as [-> | Hne].
  - assert (Hk : ilog2 (inject_Z (2 ^ 53) * pow2 e) = 53 + e).
    { apply ilog2_unique.
      - rewrite (pow2_add 53 e), H53. apply Qle_refl.
      - rewrite H53, <- pow2_add. apply pow2_lt. lia. }
    unfold double_of_positive. cbv zeta. rewrite Hk.
    rewrite (round_half_even_comp _ (inject_Z (2 ^ 52))).
    + rewrite round_half_even_Z, H52, H53, <- !pow2_add.
      replace (52 + (53 + e - 52)) with (53 + e) by lia. reflexivity.
    + rewrite H52, H53, <- !pow2_add.
      replace (53 + e + - (53 + e - 52)) with 52 by lia. reflexivity.
  - assert (Hk : ilog2 (inject_Z m * pow2 e) = 52 + e).
    { apply ilog2_unique.
      - rewrite (pow2_add 52 e). apply Qmult_le_r; [exact He|].
        rewrite <- H52, <- Zle_Qle. exact Hlo.
      - replace (52 + e + 1) with (53 + e) by lia. rewrite (pow2_add 53 e).
        apply Qmult_lt_r; [exact He|].
        rewrite <- H53, <- Zlt_Qlt. lia. }
    unfold double_of_positive. cbv zeta. rewrite Hk.
    replace (52 + e - 52) with e by lia.
    rewrite (round_half_even_comp _ (inject_Z m)).
    + rewrite round_half_even_Z. reflexivity.
    + rewrite <- Qmult_assoc, <- pow2_add.
      replace (e + - e) with 0 by lia. change (pow2 0) with 1%Q. ring.
Qed.

Lemma double_of_positive_idempotent (q : Q) :
  (0 < q)%Q ->
  (double_of_positive (double_of_positive q) == double_of_positive q)%Q.
Proof.
  intros Hq. unfold double_of_positive at 2 3. cbv zeta.
  apply double_of_positive_fixed. apply double_of_positive_form. exact Hq.
Qed.

(** ** The double nearest to a rational *)

Lemma Qlt_opp_positive (q : Q) : (q < 0)%Q -> (0 < - q)%Q.
Proof. destruct q as [n d]. unfold Qlt. cbn. lia. Qed.

Lemma Qlt_opp_negative (q : Q) : (0 < q)%Q -> (- q < 0)%Q.
Proof. destruct q as [n d]. unfold Qlt. cbn. lia. Qed.

Lemma Qcompare_opp_zero (q : Q) : (- q ?= 0)%Q = CompOpp (q ?= 0)%Q.
Proof. destruct q as [[|n|n] d]; reflexivity. Qed.

Lemma double_comp (q q' : Q) : (q == q')%Q -> double q = double q'.
Proof.
  intros H. unfold double. apply Qred_complete.
  assert (Hc : (q ?= 0)%Q = (q' ?= 0)%Q) by (rewrite H; reflexivity).
  rewrite <- Hc. destruct (q ?= 0)%Q eqn:E.
  - reflexivity.
  - apply Qlt_alt in E. apply Qopp_comp. apply double_of_positive_comp.
    + apply Qopp_comp. exact H.
    + apply Qlt_opp_positive. exact E.
  - apply Qgt_alt in E. apply double_of_positive_comp; assumption.
Qed.

Lemma double_sign (q : Q) : (double q ?= 0)%Q = (q ?= 0)%Q.
Proof.
  unfold double.
  rewrite (Qcompare_comp _ _ (Qred_correct _) 0%Q 0%Q (Qeq_refl 0%Q)).
  destruct (q ?= 0)%Q eqn:E.
  - reflexivity.
  - apply Qlt_alt in E. apply Qlt_alt. apply Qlt_opp_negative.
    apply double_of_positive_pos. apply Qlt_opp_positive. exact E.
  - apply Qgt_alt in E. apply Qgt_alt.
    apply double_of_positive_pos. exact E.
Qed.

Lemma double_zero (q : Q) : (double q == 0)%Q <-> (q == 0)%Q.
Proof. rewrite !Qeq_alt, double_sign. reflexivity. Qed.

Lemma double_opp (q : Q) : double (- q) = (- double q)%Q.
Proof.
  unfold double. rewrite <- Qred_opp. apply Qred_complete.
  rewrite Qcompare_opp_zero. destruct (q ?= 0)%Q eqn:E; cbn [CompOpp].
  - reflexivity.
  - symmetry. apply Qopp_involutive.
  - apply Qgt_alt in E. apply Qopp_comp.
    apply double_of_positive_comp; [apply Qopp_involutive|].
    apply (Qlt_compat 0%Q 0%Q (Qeq_refl 0%Q) q (- - q)%Q);
      [symmetry; apply Qopp_involutive|exact E].
Qed.

Lemma double_of_positive_double (q : Q) :
  (0 < q)%Q -> double q = Qred (double_of_positive q).
Proof.
  intros H. unfold double. apply Qgt_alt in H. rewrite H. reflexivity.
Qed.

Lemma double_idempotent (q : Q) : double (double q) = double q.
Proof.
  assert (Hpos : forall p, (0 < p)%Q -> double (double p) = double p).
  { intros p Hp. rewrite (double_of_positive_double p Hp).
    rewrite (double_comp _ (double_of_positive p)) by apply Qred_correct.
    rewrite (double_of_positive_double _ (double_of_positive_pos p Hp)).
    apply Qred_complete. apply double_of_positive_idempotent. exact Hp. }
  destruct (q ?= 0)%Q eqn:E.
  - apply Qeq_alt in E. rewrite (double_comp q 0%Q E). reflexivity.
  - apply Qlt_alt in E.
    rewrite (double_comp q (- - q)) by (symmetry; apply Qopp_involutive).
    rewrite (double_opp (- q)), double_opp, Hpos by (apply Qlt_opp_positive; exact E).
    reflexivity.
  - apply Qgt_alt in E. apply Hpos. exact E.
Qed.

Lemma double_positive (q : Q) : (0 < q)%Q -> (0 < double q)%Q.
Proof.
  intros H. apply Qgt_alt. rewrite double_sign. apply Qgt_alt. exact H.
Qed.

Lemma double_negative (q : Q) : (q < 0)%Q -> (double q < 0)%Q.
Proof.
  intros H. apply Qlt_alt. rewrite double_sign. apply Qlt_alt. exact H.
Qed.

(** What the script holds for a column is a double. *)
Lemma double_ToNumber (v : value) : double (ToNumber v) = ToNumber v.
Proof. destruct v as [|q]; [reflexivity|apply double_idempotent]. Qed.

(** ** The error of a rounding *)

Lemma round_half_even_near (x : Q) :
  (inject_Z (round_half_even x) - (1 # 2) <= x
   /\ x <= inject_Z (round_half_even x) + (1 # 2))%Q.
Proof.
  pose proof (Qfloor_le x) as Hlo.
  pose proof (Qlt_floor x) as Hhi. rewrite inject_Z_plus in Hhi.
  change (inject_Z 1) with 1%Q in Hhi.
  unfold round_half_even. cbv zeta.
  destruct (x - inject_Z (Qfloor x) ?= 1 # 2)%Q eqn:E.
  - apply Qeq_alt in E.
    destruct (Z.even (Qfloor x)); [|rewrite inject_Z_plus;
                                     change (inject_Z 1) with 1%Q]; Lqa.lra.
  - apply Qlt_alt in E. Lqa.lra.
  - apply Qgt_alt in E. rewrite inject_Z_plus.
    change (inject_Z 1) with 1%Q. Lqa.lra.
Qed.

Lemma pow2_opp (e : Z) : (pow2 e * pow2 (- e)%Z == 1)%Q.
Proof.
  rewrite <- (pow2_add e (- e)%Z). replace (e + - e)%Z with 0%Z by lia. reflexivity.
Qed.

Lemma double_of_positive_error (q : Q) :
  (0 < q)%Q ->
  (q - q * (1 # 2 ^ 53) <= double_of_positive q
   /\ double_of_positive q <= q + q * (1 # 2 ^ 53))%Q.
Proof.
  intros Hq. destruct (ilog2_spec q Hq) as [Hlo _].
  unfold double_of_positive. cbv zeta.
  set (e := (ilog2 q - 52)%Z).
  assert (Hk : (pow2 (ilog2 q) == pow2 e * inject_Z (2 ^ 52)%Z)%Q).
  { rewrite (pow2_Z 52%Z) by lia. rewrite <- (pow2_add e 52%Z).
    unfold e. replace (ilog2 q - 52 + 52)%Z with (ilog2 q) by lia. reflexivity. }
  rewrite Hk in Hlo.
  pose proof (pow2_pos e) as Hs. pose proof (pow2_opp e) as Hinv.
  destruct (round_half_even_near (q * pow2 (- e)%Z)) as [Hn1 Hn2].
  set (z := inject_Z (round_half_even (q * pow2 (- e)%Z))) in *.
  set (s := pow2 e) in *. set (si := pow2 (- e)%Z) in *.
  assert (Hx : (q * si * s == q)%Q).
  { rewrite <- Qmult_assoc, (Qmult_comm si s), Hinv. ring. }
  apply (Qmult_le_compat_r _ _ s) in Hn1; [|apply Qlt_le_weak; exact Hs].
  apply (Qmult_le_compat_r _ _ s) in Hn2; [|apply Qlt_le_weak; exact Hs].
  rewrite Hx in Hn1, Hn2.
  change (inject_Z (2 ^ 52)%Z) with (4503599627370496 # 1)%Q in Hlo.
  change (1 # 2 ^ 53)%Q with (1 # 9007199254740992)%Q.
  split; Lqa.lra.
Qed.

Lemma double_error (q : Q) :
  (Qabs.Qabs (double q - q) <= Qabs.Qabs q * (1 # 2 ^ 53))%Q.
Proof.
  unfold double. change (1 # 2 ^ 53)%Q with (1 # 9007199254740992)%Q.
  destruct (q ?= 0)%Q eqn:E; rewrite Qred_correct.
  - apply Qeq_alt in E. rewrite E. cbn. discriminate.
  - apply Qlt_alt in E.
    destruct (double_of_positive_error (- q) (Qlt_opp_positive q E)) as [H1 H2].
    change (1 # 2 ^ 53)%Q with (1 # 9007199254740992)%Q in H1, H2.
    rewrite (Qabs.Qabs_neg q) by Lqa.lra.
    apply Qabs.Qabs_Qle_condition. split; Lqa.lra.
  - apply Qgt_alt in E.
    destruct (double_of_positive_error q E) as [H1 H2].
    change (1 # 2 ^ 53)%Q with (1 # 9007199254740992)%Q in H1, H2.
    rewrite (Qabs.Qabs_pos q) by Lqa.lra.
    apply Qabs.Qabs_Qle_condition. split; Lqa.lra.
Qed.

Lemma js_div_error (a b : Q) :
  ~ (b == 0)%Q ->
  (Qabs.Qabs (js_div a b * b - a) <= Qabs.Qabs a * (1 # 2 ^ 53))%Q.
Proof.
  intros Hb. unfold js_div.
  pose proof (double_error (a / b)) as H.
  apply (Qmult_le_compat_r _ _ (Qabs.Qabs b)) in H; [|apply Qabs.Qabs_nonneg].
  rewrite <- Qabs.Qabs_Qmult in H.
  assert (E1 : ((double (a / b) - a / b) * b == double (a / b) * b - a)%Q)
    by (field; exact Hb).
  assert (E2 : (Qabs.Qabs (a / b) * (1 # 2 ^ 53) * Qabs.Qabs b
                == Qabs.Qabs a * (1 # 2 ^ 53))%Q).
  { assert (E3 : (a / b * b == a)%Q) by (field; exact Hb).
    rewrite <- E3 at 2. rewrite (Qabs.Qabs_Qmult (a / b) b). ring. }
  rewrite E1, E2 in H. exact H.
Qed.

Lemma js_div_same (a : Q) : ~ (a == 0)%Q -> js_div a a = 1%Q.
Proof.
  intros Ha. unfold js_div.
  assert (E : (a / a == 1)%Q) by (field; exact Ha).
  rewrite (double_comp _ _ E). vm_compute. reflexivity.
Qed.

(** The doubles of some decimals, and two ties: the significands are those
    of binary64. *)
Example double_samples :
  (double (1 # 10) = (3602879701896397 # 36028797018963968)%Q) /\
  (double (7 # 100) = (1261007895663739 # 18014398509481984)%Q) /\
  (double (11 # 10) = (2476979795053773 # 2251799813685248)%Q) /\
  (double (inject_Z (2 ^ 53 + 1)) = inject_Z (2 ^ 53)) /\
  (double (inject_Z (2 ^ 53 + 3)) = inject_Z (2 ^ 53 + 4)) /\
  (double (-50 # 1) = (-50 # 1)%Q) /\
  (js_mul 100 (double (7 # 100)) = (7881299347898369 # 1125899906842624)%Q) /\
  (js_mul 1000 (double (11 # 10)) = (1100 # 1)%Q) /\
  (js_add (double (1 # 10)) (double (2 # 10))
   = (1351079888211149 # 4503599627370496)%Q).
Proof. repeat split; vm_compute; reflexivity. Qed.

(* ===================================================================== *)
(** * Properties of the fee helpers *)
(* ===================================================================== *)

Lemma Math_round_nearest (q : Q) :
  exists z : Z,
    Math_round q = inject_Z z /\
    (inject_Z z <= q + (1 # 2))%Q /\ (q + (1 # 2) < inject_Z z + 1)%Q.
Proof.
  exists (Qfloor (q + (1 # 2))). split; [reflexivity|]. split.
  - apply Qfloor_le.
  - rewrite <- (inject_Z_plus _ 1). apply Qlt_floor.
Qed.

Lemma double_js_add (a b : Q) : double (js_add a b) = js_add a b.
Proof. apply double_idempotent. Qed.

Lemma double_js_sub (a b : Q) : double (js_sub a b) = js_sub a b.
Proof. apply double_idempotent. Qed.

Lemma double_js_mul (a b : Q) : double (js_mul a b) = js_mul a b.
Proof. apply double_idempotent. Qed.

Lemma double_trValue (tr : Transaction) : double (trValue tr) = trValue tr.
Proof. apply double_js_mul. Qed.

Lemma strict_eq_number (q : Q) (v : value) :
  strict_eq (VNum q) v = true <->
  exists n, v = VNum n /\ (double q == double n)%Q.
Proof.
  destruct v as [|n]; simpl.
  - split; [discriminate|]. intros (n & Hn & _). discriminate.
  - rewrite Qeq_bool_iff. split.
    + intros H. exists n. split; [reflexivity|exact H].
    + intros (n' & Hn & H). injection Hn as ->. exact H.
Qed.

Lemma toNegative_not_positive (v : value) :
  (ToNumber (toNegative v) <= 0)%Q.
Proof.
  unfold toNegative, Qgtb.
  destruct (Qle_bool (ToNumber v) 0) eqn:E; simpl.
  - apply Qle_bool_iff. exact E.
  - assert (H : ~ (ToNumber v <= 0)%Q).
    { intros H. apply Qle_bool_iff in H. congruence. }
    apply Qnot_le_lt in H.
    apply Qlt_le_weak, double_negative, Qlt_opp_negative. exact H.
Qed.

(** ** Net value and consistency check *)

(** C2, as stated, fails: on a row whose [amount] (1000) differs from its
    [amountInHostCurrency] (2000, at rate 1/2), the net value the code
    computes is 2000 * 1/2 = 1000 and not the rounded sum over [amount]
    times the rate (500), and the check passes although that latter value
    differs from [netAmountInCollectiveCurrency] (1000). *)
Lemma trValue_does_not_read_amount :
  (trValue Fixtures.cross_currency_row == 1000 # 1)%Q /\
  (netValue_on_amount Fixtures.cross_currency_row == 500 # 1)%Q /\
  ~ (trValue Fixtures.cross_currency_row
     == netValue_on_amount Fixtures.cross_currency_row)%Q /\
  verify Fixtures.cross_currency_row = true /\
  strict_eq (VNum (netValue_on_amount Fixtures.cross_currency_row))
            (netAmountInCollectiveCurrency Fixtures.cross_currency_row) = false.
Proof.
  repeat split; try (vm_compute; reflexivity).
  intros H. vm_compute in H. discriminate H.
Qed.

(** C2, amended: for every transaction the net value is, in the double
    arithmetic of the script, the integer nearest to the sum of
    [amountInHostCurrency] and the three fee columns (ties upwards),
    multiplied afterwards by the rate, the product being rounded to a
    double; the check is true exactly when [netAmountInCollectiveCurrency]
    is a number whose double is that product. *)
Theorem trValue_rounds_then_converts (tr : Transaction) :
  exists z : Z,
    (inject_Z z <= host_currency_sum tr + (1 # 2))%Q /\
    (host_currency_sum tr + (1 # 2) < inject_Z z + 1)%Q /\
    trValue tr = js_mul (inject_Z z) (ToNumber (hostCurrencyFxRate tr)) /\
    (verify tr = true <->
     exists n, netAmountInCollectiveCurrency tr = VNum n /\
               (js_mul (inject_Z z) (ToNumber (hostCurrencyFxRate tr))
                == double n)%Q).
Proof.
  destruct (Math_round_nearest (host_currency_sum tr)) as (z & Hz & Hlo & Hhi).
  exists z. split; [exact Hlo|]. split; [exact Hhi|].
  assert (Hv : trValue tr
               = js_mul (inject_Z z) (ToNumber (hostCurrencyFxRate tr))).
  { unfold trValue. fold (host_currency_sum tr). rewrite Hz. reflexivity. }
  split; [exact Hv|].
  unfold verify. rewrite strict_eq_number, double_trValue, Hv. reflexivity.
Qed.

(** The product is the one of doubles: 1000 at the rate 1.1 is 1100 and the
    check passes, 100 at the rate 0.07 is 7.000000000000001 and the check
    against 7 fails. *)
Example trValue_decimal_rates :
  (trValue Fixtures.tenth_above_rate_row = (1100 # 1)%Q) /\
  verify Fixtures.tenth_above_rate_row = true /\
  (trValue Fixtures.seven_percent_rate_row
   = (7881299347898369 # 1125899906842624)%Q) /\
  (trValue Fixtures.seven_percent_rate_row == 7 + (1 # 2 ^ 50))%Q /\
  verify Fixtures.seven_percent_rate_row = false /\
  (difference Fixtures.seven_percent_rate_row == 1 # 2 ^ 50)%Q.
Proof. repeat split; vm_compute; reflexivity. Qed.

(** ** Filling in the rate *)

(** C8, as stated, fails: a row with equal amounts whose rate column holds
    the number 0 has that existing value replaced by 1. *)
Lemma ensureHostCurrencyFxRate_overwrites_zero :
  strict_eq (amount Fixtures.zero_rate_row)
            (amountInHostCurrency Fixtures.zero_rate_row) = true /\
  hostCurrencyFxRate Fixtures.zero_rate_row = VNum 0 /\
  hostCurrencyFxRate (ensureHostCurrencyFxRate Fixtures.zero_rate_row) = VNum 1 /\
  hostCurrencyFxRate (ensureHostCurrencyFxRate Fixtures.zero_rate_row)
    <> hostCurrencyFxRate Fixtures.zero_rate_row.
Proof.
  repeat split; try reflexivity. vm_compute. discriminate.
Qed.

(** C8, amended: when [amount] equals [amountInHostCurrency] and the rate is
    [null] or zero, the rate becomes exactly 1 and no other column changes;
    a non-zero rate is never replaced; and nothing is written when the two
    amounts differ. *)
Theorem ensureHostCurrencyFxRate_fills_falsy_rate (tr : Transaction) :
  (strict_eq (amount tr) (amountInHostCurrency tr) = true ->
   (hostCurrencyFxRate tr = VNull \/
    exists q, hostCurrencyFxRate tr = VNum q /\ (q == 0)%Q) ->
   ensureHostCurrencyFxRate tr = set_hostCurrencyFxRate (VNum 1) tr) /\
  (forall q, hostCurrencyFxRate tr = VNum q -> ~ (q == 0)%Q ->
   ensureHostCurrencyFxRate tr = tr) /\
  (strict_eq (amount tr) (amountInHostCurrency tr) = false ->
   ensureHostCurrencyFxRate tr = tr).
Proof.
  unfold ensureHostCurrencyFxRate. repeat split.
  - intros Heq Hrate. rewrite Heq. simpl.
    destruct Hrate as [-> | (q & -> & Hq)]; simpl; [reflexivity|].
    apply Qeq_bool_iff in Hq. rewrite Hq. reflexivity.
  - intros q Hrate Hq. rewrite Hrate. simpl.
    destruct (Qeq_bool q 0) eqn:E.
    + apply Qeq_bool_iff in E. contradiction.
    + rewrite andb_false_r. reflexivity.
  - intros Hneq. rewrite Hneq. reflexivity.
Qed.

Lemma ensureHostCurrencyFxRate_fills_falsy_rate_witness :
  hostCurrencyFxRate (ensureHostCurrencyFxRate Fixtures.expense_credit) = VNum 1 /\
  ensureHostCurrencyFxRate Fixtures.example_debit = Fixtures.example_debit /\
  ensureHostCurrencyFxRate
    (set_hostCurrencyFxRate VNull Fixtures.cross_currency_row)
  = set_hostCurrencyFxRate VNull Fixtures.cross_currency_row.
Proof.
  split; [|split].
  - rewrite (proj1 (ensureHostCurrencyFxRate_fills_falsy_rate Fixtures.expense_credit)).
    + reflexivity.
    + reflexivity.
    + left. reflexivity.
  - apply (proj1 (proj2 (ensureHostCurrencyFxRate_fills_falsy_rate Fixtures.example_debit))
             (1 # 1)%Q).
    + reflexivity.
    + intros H. discriminate H.
  - apply (proj2 (proj2 (ensureHostCurrencyFxRate_fills_falsy_rate
                           (set_hostCurrencyFxRate VNull Fixtures.cross_currency_row)))).
    reflexivity.
Defined.

(** ** What [migrate] writes *)

Lemma hasFees_ensureHostCurrencyFxRate (tr : Transaction) :
  hasFees (ensureHostCurrencyFxRate tr) = hasFees tr.
Proof.
  unfold ensureHostCurrencyFxRate.
  destruct (_ && _); reflexivity.
Qed.

Lemma fees_ensureHostCurrencyFxRate (tr : Transaction) :
  hostFeeInHostCurrency (ensureHostCurrencyFxRate tr) = hostFeeInHostCurrency tr /\
  platformFeeInHostCurrency (ensureHostCurrencyFxRate tr) = platformFeeInHostCurrency tr /\
  paymentProcessorFeeInHostCurrency (ensureHostCurrencyFxRate tr)
  = paymentProcessorFeeInHostCurrency tr.
Proof.
  unfold ensureHostCurrencyFxRate.
  destruct (_ && _); repeat split; reflexivity.
Qed.

(** The branch [migrate] takes on a pair that shares a group, is not tied
    to one expense, is tied to one order and carries a fee. *)
Lemma migrate_order_branch (tr1 tr2 : Transaction) :
  TransactionGroup tr1 = TransactionGroup tr2 ->
  same_non_null (ExpenseId tr1) (ExpenseId tr2) = false ->
  same_non_null (OrderId tr1) (OrderId tr2) = true ->
  hasFees tr1 || hasFees tr2 = true ->
  (migrate tr1 tr2).1.2
  = rewriteFees (credit_of tr1) (debit_of tr1)
      (update (debit_of tr1) ensureHostCurrencyFxRate
         (update (credit_of tr1) ensureHostCurrencyFxRate (tr1, tr2))).
Proof.
  intros Hg He Ho Hf. unfold migrate.
  rewrite Hg, String.eqb_refl, He, Ho. cbn [negb].
  set (s := update _ _ (update _ _ _)).
  assert (Hs : hasFees (fst s) = hasFees tr1 /\ hasFees (snd s) = hasFees tr2).
  { unfold s. destruct (credit_of tr1), (debit_of tr1); cbn [update fst snd];
      rewrite ?hasFees_ensureHostCurrencyFxRate; split; reflexivity. }
  destruct Hs as [-> ->].
  destruct (hasFees tr1), (hasFees tr2); try discriminate Hf; reflexivity.
Qed.

Lemma rewriteFees_columns (credit debit r : ref) (s : store) :
  r = credit \/ r = debit ->
  hostFeeInHostCurrency (deref (rewriteFees credit debit s) r)
  = toNegative (hostFeeInHostCurrency (deref s credit)) /\
  platformFeeInHostCurrency (deref (rewriteFees credit debit s) r)
  = toNegative (platformFeeInHostCurrency (deref s credit)) /\
  paymentProcessorFeeInHostCurrency (deref (rewriteFees credit debit s) r)
  = toNegative (paymentProcessorFeeInHostCurrency (deref s credit)).
Proof.
  destruct s as [a b].
  intros [-> | ->]; destruct credit, debit; repeat split; reflexivity.
Qed.

(** C1, as stated, fails on the example pair of the specification: after
    [migrate] the fee columns of the debit row are 0, 0, 0 (the credit row's
    values), not -50, -30, -20 (the negation of its own), and its net value
    is -1000, not -1100. *)
Lemma migrate_example_debit_gets_credit_fees :
  hostFeeInHostCurrency (snd Fixtures.migrated_example) = VNum 0 /\
  platformFeeInHostCurrency (snd Fixtures.migrated_example) = VNum 0 /\
  paymentProcessorFeeInHostCurrency (snd Fixtures.migrated_example) = VNum 0 /\
  toNegative (hostFeeInHostCurrency Fixtures.example_debit) = VNum (-50 # 1) /\
  hostFeeInHostCurrency (snd Fixtures.migrated_example)
    <> toNegative (hostFeeInHostCurrency Fixtures.example_debit) /\
  (trValue (snd Fixtures.migrated_example) == -1000 # 1)%Q /\
  ~ (trValue (snd Fixtures.migrated_example) == -1100 # 1)%Q.
Proof.
  repeat split; try reflexivity.
  - vm_compute. discriminate.
  - intros H. vm_compute in H. discriminate H.
Qed.

(** C1, amended: on a pair of one group that is not tied to one expense, is
    tied to one order and carries a fee, [migrate] leaves in each of the
    three fee columns of the row it names [credit] and of the row it names
    [debit] the value [toNegative] gives for the credit row's column, a
    value that is never positive; on the example pair the debit row ends
    with fee columns 0, 0, 0 and net value -1000. *)
Theorem migrate_forces_fees_of_credit :
  (forall tr1 tr2 : Transaction,
     TransactionGroup tr1 = TransactionGroup tr2 ->
     same_non_null (ExpenseId tr1) (ExpenseId tr2) = false ->
     same_non_null (OrderId tr1) (OrderId tr2) = true ->
     hasFees tr1 || hasFees tr2 = true ->
     let credit := deref (tr1, tr2) (credit_of tr1) in
     let s' := (migrate tr1 tr2).1.2 in
     forall row,
       row = deref s' (credit_of tr1) \/ row = deref s' (debit_of tr1) ->
       hostFeeInHostCurrency row = toNegative (hostFeeInHostCurrency credit) /\
       platformFeeInHostCurrency row
       = toNegative (platformFeeInHostCurrency credit) /\
       paymentProcessorFeeInHostCurrency row
       = toNegative (paymentProcessorFeeInHostCurrency credit) /\
       (ToNumber (hostFeeInHostCurrency row) <= 0)%Q /\
       (ToNumber (platformFeeInHostCurrency row) <= 0)%Q /\
       (ToNumber (paymentProcessorFeeInHostCurrency row) <= 0)%Q) /\
  (hostFeeInHostCurrency (snd Fixtures.migrated_example) = VNum 0 /\
   platformFeeInHostCurrency (snd Fixtures.migrated_example) = VNum 0 /\
   paymentProcessorFeeInHostCurrency (snd Fixtures.migrated_example) = VNum 0 /\
   (trValue (snd Fixtures.migrated_example) == -1000 # 1)%Q).
Proof.
  split.
  - intros tr1 tr2 Hg He Ho Hf credit s' row Hrow.
    unfold s' in *. rewrite (migrate_order_branch tr1 tr2 Hg He Ho Hf) in *.
    set (s := update _ _ (update _ _ _)) in *.
    assert (Hc : hostFeeInHostCurrency (deref s (credit_of tr1))
                 = hostFeeInHostCurrency credit /\
                 platformFeeInHostCurrency (deref s (credit_of tr1))
                 = platformFeeInHostCurrency credit /\
                 paymentProcessorFeeInHostCurrency (deref s (credit_of tr1))
                 = paymentProcessorFeeInHostCurrency credit).
    { unfold s, credit.
      destruct (credit_of tr1), (debit_of tr1); cbn [update deref fst snd];
        repeat split;
        rewrite ?(proj1 (fees_ensureHostCurrencyFxRate _)),
                ?(proj1 (proj2 (fees_ensureHostCurrencyFxRate _))),
                ?(proj2 (proj2 (fees_ensureHostCurrencyFxRate _)));
        reflexivity. }
    destruct Hc as (Hc1 & Hc2 & Hc3).
    assert (Hcols :
      hostFeeInHostCurrency row = toNegative (hostFeeInHostCurrency credit) /\
      platformFeeInHostCurrency row
      = toNegative (platformFeeInHostCurrency credit) /\
      paymentProcessorFeeInHostCurrency row
      = toNegative (paymentProcessorFeeInHostCurrency credit)).
    { rewrite <- Hc1, <- Hc2, <- Hc3.
      destruct Hrow as [-> | ->]; apply rewriteFees_columns; auto. }
    destruct Hcols as (H1 & H2 & H3).
    rewrite H1, H2, H3.
    repeat split; try reflexivity; apply toNegative_not_positive.
  - repeat split; reflexivity.
Qed.

Lemma migrate_forces_fees_of_credit_witness :
  hostFeeInHostCurrency (snd Fixtures.migrated_example)
  = toNegative (hostFeeInHostCurrency Fixtures.example_credit) /\
  platformFeeInHostCurrency (snd Fixtures.migrated_example)
  = toNegative (platformFeeInHostCurrency Fixtures.example_credit) /\
  paymentProcessorFeeInHostCurrency (snd Fixtures.migrated_example)
  = toNegative (paymentProcessorFeeInHostCurrency Fixtures.example_credit) /\
  (ToNumber (hostFeeInHostCurrency (snd Fixtures.migrated_example)) <= 0)%Q.
Proof.
  pose proof (proj1 migrate_forces_fees_of_credit
                Fixtures.example_credit Fixtures.example_debit
                eq_refl eq_refl eq_refl eq_refl
                (snd Fixtures.migrated_example)
                (or_intror eq_refl)) as H.
  destruct H as (H1 & H2 & H3 & H4 & _).
  repeat split; assumption.
Defined.

(** ** What [migrate] leaves alone *)

Lemma same_untouched_columns_refl (a : Transaction) :
  same_untouched_columns a a.
Proof. repeat split. Qed.

Lemma same_untouched_columns_trans (a b c : Transaction) :
  same_untouched_columns a b -> same_untouched_columns b c ->
  same_untouched_columns a c.
Proof.
  unfold same_untouched_columns.
  intros (?&?&?&?&?&?&?&?&?) (?&?&?&?&?&?&?&?&?).
  repeat split; congruence.
Qed.

Lemma ensureHostCurrencyFxRate_untouched (tr : Transaction) :
  same_untouched_columns (ensureHostCurrencyFxRate tr) tr.
Proof.
  unfold ensureHostCurrencyFxRate. destruct (_ && _); repeat split.
Qed.

Lemma update_ensure_untouched (r r' : ref) (s : store) :
  same_untouched_columns (deref (update r ensureHostCurrencyFxRate s) r')
                         (deref s r').
Proof.
  destruct s as [a b], r, r'; cbn [update deref fst snd];
    first [apply ensureHostCurrencyFxRate_untouched
          | apply same_untouched_columns_refl].
Qed.

Lemma rewriteFees_untouched (credit debit r : ref) (s : store) :
  same_untouched_columns (deref (rewriteFees credit debit s) r) (deref s r).
Proof.
  destruct s as [a b], credit, debit, r; repeat split.
Qed.

(** Outside the order branch the call writes nothing. *)
Lemma migrate_verify_only (tr1 tr2 : Transaction) :
  same_non_null (ExpenseId tr1) (ExpenseId tr2) = true \/
  same_non_null (OrderId tr1) (OrderId tr2) = false ->
  (migrate tr1 tr2).1.2 = (tr1, tr2).
Proof.
  intros H. unfold migrate.
  destruct (negb (String.eqb _ _)); [reflexivity|].
  destruct (same_non_null (ExpenseId tr1) (ExpenseId tr2)) eqn:He;
    [reflexivity|].
  destruct H as [H | H]; [discriminate H|].
  rewrite H. reflexivity.
Qed.

(** C3: [migrate] never changes [amount], [netAmountInCollectiveCurrency]
    or [TransactionGroup] of either row (nor any column other than the
    three fees and the rate), and a pair tied to one expense, or not tied
    to one order, comes back exactly as it was given. *)
Theorem migrate_frame (tr1 tr2 : Transaction) :
  let s' := (migrate tr1 tr2).1.2 in
  (forall r : ref,
     amount (deref s' r) = amount (deref (tr1, tr2) r) /\
     netAmountInCollectiveCurrency (deref s' r)
     = netAmountInCollectiveCurrency (deref (tr1, tr2) r) /\
     TransactionGroup (deref s' r) = TransactionGroup (deref (tr1, tr2) r) /\
     same_untouched_columns (deref s' r) (deref (tr1, tr2) r)) /\
  (same_non_null (ExpenseId tr1) (ExpenseId tr2) = true \/
   same_non_null (OrderId tr1) (OrderId tr2) = false ->
   s' = (tr1, tr2)).
Proof.
  cbv zeta. split; [|apply migrate_verify_only].
  intros r.
  assert (H : same_untouched_columns (deref (migrate tr1 tr2).1.2 r)
                                     (deref (tr1, tr2) r)).
  { unfold migrate.
    destruct (negb (String.eqb _ _)); [apply same_untouched_columns_refl|].
    destruct (same_non_null (ExpenseId tr1) (ExpenseId tr2));
      [apply same_untouched_columns_refl|].
    destruct (same_non_null (OrderId tr1) (OrderId tr2));
      [|apply same_untouched_columns_refl].
    set (s0 := (tr1, tr2)).
    set (s1 := update (credit_of tr1) ensureHostCurrencyFxRate s0).
    set (s2 := update (debit_of tr1) ensureHostCurrencyFxRate s1).
    assert (H2 : same_untouched_columns (deref s2 r) (deref s0 r)).
    { eapply same_untouched_columns_trans; apply update_ensure_untouched. }
    destruct (negb (hasFees s2.1) && negb (hasFees s2.2)); cbn [fst snd].
    - exact H2.
    - eapply same_untouched_columns_trans; [apply rewriteFees_untouched|exact H2]. }
  pose proof H as (_ & _ & Hg & _ & _ & Ha & _ & Hn & _).
  repeat split; try assumption; apply H.
Qed.

Lemma migrate_frame_witness :
  (migrate Fixtures.expense_credit Fixtures.expense_debit).1.2
  = (Fixtures.expense_credit, Fixtures.expense_debit).
Proof.
  apply (proj2 (migrate_frame Fixtures.expense_credit Fixtures.expense_debit)).
  left. reflexivity.
Defined.

(* ===================================================================== *)
(** * Properties of the command line and of the scan *)
(* ===================================================================== *)

Import Cli.

(** ** Batch size *)

(** C9, as stated, fails: without [--batch-size] the options hold 10, not
    100. *)
Lemma default_batch_size_is_not_100 :
  batchSize (parseCommandLineArguments Fixtures.no_flags) = ANum 10 /\
  Number (batchSize (parseCommandLineArguments Fixtures.no_flags)) <> Some 100%nat /\
  length (findAll_valid (replicate 200 Fixtures.example_credit) 10 0) = 10%nat.
Proof.
  split; [reflexivity|]. split; [|reflexivity].
  vm_compute. discriminate.
Qed.

(** C9, amended: when [--batch-size] is not passed the batch size is 10,
    the default declared to the argument parser, and each query asks for
    10 rows; 100 is used only when the flag is passed with an empty text,
    and any other text is used as passed. *)
Theorem batch_size_defaults (a : argv) :
  (passed_batch_size a = None ->
   batchSize (parseCommandLineArguments a) = ANum 10 /\
   forall (m : migration) (w : world),
     exists transactions m',
       retrieveValidTransactions (parseCommandLineArguments a) m w
       = inr (transactions, m') /\
       transactions = findAll_valid (db w) 10 (offset m)) /\
  (passed_batch_size a = Some "" ->
   batchSize (parseCommandLineArguments a) = ANum 100) /\
  (forall s, passed_batch_size a = Some s -> s <> "" ->
   batchSize (parseCommandLineArguments a) = AStr s).
Proof.
  unfold parseCommandLineArguments, parseArgs, retrieveValidTransactions.
  cbn [ns_batch_size batchSize]. split; [|split].
  - intros Habsent. rewrite Habsent. split; [reflexivity|].
    intros m w. cbn. eauto.
  - intros Hempty. rewrite Hempty. reflexivity.
  - intros s Hpassed Hs. rewrite Hpassed. unfold js_or, truthy.
    destruct (String.eqb s "") eqn:E; [|reflexivity].
    apply String.eqb_eq in E. contradiction.
Qed.

Lemma batch_size_defaults_witness :
  batchSize (parseCommandLineArguments Fixtures.no_flags) = ANum 10 /\
  batchSize (parseCommandLineArguments (mkArgv false false None (Some ""))) = ANum 100 /\
  batchSize (parseCommandLineArguments (mkArgv false false None (Some "25"))) = AStr "25".
Proof.
  split; [|split].
  - apply (proj1 (batch_size_defaults Fixtures.no_flags)). reflexivity.
  - apply (proj1 (proj2 (batch_size_defaults (mkArgv false false None (Some ""))))).
    reflexivity.
  - apply (proj2 (proj2 (batch_size_defaults (mkArgv false false None (Some "25"))))).
    + reflexivity.
    + discriminate.
Defined.

(** ** Pairing *)

(** Inside a batch, the first pair whose groups differ stops the loop with
    the error of the sanity check; the pairs before it have been migrated,
    none after it is. *)
Lemma for_pairs_mismatch (t1 t2 : Transaction) (rest : list Transaction)
      (out : console) :
  TransactionGroup t1 <> TransactionGroup t2 ->
  for_pairs (t1 :: t2 :: rest) out
  = (Rejected (Error ("Cannot find pair for the transaction id "
                      ++ pretty.pretty (id t1))), out).
Proof.
  intros H. cbn [for_pairs].
  destruct (String.eqb (TransactionGroup t1) (TransactionGroup t2)) eqn:E.
  - apply String.eqb_eq in E. contradiction.
  - reflexivity.
Qed.

Lemma for_pairs_match (t1 t2 : Transaction) (rest : list Transaction)
      (out : console) :
  TransactionGroup t1 = TransactionGroup t2 ->
  for_pairs (t1 :: t2 :: rest) out
  = for_pairs rest (out ++ (migrate t1 t2).2).
Proof.
  intros H. cbn [for_pairs]. rewrite H, String.eqb_refl. cbn [negb].
  destruct (migrate t1 t2) as [[? ?] lines]. reflexivity.
Qed.

(** The loop over a batch goes through its well-paired prefix. *)
Lemma for_pairs_app (l rest : list Transaction) :
  paired l ->
  forall out, for_pairs (l ++ rest) out = for_pairs rest (for_pairs l out).2.
Proof.
  induction 1 as [|t1 t2 l Hg Hl IH]; intros out; [reflexivity|].
  change ((t1 :: t2 :: l) ++ rest) with (t1 :: t2 :: (l ++ rest)).
  rewrite !for_pairs_match by exact Hg. apply IH.
Qed.

(** The first mismatched pair of a batch raises the error of the sanity
    check; the console holds what the pairs before it printed. *)
Lemma for_pairs_first_mismatch (l : list Transaction) (t1 t2 : Transaction)
      (rest : list Transaction) (out : console) :
  paired l -> TransactionGroup t1 <> TransactionGroup t2 ->
  for_pairs (l ++ t1 :: t2 :: rest) out
  = (Rejected (Error ("Cannot find pair for the transaction id "
                      ++ pretty.pretty (id t1))),
     (for_pairs l out).2).
Proof.
  intros Hl Hg. rewrite for_pairs_app by exact Hl.
  apply for_pairs_mismatch. exact Hg.
Qed.

(** A row left alone at the end of a batch raises a [TypeError]. *)
Lemma for_pairs_odd (l : list Transaction) (t : Transaction) (out : console) :
  paired l ->
  for_pairs (l ++ [t]) out
  = (Rejected (TypeError "Cannot read property 'TransactionGroup' of undefined"),
     (for_pairs l out).2).
Proof.
  intros Hl. rewrite for_pairs_app by exact Hl. reflexivity.
Qed.

(** C4 (the code departs from it): on a table with a single unpaired row,
    scanned without a limit and with a positive batch size, the run does
    stop, but with the [TypeError] of a property read on [undefined], not
    with the error of the sanity check; so it is with the command line
    without flags. *)
Theorem run_single_row_throws_TypeError
        (t : Transaction) (o : options) (n fuel : nat) (c : console) :
  deletedAt t = None ->
  truthy (limit o) = false ->
  Number (batchSize o) = Some (S n) ->
  run (S fuel) o (mkWorld [t] c)
  = (Some (Rejected
       (TypeError "Cannot read property 'TransactionGroup' of undefined")),
     mkMigration 1 0,
     mkWorld [t] c).
Proof.
  intros Hlive Hlimit Hbatch.
  assert (Hvalid : List.filter not_deleted [t] = [t]).
  { cbn [List.filter]. unfold not_deleted. rewrite Hlive. reflexivity. }
  assert (Hfetch : retrieveValidTransactions o new_Migration (mkWorld [t] c)
                   = inr ([t], mkMigration 1 0)).
  { assert (Hbatch1 : take (S n) (drop 0 (order_by_group [t])) = [t])
      by (cbn; rewrite take_nil; reflexivity).
    unfold retrieveValidTransactions, findAll_valid, new_Migration.
    cbn [db offset migrated]. rewrite Hvalid.
    destruct (batchSize o) as [|n0|s] eqn:E; cbn [Number] in Hbatch |- *.
    - discriminate Hbatch.
    - injection Hbatch as ->. rewrite Hbatch1. reflexivity.
    - rewrite Hbatch, Hbatch1. reflexivity. }
  unfold run, js_or, countValidTransactions, count_valid. cbn [db].
  rewrite Hlimit, Hvalid. cbn [run_loop].
  change (offset_below new_Migration (ANum (length [t]))) with true.
  cbv iota. rewrite Hfetch. reflexivity.
Qed.

Lemma run_single_row_throws_TypeError_witness :
  run 1 (parseCommandLineArguments Fixtures.no_flags)
      (mkWorld Fixtures.single_row_table [])
  = (Some (Rejected
       (TypeError "Cannot read property 'TransactionGroup' of undefined")),
     mkMigration 1 0,
     mkWorld Fixtures.single_row_table []).
Proof.
  apply (run_single_row_throws_TypeError Fixtures.example_credit
           (parseCommandLineArguments Fixtures.no_flags) 9 0 []);
    reflexivity.
Defined.

(** ** Termination *)

Lemma run_loop_stuck (fuel : nat) (o : options) (count : arg)
      (m : migration) (w : world) :
  offset_below m count = true ->
  retrieveValidTransactions o m w = inr ([], m) ->
  run_loop fuel o count m w = (None, m, w).
Proof.
  intros Hlt Hfetch. induction fuel as [|fuel IH]; [reflexivity|].
  cbn [run_loop]. rewrite Hlt, Hfetch. cbn [for_pairs].
  destruct w as [d c]. exact IH.
Qed.

(** C7 (the code departs from it): with [--limit 4] on a table of one
    pair, the cursor stops at 2, every later batch is empty, and the loop
    is still running after any number of iterations. *)
Theorem run_limit_beyond_table_never_settles (fuel : nat) :
  let r := run (S fuel) (parseCommandLineArguments Fixtures.limit_four)
               (mkWorld Fixtures.one_pair_table []) in
  r.1.1 = None /\ offset r.1.2 = 2%nat.
Proof.
  cbv zeta. unfold run. cbn [run_loop].
  change (offset_below new_Migration _) with true. cbv iota.
  change (retrieveValidTransactions _ new_Migration _)
    with (@inr exn _ ([Fixtures.example_credit; Fixtures.example_debit],
                      mkMigration 2 0)).
  cbv iota beta.
  destruct (for_pairs _ _) as [res out'] eqn:E.
  assert (Hres : res = Resolved).
  { vm_compute in E. injection E as <- _. reflexivity. }
  subst res.
  rewrite run_loop_stuck; [split; reflexivity|reflexivity|reflexivity].
Qed.

Lemma insert_by_group_length (tr : Transaction) (l : list Transaction) :
  length (insert_by_group tr l) = S (length l).
Proof.
  induction l as [|x l IH]; [reflexivity|].
  cbn [insert_by_group]. destruct (String.leb _ _); cbn [length]; [reflexivity|].
  rewrite IH. reflexivity.
Qed.

Lemma order_by_group_length (l : list Transaction) :
  length (order_by_group l) = length l.
Proof.
  induction l as [|x l IH]; [reflexivity|].
  cbn [order_by_group foldr]. rewrite insert_by_group_length.
  cbn [length]. f_equal. exact IH.
Qed.

Lemma findAll_valid_length (d : table) (n off : nat) :
  length (findAll_valid d n off) = Nat.min n (count_valid d - off).
Proof.
  unfold findAll_valid, count_valid.
  rewrite length_take, length_drop, order_by_group_length. reflexivity.
Qed.

Lemma run_loop_settles (o : options) (n : nat) (d : table) :
  Number (batchSize o) = Some (S n) ->
  forall (k : nat) (m : migration) (c : console),
    (count_valid d - offset m <= k)%nat ->
    (run_loop (S k) o (ANum (count_valid d)) m (mkWorld d c)).1.1 <> None.
Proof.
  intros Hb. 
  assert (Hfetch : forall m c,
            retrieveValidTransactions o m (mkWorld d c)
            = inr (findAll_valid d (S n) (offset m),
                   mkMigration (offset m + length (findAll_valid d (S n) (offset m)))
                                   (migrated m))).
  { intros m c. unfold retrieveValidTransactions.
    destruct (batchSize o) as [|n0|s] eqn:E; cbn [Number] in *.
    - discriminate Hb.
    - injection Hb as ->. reflexivity.
    - rewrite Hb. reflexivity. }
  induction k as [|k IH]; intros m c Hk.
  - cbn [run_loop]. unfold offset_below. cbn [Number].
    destruct (offset m <? count_valid d)%nat eqn:E.
    + apply Nat.ltb_lt in E. lia.
    + cbn. discriminate.
  - cbn [run_loop]. unfold offset_below. cbn [Number].
    destruct (offset m <? count_valid d)%nat eqn:E; [|cbn; discriminate].
    apply Nat.ltb_lt in E.
    rewrite Hfetch. cbn [out db].
    destruct (for_pairs _ _) as [[|e] out']; [|cbn; discriminate].
    apply IH. cbn [offset]. rewrite findAll_valid_length. lia.
Qed.

(** Without a limit, and with a batch size that is a positive number, the
    loop settles: each batch is non-empty until the cursor reaches the
    count. *)
Lemma run_settles_without_limit (o : options) (w : world) (n : nat) :
  truthy (limit o) = false ->
  Number (batchSize o) = Some (S n) ->
  exists fuel, (run fuel o w).1.1 <> None.
Proof.
  intros Hl Hb. exists (S (count_valid (db w))).
  unfold run, js_or, countValidTransactions. rewrite Hl. destruct w as [d c].
  cbn [db].
  apply run_loop_settles with (n := n); [exact Hb|].
  unfold new_Migration. cbn [offset]. lia.
Qed.

Lemma retrieveValidTransactions_within (o : options) (m m' : migration)
      (w : world) (transactions : list Transaction) :
  (offset m <= count_valid (db w))%nat ->
  retrieveValidTransactions o m w = inr (transactions, m') ->
  (offset m' <= count_valid (db w))%nat.
Proof.
  intros Hm. unfold retrieveValidTransactions.
  destruct (batchSize o) as [|n0|s]; cbn [Number].
  - intros [= <- <-]. cbn [offset].
    rewrite length_drop, order_by_group_length. unfold count_valid in *. lia.
  - intros [= <- <-]. cbn [offset]. rewrite findAll_valid_length. lia.
  - destruct (digits_value s 0); [|discriminate].
    intros [= <- <-]. cbn [offset]. rewrite findAll_valid_length. lia.
Qed.

(** With a limit above the number of valid rows the run never returns: it
    throws or it loops for ever. *)
Lemma run_limit_beyond_table_never_returns (o : options) (w : world) (L : nat) :
  truthy (limit o) = true ->
  Number (limit o) = Some L ->
  (count_valid (db w) < L)%nat ->
  forall fuel, (run fuel o w).1.1 <> Some Resolved.
Proof.
  intros Htruthy HL Hlt fuel. unfold run, js_or. rewrite Htruthy.
  assert (Hstart : (offset new_Migration <= count_valid (db w))%nat)
    by (cbn; lia).
  revert Hstart. generalize new_Migration. revert w Hlt.
  induction fuel as [|fuel IH]; intros w Hlt m Hm; [discriminate|].
  cbn [run_loop]. unfold offset_below. rewrite HL.
  destruct (offset m <? L)%nat eqn:E.
  - destruct (retrieveValidTransactions o m w) as [e | [transactions m']] eqn:F;
      [discriminate|].
    destruct (for_pairs transactions (out w)) as [[|e] out']; [|discriminate].
    apply (IH (mkWorld (db w) out')); [exact Hlt|].
    exact (retrieveValidTransactions_within o m m' w transactions Hm F).
  - apply Nat.ltb_ge in E. lia.
Qed.

(** ** Writes *)

(** C10: whatever the options (whatever [dryRun] holds) and however long
    the loop has run, the table is the one the run started from, and the
    run with [dryRun] set is the run with [dryRun] cleared; with
    [--notdryrun] on a table of one pair the run completes, [migrate] has
    changed the debit row it was given, and the table still holds the row
    as it was. *)
Theorem run_never_writes :
  (forall (fuel : nat) (o : options) (w : world),
     db (run fuel o w).2 = db w) /\
  (forall (fuel : nat) (o : options) (w : world) (b : bool),
     run fuel (mkOptions b (verbose o) (limit o) (batchSize o)) w
     = run fuel o w) /\
  (dryRun (parseCommandLineArguments Fixtures.not_dry_run) = false /\
   (run 2 (parseCommandLineArguments Fixtures.not_dry_run)
        (mkWorld Fixtures.one_pair_table [])).1
   = (Some Resolved, mkMigration 2 0) /\
   snd Fixtures.migrated_example <> Fixtures.example_debit /\
   db (run 2 (parseCommandLineArguments Fixtures.not_dry_run)
          (mkWorld Fixtures.one_pair_table [])).2
   = [Fixtures.example_credit; Fixtures.example_debit]).
Proof.
  split; [|split].
  - intros fuel o w.
    unfold run. generalize (js_or (limit o) (ANum (countValidTransactions w))).
    generalize new_Migration.
    revert w. induction fuel as [|fuel IH]; intros w m count; [reflexivity|].
    cbn [run_loop].
    destruct (offset_below m count); [|reflexivity].
    destruct (retrieveValidTransactions o m w) as [e | [transactions m']];
      [reflexivity|].
    destruct (for_pairs transactions (out w)) as [[|e] out'].
    + rewrite IH. reflexivity.
    + reflexivity.
  - intros fuel o w b. unfold run. cbn [limit].
    generalize (js_or (limit o) (ANum (countValidTransactions w))).
    generalize new_Migration.
    revert w. induction fuel as [|fuel IH]; intros w m count; [reflexivity|].
    cbn [run_loop].
    destruct (offset_below m count); [|reflexivity].
    change (retrieveValidTransactions (mkOptions b (verbose o) (limit o) (batchSize o)) m w)
      with (retrieveValidTransactions o m w).
    destruct (retrieveValidTransactions o m w) as [e | [transactions m']];
      [reflexivity|].
    destruct (for_pairs transactions (out w)) as [[|e] out'].
    + apply IH.
    + reflexivity.
  - split; [reflexivity|]. split; [vm_compute; reflexivity|].
    split; [|vm_compute; reflexivity].
    vm_compute. discriminate.
Qed.

(* ===================================================================== *)
(** * Properties of the trial end date *)
(* ===================================================================== *)

Import JsDate.

(** ** The calendar *)

Example calendar_samples :
  civil_from_days 0 = (1970, 1, 1) /\
  civil_from_days (-1) = (1969, 12, 31) /\
  civil_from_days 11016 = (2000, 2, 29) /\
  civil_from_days 18336 = (2020, 3, 15) /\
  days_from_civil 2020 4 1 = 18353 /\
  MakeDate (days_from_civil 2020 4 1) 0 = 1585699200 * 1000.
Proof. repeat split; vm_compute; reflexivity. Qed.

Lemma yoe_of_doe_of (yoe doy : Z) :
  0 <= yoe < 400 -> 0 <= doy <= 364 -> yoe_of_doe (doe_of yoe doy) = yoe.
Proof.
  intros Hy Hd. unfold yoe_of_doe, doe_of. Z.div_mod_to_equations. lia.
Qed.

Lemma mp_of_doy_of_month (mp : Z) :
  0 <= mp <= 11 -> mp_of_doy (doy_of_month mp) = mp.
Proof.
  intros H. unfold mp_of_doy, doy_of_month. Z.div_mod_to_equations. lia.
Qed.

Lemma doy_of_month_range (mp : Z) :
  0 <= mp <= 11 -> 0 <= doy_of_month mp <= 337.
Proof.
  intros H. unfold doy_of_month. Z.div_mod_to_equations. lia.
Qed.

Lemma doe_of_range (yoe doy : Z) :
  0 <= yoe < 400 -> 0 <= doy <= 364 -> 0 <= doe_of yoe doy < 146097.
Proof.
  intros Hy Hd. unfold doe_of. Z.div_mod_to_equations. lia.
Qed.

(** The first day of a month is mapped to its day number and back. *)
Lemma civil_of_first_day (y m : Z) :
  1 <= m <= 12 -> civil_from_days (days_from_civil y m 1) = (y, m, 1).
Proof.
  intros Hm. unfold days_from_civil. cbv zeta.
  set (y' := if m <=? 2 then y - 1 else y).
  set (era := y' / 400).
  assert (Hyoe : 0 <= y' - era * 400 < 400)
    by (unfold era; Z.div_mod_to_equations; lia).
  set (yoe := y' - era * 400) in *.
  set (mp := if 2 <? m then m - 3 else m + 9).
  assert (Hmp : 0 <= mp <= 11) by (unfold mp; destruct (2 <? m) eqn:E; lia).
  pose proof (doy_of_month_range mp Hmp) as Hdoy.
  replace (doy_of_month mp + 1 - 1) with (doy_of_month mp) by lia.
  pose proof (doe_of_range yoe (doy_of_month mp) Hyoe ltac:(lia)) as Hdoe.
  unfold civil_from_days. cbv zeta.
  set (doe := doe_of yoe (doy_of_month mp)) in *.
  replace (era * 146097 + doe - 719468 + 719468) with (doe + era * 146097) by lia.
  rewrite Z.div_add, (Z.div_small doe), Z.add_0_l by lia.
  replace (doe + era * 146097 - era * 146097) with doe by lia.
  unfold civil_of_era. cbv zeta. unfold doe.
  rewrite yoe_of_doe_of by lia.
  replace (doe_of yoe (doy_of_month mp) - doe_of yoe 0) with (doy_of_month mp)
    by (unfold doe_of; lia).
  rewrite mp_of_doy_of_month by lia.
  replace (doy_of_month mp - doy_of_month mp + 1) with 1 by lia.
  assert (Hm' : (if mp <? 10 then mp + 3 else mp - 9) = m).
  { unfold mp. destruct (2 <? m) eqn:E; destruct (_ <? 10) eqn:E2; lia. }
  rewrite Hm'.
  f_equal. f_equal. unfold yoe, y'. destruct (m <=? 2) eqn:E; lia.
Qed.

Lemma civil_month_range (z : Z) : 1 <= (civil_from_days z).1.2 <= 12.
Proof.
  unfold civil_from_days, civil_of_era. cbv zeta. cbn [fst snd].
  set (z' := z + 719468). set (era := z' / 146097).
  assert (H : 0 <= z' - era * 146097 < 146097)
    by (unfold era; Z.div_mod_to_equations; lia).
  set (doe := z' - era * 146097) in *. clearbody doe.
  unfold mp_of_doy, doe_of, yoe_of_doe.
  destruct (_ <? 10) eqn:E; Z.div_mod_to_equations; lia.
Qed.

Lemma TimeWithinDay_range (t : Z) : 0 <= TimeWithinDay t < msPerDay.
Proof. unfold TimeWithinDay, msPerDay. apply Z.mod_pos_bound. lia. Qed.

Lemma Day_MakeDate (day tod : Z) :
  0 <= tod < msPerDay ->
  Day (MakeDate day tod) = day /\ TimeWithinDay (MakeDate day tod) = tod.
Proof.
  unfold Day, TimeWithinDay, MakeDate, msPerDay. intros H.
  split; Z.div_mod_to_equations; lia.
Qed.

Lemma MonthFromTime_range (t : Z) : 0 <= MonthFromTime t <= 11.
Proof.
  unfold MonthFromTime. pose proof (civil_month_range (Day t)). lia.
Qed.

Lemma civil_of_MakeDay_first (year month : Z) :
  civil_from_days (MakeDay year month 1)
  = (year + month / 12, month mod 12 + 1, 1).
Proof.
  unfold MakeDay. cbv zeta.
  replace (days_from_civil (year + month / 12) (month mod 12 + 1) 1 + 1 - 1)
    with (days_from_civil (year + month / 12) (month mod 12 + 1) 1) by lia.
  apply civil_of_first_day.
  pose proof (Z.mod_pos_bound month 12). lia.
Qed.

Lemma fields_of_first_of_month (tz : Z -> bool -> Z) (t : Z) :
  let lt := LocalTime tz t in
  YearFromTime (first_of_month tz t) = YearFromTime lt /\
  MonthFromTime (first_of_month tz t) = MonthFromTime lt /\
  DateFromTime (first_of_month tz t) = 1 /\
  TimeWithinDay (first_of_month tz t) = TimeWithinDay lt.
Proof.
  cbv zeta. unfold first_of_month. cbv zeta.
  set (lt := LocalTime tz t).
  pose proof (TimeWithinDay_range lt) as Htod.
  pose proof (MonthFromTime_range lt) as HM.
  set (Y := YearFromTime lt). set (M := MonthFromTime lt) in *.
  set (tod := TimeWithinDay lt) in *. clearbody Y M tod.
  destruct (Day_MakeDate (MakeDay Y M 1) tod Htod) as [Hday Htime].
  unfold YearFromTime, MonthFromTime, DateFromTime.
  rewrite Hday, civil_of_MakeDay_first. cbn [fst snd].
  rewrite Z.div_small, Z.mod_small by lia.
  repeat split; first [exact Htime | lia].
Qed.

(** Once the day of the month is forced to 1, moving the month by [k]
    gives the first of the month [k] months later, at the same local time
    of day. *)
Lemma setMonth_after_setDate (tz : Z -> bool -> Z) (t k : Z) :
  let lt := LocalTime tz t in
  LocalTime tz (UTC tz (first_of_month tz t)) = first_of_month tz t ->
  setMonth tz (setDate tz t 1) (getMonth tz (setDate tz t 1) + k)
  = UTC tz (MakeDate (MakeDay (YearFromTime lt) (MonthFromTime lt + k) 1)
                     (TimeWithinDay lt)).
Proof.
  intros lt Hrt. unfold setMonth, getMonth. cbv zeta.
  assert (Hd1 : setDate tz t 1 = UTC tz (first_of_month tz t))
    by (unfold setDate, first_of_month; reflexivity).
  rewrite Hd1, Hrt.
  destruct (fields_of_first_of_month tz t) as (-> & -> & -> & ->).
  reflexivity.
Qed.

(** ** The trial end *)

(** C6: in any time zone, the trial end is the time value obtained by
    setting the day of the month to 1 and then the month to the current
    month plus 1 (interval month) or plus 12 (interval year), divided by
    1000 and floored; any other interval gives [null].  Where the local
    time of that first of the month exists, this is the first day of the
    following month, or of the same month of the following year, at the
    local time of day of the creation date.  For an order created at local
    midnight of 2020-03-15 and interval month it is the epoch second of
    local midnight of 2020-04-01; in UTC, 1585699200. *)
Theorem trial_end_is_first_of_following_month (tz : Z -> bool -> Z) :
  (forall (t : Z) (interval : string),
     let d1 := setDate tz t 1 in
     getSubscriptionTrialEndDate tz t interval
     = if String.eqb interval "month"
       then Some (setMonth tz d1 (getMonth tz d1 + 1) / 1000)
       else if String.eqb interval "year"
       then Some (setMonth tz d1 (getMonth tz d1 + 12) / 1000)
       else None) /\
  (forall (t : Z) (interval : string),
     interval <> "month" -> interval <> "year" ->
     getSubscriptionTrialEndDate tz t interval = None) /\
  (forall t : Z,
     let lt := LocalTime tz t in
     let Y := YearFromTime lt in
     let M := MonthFromTime lt in
     let tod := TimeWithinDay lt in
     LocalTime tz (UTC tz (first_of_month tz t)) = first_of_month tz t ->
     getSubscriptionTrialEndDate tz t "month"
     = Some (UTC tz (MakeDate (MakeDay Y (M + 1) 1) tod) / 1000) /\
     civil_from_days (MakeDay Y (M + 1) 1)
     = (if M =? 11 then (Y + 1, 1, 1) else (Y, M + 2, 1)) /\
     getSubscriptionTrialEndDate tz t "year"
     = Some (UTC tz (MakeDate (MakeDay Y (M + 12) 1) tod) / 1000) /\
     civil_from_days (MakeDay Y (M + 12) 1) = (Y + 1, M + 1, 1)) /\
  (LocalTime tz (UTC tz (local_midnight 2020 3 15)) = local_midnight 2020 3 15 ->
   LocalTime tz (UTC tz (local_midnight 2020 3 1)) = local_midnight 2020 3 1 ->
   getSubscriptionTrialEndDate tz (UTC tz (local_midnight 2020 3 15)) "month"
   = Some (UTC tz (local_midnight 2020 4 1) / 1000)) /\
  getSubscriptionTrialEndDate utc_zone 1584230400000 "month" = Some 1585699200.
Proof.
  split; [|split; [|split; [|split]]].
  - intros t interval. reflexivity.
  - intros t interval Hm Hy. unfold getSubscriptionTrialEndDate.
    destruct (String.eqb interval "month") eqn:E1;
      [apply String.eqb_eq in E1; contradiction|].
    destruct (String.eqb interval "year") eqn:E2;
      [apply String.eqb_eq in E2; contradiction|].
    reflexivity.
  - intros t lt Y M tod Hrt.
    pose proof (MonthFromTime_range lt) as HM. fold M in HM.
    unfold getSubscriptionTrialEndDate, new_Date, getTime.
    cbn [String.eqb Ascii.eqb Bool.eqb].
    rewrite !(setMonth_after_setDate tz t _ Hrt). fold lt Y M tod.
    rewrite !civil_of_MakeDay_first.
    repeat split.
    + destruct (M =? 11) eqn:E.
      * apply Z.eqb_eq in E. rewrite E. reflexivity.
      * apply Z.eqb_neq in E. rewrite Z.div_small, Z.mod_small by lia.
        f_equal. f_equal; lia.
    + replace (M + 12) with (M + 1 * 12) by lia.
      rewrite Z.div_add, Z.mod_add, Z.div_small, Z.mod_small by lia.
      reflexivity.
  - intros H15 H1.
    set (t0 := UTC tz (local_midnight 2020 3 15)) in *.
    assert (Hf : first_of_month tz t0 = local_midnight 2020 3 1).
    { unfold first_of_month. cbv zeta. rewrite H15. vm_compute. reflexivity. }
    unfold getSubscriptionTrialEndDate, new_Date, getTime.
    cbn [String.eqb Ascii.eqb Bool.eqb].
    rewrite (setMonth_after_setDate tz t0) by (rewrite Hf; exact H1).
    rewrite H15.
    replace (MakeDate (MakeDay (YearFromTime (local_midnight 2020 3 15))
                               (MonthFromTime (local_midnight 2020 3 15) + 1) 1)
                      (TimeWithinDay (local_midnight 2020 3 15)))
      with (local_midnight 2020 4 1) by (vm_compute; reflexivity).
    reflexivity.
  - vm_compute. reflexivity.
Qed.

Lemma trial_end_is_first_of_following_month_witness :
  getSubscriptionTrialEndDate utc_zone 1584268200123 "month" = Some 1585737000 /\
  getSubscriptionTrialEndDate utc_zone 1584268200123 "year" = Some 1614594600 /\
  getSubscriptionTrialEndDate utc_zone 1584268200123 "week" = None /\
  getSubscriptionTrialEndDate utc_zone (UTC utc_zone (local_midnight 2020 3 15)) "month"
  = Some (UTC utc_zone (local_midnight 2020 4 1) / 1000).
Proof.
  pose proof (trial_end_is_first_of_following_month utc_zone)
    as (_ & Hnull & Hgen & Hex & _).
  destruct (Hgen 1584268200123 ltac:(vm_compute; reflexivity))
    as (Hmonth & _ & Hyear & _).
  split; [|split; [|split]].
  - rewrite Hmonth. vm_compute. reflexivity.
  - rewrite Hyear. vm_compute. reflexivity.
  - apply Hnull; discriminate.
  - apply Hex; vm_compute; reflexivity.
Defined.

(* ===================================================================== *)
(** * Properties of the order processor *)
(* ===================================================================== *)

Import OrderProcessor.

Section SubscriptionFailure.

Variable stripe : Stripe.Gateway.
Variable models : Models.Persistence.
Variable LocalTZA : Z -> bool -> Z.
Variable OC_FEE_PERCENT : Z.
Variable DONATION BACKER SUBSCRIPTION_CONFIRMED website : string.

(** C5: for an order with a subscription, whatever the gateway and the
    models, when the call of [createSubscription] that [processOrder] makes
    fails with [e] (the one error that the gateway has answered with in
    this run is that of this call), [processOrder] is rejected with [e],
    [order.processedAt] and [paymentMethod.confirmedAt] are as they were,
    and the table of transactions holds, after what it held before, the
    transaction that the charge step created for this order. *)
Theorem subscription_failure_keeps_charge
        (w w' : world) (r : exn + transaction_payload)
        (sub : Subscription) (e : exn) :
  subscription w = Some sub ->
  processOrder stripe models LocalTZA OC_FEE_PERCENT DONATION BACKER
               SUBSCRIPTION_CONFIRMED website w
  = (r, w') ->
  errors w' = errors w ++ [(CallCreateSubscription, e)] ->
  r = inl e /\
  processedAt (order w') = processedAt (order w) /\
  confirmedAt (paymentMethod w') = confirmedAt (paymentMethod w) /\
  exists p, Transactions w' = Transactions w ++ [p] /\
            p_OrderId p = order_id (order w) /\
            p_amount p = totalAmount (order w).
Proof.
  intros Hsub. revert Hsub.
  unfold_chain. destruct w as [o pm s txs acts mems cs errs clock]. cbn.
  intros ->. follow_chain.
  all: intros [= <- <-]; cbn; intros Herr.
  all: first [apply app_inv_head in Herr
             | rewrite <- (app_nil_r errs) in Herr at 1;
               apply app_inv_head in Herr].
  all: try discriminate Herr.
  all: injection Herr as <-.
  all: repeat (split; [reflexivity|]).
  all: eexists; repeat split; reflexivity.
Qed.

End SubscriptionFailure.

Lemma subscription_failure_keeps_charge_witness :
  OrderFixtures.refused_run.1 = inl OrderFixtures.refusal /\
  processedAt (order OrderFixtures.refused_run.2) = None /\
  confirmedAt (paymentMethod OrderFixtures.refused_run.2) = None /\
  exists p, Transactions OrderFixtures.refused_run.2 = [p] /\
            p_OrderId p = 31 /\ p_amount p = 1000.
Proof.
  apply (subscription_failure_keeps_charge
           OrderFixtures.refusing_gateway OrderFixtures.reliable_models
           utc_zone 5 "DONATION" "BACKER"
           "subscription.confirmed" "https://example.org"
           OrderFixtures.monthly_world
           OrderFixtures.refused_run.2 OrderFixtures.refused_run.1
           (mkSubscription 51 "month" None false)
           OrderFixtures.refusal).
  - reflexivity.
  - vm_compute. reflexivity.
  - vm_compute. reflexivity.
Defined.

(* ===================================================================== *)
(** * Further properties of the fee helpers and of [migrate] *)
(* ===================================================================== *)

Import Js Ledger FeeMigration.

Lemma Qgtb_positive (q : Q) : Qgtb q 0 = true <-> (0 < q)%Q.
Proof.
  unfold Qgtb. rewrite negb_true_iff. split.
  - intros H. apply Qnot_le_lt. intros Hle.
    apply Qle_bool_iff in Hle. congruence.
  - intros H. destruct (Qle_bool q 0) eqn:E; [|reflexivity].
    apply Qle_bool_iff in E. exfalso. exact (Qlt_not_le _ _ H E).
Qed.

Lemma Qgtb_opp_of_positive (q : Q) :
  Qgtb q 0 = true -> Qgtb (double (- q)) 0 = false.
Proof.
  intros H. apply Qgtb_positive in H.
  unfold Qgtb. apply negb_false_iff, Qle_bool_iff, Qlt_le_weak.
  apply double_negative, Qlt_opp_negative. exact H.
Qed.

(** [toNegative] applied to its own result changes nothing, whatever the
    value ([null], zero, negative or positive). *)
Lemma toNegative_idempotent (v : value) :
  toNegative (toNegative v) = toNegative v.
Proof.
  unfold toNegative at 2 3.
  destruct (Qgtb (ToNumber v) 0) eqn:E.
  - unfold toNegative. cbn [ToNumber].
    rewrite (Qgtb_opp_of_positive _ E). reflexivity.
  - unfold toNegative. rewrite E. reflexivity.
Qed.

Lemma parseInt_opp_zero (q : Q) :
  Qeq_bool (parseInt (- q)) 0 = Qeq_bool (parseInt q) 0.
Proof.
  assert (Hsym : forall x : Q, (parseInt (- x) == - parseInt x)%Q).
  { intros x. unfold parseInt.
    destruct (Qle_bool 0 x) eqn:E1; destruct (Qle_bool 0 (- x)) eqn:E2.
    - apply Qle_bool_iff in E1, E2.
      assert (Hx : (x == 0)%Q).
      { apply Qle_antisym; [|exact E1].
        rewrite <- (Qopp_involutive x), <- (Qopp_involutive 0).
        apply Qopp_le_compat. exact E2. }
      rewrite Hx. reflexivity.
    - unfold Qceiling.
      rewrite (Qfloor_comp _ _ (Qopp_involutive x)), inject_Z_opp.
      reflexivity.
    - unfold Qceiling. rewrite inject_Z_opp, Qopp_involutive. reflexivity.
    - exfalso.
      assert (H1 : ~ (0 <= x)%Q) by (intros H; apply Qle_bool_iff in H; congruence).
      assert (H2 : ~ (0 <= - x)%Q) by (intros H; apply Qle_bool_iff in H; congruence).
      apply Qnot_le_lt in H1. apply H2.
      rewrite <- (Qopp_involutive 0). apply Qopp_le_compat.
      apply Qlt_le_weak. exact H1. }
  destruct (Qeq_bool (parseInt q) 0) eqn:E.
  - apply Qeq_bool_iff in E. apply Qeq_bool_iff.
    rewrite Hsym, E. reflexivity.
  - destruct (Qeq_bool (parseInt (- q)) 0) eqn:E'; [|reflexivity].
    apply Qeq_bool_iff in E'. rewrite Hsym in E'.
    assert (H0 : (parseInt q == 0)%Q).
    { rewrite <- (Qopp_involutive (parseInt q)), E'. reflexivity. }
    apply Qeq_bool_iff in H0. congruence.
Qed.

Lemma fee_present_toNegative (v : value) :
  fee_present (toNegative v) = fee_present v.
Proof.
  unfold toNegative. destruct (Qgtb (ToNumber v) 0) eqn:E; [|reflexivity].
  destruct v as [|q]; cbn [ToNumber] in *; [discriminate E|].
  apply Qgtb_positive in E.
  unfold fee_present. cbn [ToNumber ToBoolean].
  rewrite double_opp, double_idempotent, parseInt_opp_zero. f_equal.
  assert (Hq : Qeq_bool q 0 = false).
  { destruct (Qeq_bool q 0) eqn:E0; [|reflexivity].
    apply Qeq_bool_iff, double_zero in E0. rewrite E0 in E.
    discriminate E. }
  assert (Hd : Qeq_bool (- double q) 0 = false).
  { destruct (Qeq_bool (- double q) 0) eqn:E1; [|reflexivity].
    apply Qeq_bool_iff in E1.
    assert (H0 : (double q == 0)%Q).
    { rewrite <- (Qopp_involutive (double q)), E1. reflexivity. }
    rewrite H0 in E. discriminate E. }
  rewrite Hq, Hd. reflexivity.
Qed.

(** X1: after [rewriteFees], the row named [credit] and the row named
    [debit] carry fees ([hasFees]) exactly when the credit row carried fees
    before: the fees the debit row had do not count. *)
Theorem rewriteFees_hasFees (credit debit r : ref) (s : store) :
  r = credit \/ r = debit ->
  hasFees (deref (rewriteFees credit debit s) r) = hasFees (deref s credit).
Proof.
  intros Hr. unfold hasFees.
  destruct (rewriteFees_columns credit debit r s Hr) as (-> & -> & ->).
  rewrite !fee_present_toNegative. reflexivity.
Qed.

Lemma rewriteFees_hasFees_witness :
  hasFees Fixtures.example_debit = true /\
  hasFees (deref (rewriteFees Tr1 Tr2
                    (Fixtures.example_credit, Fixtures.example_debit)) Tr2)
  = false.
Proof.
  split; [reflexivity|].
  rewrite (rewriteFees_hasFees Tr1 Tr2 Tr2
             (Fixtures.example_credit, Fixtures.example_debit)
             (or_intror eq_refl)).
  reflexivity.
Defined.

(** The two rows [migrate] leaves, by the branch it takes. *)
Lemma migrate_rows (tr1 tr2 : Transaction) :
  (migrate tr1 tr2).1.2
  = if negb (String.eqb (TransactionGroup tr1) (TransactionGroup tr2))
    then (tr1, tr2)
    else if same_non_null (ExpenseId tr1) (ExpenseId tr2) then (tr1, tr2)
    else if same_non_null (OrderId tr1) (OrderId tr2) then
      let s := update (debit_of tr1) ensureHostCurrencyFxRate
                 (update (credit_of tr1) ensureHostCurrencyFxRate (tr1, tr2)) in
      if negb (hasFees s.1) && negb (hasFees s.2) then s
      else rewriteFees (credit_of tr1) (debit_of tr1) s
    else (tr1, tr2).
Proof.
  unfold migrate.
  destruct (negb (String.eqb _ _)); [reflexivity|].
  destruct (same_non_null (ExpenseId tr1) (ExpenseId tr2)); [reflexivity|].
  destruct (same_non_null (OrderId tr1) (OrderId tr2)); [|reflexivity].
  cbv zeta. destruct (negb _ && negb _); reflexivity.
Qed.

Lemma ensureHostCurrencyFxRate_idempotent (tr : Transaction) :
  ensureHostCurrencyFxRate (ensureHostCurrencyFxRate tr)
  = ensureHostCurrencyFxRate tr.
Proof.
  unfold ensureHostCurrencyFxRate at 2 3.
  destruct (strict_eq (amount tr) (amountInHostCurrency tr)
            && negb (ToBoolean (hostCurrencyFxRate tr))) eqn:E.
  - unfold ensureHostCurrencyFxRate. cbn.
    rewrite andb_false_r. reflexivity.
  - unfold ensureHostCurrencyFxRate. rewrite E. reflexivity.
Qed.
Lemma store_ext (s s' : store) :
  (forall r, deref s r = deref s' r) -> s = s'.
Proof.
  intros H. destruct s as [a b], s' as [a' b'].
  pose proof (H Tr1) as H1. pose proof (H Tr2) as H2. cbn in H1, H2.
  congruence.
Qed.

Lemma named_credit (credit debit : ref) : named credit debit credit = true.
Proof. destruct credit, debit; reflexivity. Qed.

Lemma rewriteFees_cells (credit debit r : ref) (s : store) :
  deref (rewriteFees credit debit s) r
  = if named credit debit r
    then with_fees (toNegative (hostFeeInHostCurrency (deref s credit)))
                   (toNegative (platformFeeInHostCurrency (deref s credit)))
                   (toNegative (paymentProcessorFeeInHostCurrency (deref s credit)))
                   (deref s r)
    else deref s r.
Proof.
  destruct s as [a b], credit, debit, r; reflexivity.
Qed.

Lemma ensure_both_cells (credit debit r : ref) (s : store) :
  deref (ensure_both credit debit s) r
  = if named credit debit r then ensureHostCurrencyFxRate (deref s r)
    else deref s r.
Proof.
  destruct s as [a b], credit, debit, r; unfold ensure_both;
    cbn [update deref fst snd named];
    rewrite ?ensureHostCurrencyFxRate_idempotent; reflexivity.
Qed.

Lemma ensure_with_fees (h p pp : value) (tr : Transaction) :
  ensureHostCurrencyFxRate (with_fees h p pp tr)
  = with_fees h p pp (ensureHostCurrencyFxRate tr).
Proof.
  unfold ensureHostCurrencyFxRate. cbn.
  destruct (_ && _); reflexivity.
Qed.

Lemma with_fees_with_fees (h p pp h' p' pp' : value) (tr : Transaction) :
  with_fees h p pp (with_fees h' p' pp' tr) = with_fees h p pp tr.
Proof. reflexivity. Qed.

Lemma fees_with_fees (h p pp : value) (tr : Transaction) :
  hostFeeInHostCurrency (with_fees h p pp tr) = h /\
  platformFeeInHostCurrency (with_fees h p pp tr) = p /\
  paymentProcessorFeeInHostCurrency (with_fees h p pp tr) = pp.
Proof. repeat split. Qed.

Lemma ensure_both_idempotent (credit debit : ref) (s : store) :
  ensure_both credit debit (ensure_both credit debit s)
  = ensure_both credit debit s.
Proof.
  apply store_ext. intros r. rewrite !ensure_both_cells.
  destruct (named credit debit r); [|reflexivity].
  apply ensureHostCurrencyFxRate_idempotent.
Qed.

Lemma ensure_both_rewriteFees (credit debit : ref) (s : store) :
  ensure_both credit debit (rewriteFees credit debit s)
  = rewriteFees credit debit (ensure_both credit debit s).
Proof.
  apply store_ext. intros r.
  rewrite ensure_both_cells, !rewriteFees_cells, !ensure_both_cells.
  rewrite named_credit.
  destruct (fees_ensureHostCurrencyFxRate (deref s credit)) as (-> & -> & ->).
  destruct (named credit debit r); [|reflexivity].
  apply ensure_with_fees.
Qed.

Lemma rewriteFees_idempotent (credit debit : ref) (s : store) :
  rewriteFees credit debit (rewriteFees credit debit s)
  = rewriteFees credit debit s.
Proof.
  apply store_ext. intros r. rewrite !rewriteFees_cells.
  rewrite named_credit.
  destruct (named credit debit r); [|reflexivity].
  destruct (fees_with_fees
              (toNegative (hostFeeInHostCurrency (deref s credit)))
              (toNegative (platformFeeInHostCurrency (deref s credit)))
              (toNegative (paymentProcessorFeeInHostCurrency (deref s credit)))
              (deref s credit)) as (-> & -> & ->).
  rewrite !toNegative_idempotent. apply with_fees_with_fees.
Qed.

Lemma migrate_untouched (tr1 tr2 : Transaction) (r : ref) :
  same_untouched_columns (deref (migrate tr1 tr2).1.2 r) (deref (tr1, tr2) r).
Proof.
  rewrite migrate_rows.
  destruct (negb (String.eqb _ _)); [apply same_untouched_columns_refl|].
  destruct (same_non_null (ExpenseId tr1) (ExpenseId tr2));
    [apply same_untouched_columns_refl|].
  destruct (same_non_null (OrderId tr1) (OrderId tr2));
    [|apply same_untouched_columns_refl].
  cbv zeta.
  assert (H2 : forall r,
             same_untouched_columns
               (deref (update (debit_of tr1) ensureHostCurrencyFxRate
                         (update (credit_of tr1) ensureHostCurrencyFxRate
                            (tr1, tr2))) r)
               (deref (tr1, tr2) r)).
  { intros r0. eapply same_untouched_columns_trans; apply update_ensure_untouched. }
  destruct (negb _ && negb _); [apply H2|].
  eapply same_untouched_columns_trans; [apply rewriteFees_untouched|apply H2].
Qed.

(** X2: [migrate] is idempotent on the rows: handing it the two rows it
    left gives them back unchanged, whatever branch it takes. *)
Theorem migrate_idempotent (tr1 tr2 : Transaction) :
  (migrate (migrate tr1 tr2).1.2.1 (migrate tr1 tr2).1.2.2).1.2
  = (migrate tr1 tr2).1.2.
Proof.
  pose proof (migrate_untouched tr1 tr2 Tr1) as (_ & Hty & Hg1 & Ho1 & He1 & _).
  pose proof (migrate_untouched tr1 tr2 Tr2) as (_ & _ & Hg2 & Ho2 & He2 & _).
  cbn [deref fst snd] in *.
  set (s' := (migrate tr1 tr2).1.2) in *.
  rewrite (migrate_rows s'.1 s'.2).
  unfold credit_of, debit_of. rewrite Hg1, Hg2, Ho1, Ho2, He1, He2, Hty.
  fold (credit_of tr1) (debit_of tr1).
  replace (s'.1, s'.2) with s' by (destruct s'; reflexivity).
  fold (ensure_both (credit_of tr1) (debit_of tr1) s').
  unfold s'. rewrite (migrate_rows tr1 tr2).
  destruct (negb (String.eqb _ _)); [reflexivity|].
  destruct (same_non_null (ExpenseId tr1) (ExpenseId tr2)); [reflexivity|].
  destruct (same_non_null (OrderId tr1) (OrderId tr2)); [|reflexivity].
  cbv zeta.
  fold (ensure_both (credit_of tr1) (debit_of tr1) (tr1, tr2)).
  set (c := credit_of tr1). set (d := debit_of tr1).
  set (s1 := ensure_both c d (tr1, tr2)).
  assert (Hs1 : ensure_both c d s1 = s1)
    by (unfold s1; apply ensure_both_idempotent).
  destruct (negb (hasFees s1.1) && negb (hasFees s1.2)) eqn:E.
  - rewrite Hs1, E. reflexivity.
  - rewrite ensure_both_rewriteFees, Hs1, rewriteFees_idempotent. clear E.
    destruct (negb (hasFees (rewriteFees c d s1).1) && _); reflexivity.
Qed.

(** X3: for a row whose [netAmountInCollectiveCurrency] is a number,
    [verify] holds exactly when [difference] is zero; a row whose net
    amount is [null] never passes [verify], and its difference is its net
    value. *)
Theorem verify_iff_difference_zero (tr : Transaction) :
  (forall n, netAmountInCollectiveCurrency tr = VNum n ->
     (verify tr = true <-> (difference tr == 0)%Q)) /\
  (netAmountInCollectiveCurrency tr = VNull ->
     verify tr = false /\ (difference tr == trValue tr)%Q).
Proof.
  unfold verify, difference, js_sub. split.
  - intros n Hn. rewrite Hn. cbn [strict_eq ToNumber].
    rewrite Qeq_bool_iff, double_trValue, double_zero. split; intros H.
    + rewrite H. apply Qplus_opp_r.
    + apply Qplus_inj_r with (z := (- double n)%Q).
      rewrite Qplus_opp_r. exact H.
  - intros Hn. rewrite Hn. cbn [strict_eq ToNumber]. split; [reflexivity|].
    assert (E : (trValue tr - 0 == trValue tr)%Q)
      by (unfold Qminus; change (- 0)%Q with 0%Q; apply Qplus_0_r).
    rewrite (double_comp _ _ E), double_trValue. reflexivity.
Qed.

Lemma verify_iff_difference_zero_witness :
  verify Fixtures.example_credit = true /\
  (difference Fixtures.example_credit == 0)%Q /\
  verify (with_fees VNull VNull VNull
            (mkTransaction 9 "CREDIT" "70ad" (Some 4) None
               VNull VNull VNull VNull VNull VNull VNull None)) = false.
Proof.
  pose proof (proj1 (verify_iff_difference_zero Fixtures.example_credit)
                (1000 # 1)%Q eq_refl) as H.
  split; [vm_compute; reflexivity|]. split.
  - apply H. vm_compute. reflexivity.
  - apply (proj2 (verify_iff_difference_zero _)). reflexivity.
Defined.

(** X4: a first row whose type is neither CREDIT nor DEBIT is never
    written to: [migrate] then names the second row both [credit] and
    [debit], so the first row keeps even a missing rate and fees of the
    wrong sign. *)
Theorem migrate_skips_row_of_other_type (tr1 tr2 : Transaction) :
  type tr1 <> "CREDIT" -> type tr1 <> "DEBIT" ->
  (migrate tr1 tr2).1.2.1 = tr1.
Proof.
  intros Hc Hd. rewrite migrate_rows.
  assert (Ec : credit_of tr1 = Tr2).
  { unfold credit_of. destruct (String.eqb (type tr1) "CREDIT") eqn:E;
      [apply String.eqb_eq in E; contradiction|reflexivity]. }
  assert (Ed : debit_of tr1 = Tr2).
  { unfold debit_of. destruct (String.eqb (type tr1) "DEBIT") eqn:E;
      [apply String.eqb_eq in E; contradiction|reflexivity]. }
  rewrite Ec, Ed.
  destruct (negb (String.eqb _ _)); [reflexivity|].
  destruct (same_non_null (ExpenseId tr1) (ExpenseId tr2)); [reflexivity|].
  destruct (same_non_null (OrderId tr1) (OrderId tr2)); [|reflexivity].
  cbv zeta. destruct (negb _ && negb _); reflexivity.
Qed.

Lemma migrate_skips_row_of_other_type_witness :
  (migrate ExtraFixtures.legacy_donation Fixtures.example_debit).1.2.1
  = ExtraFixtures.legacy_donation /\
  hostCurrencyFxRate ExtraFixtures.legacy_donation = VNull /\
  hasFees ExtraFixtures.legacy_donation = true.
Proof.
  split; [|split; reflexivity].
  apply migrate_skips_row_of_other_type; discriminate.
Defined.

(** ** What the rewrite does to the net value, and when [migrate] throws *)

Lemma ToNumber_toNegative (v : value) :
  (ToNumber (toNegative v) == - Qabs.Qabs (ToNumber v))%Q.
Proof.
  unfold toNegative, Qgtb.
  destruct (Qle_bool (ToNumber v) 0) eqn:E; cbn [negb].
  - apply Qle_bool_iff in E. rewrite (Qabs.Qabs_neg _ E).
    symmetry. apply Qopp_involutive.
  - assert (H : ~ (ToNumber v <= 0)%Q)
      by (intros H; apply Qle_bool_iff in H; congruence).
    apply Qnot_le_lt, Qlt_le_weak in H.
    cbn [ToNumber]. rewrite double_opp, double_ToNumber.
    rewrite (Qabs.Qabs_pos _ H). reflexivity.
Qed.

Lemma js_add_comp (a a' b b' : Q) :
  (a == a')%Q -> (b == b')%Q -> js_add a b = js_add a' b'.
Proof.
  intros Ha Hb. unfold js_add. apply double_comp.
  rewrite Ha, Hb. reflexivity.
Qed.

Lemma named_either (credit debit r : ref) :
  r = credit \/ r = debit -> named credit debit r = true.
Proof. intros [-> | ->]; destruct credit, debit; reflexivity. Qed.

(** X5: after [rewriteFees], the net value of the row named [credit] and
    of the row named [debit] is, in the double arithmetic of the script,
    the amount of that row in host currency less, one after the other, the
    absolute values of the three fees the credit row carried, rounded to an
    integer, times the rate of that row: the sign the fees had and the
    fees of the debit row play no part. *)
Theorem trValue_after_rewriteFees (credit debit r : ref) (s : store) :
  r = credit \/ r = debit ->
  trValue (deref (rewriteFees credit debit s) r)
  = js_mul
      (Math_round
         (js_add
            (js_add
               (js_add (ToNumber (amountInHostCurrency (deref s r)))
                  (- Qabs.Qabs (ToNumber (hostFeeInHostCurrency (deref s credit)))))
               (- Qabs.Qabs (ToNumber (platformFeeInHostCurrency (deref s credit)))))
            (- Qabs.Qabs
                 (ToNumber (paymentProcessorFeeInHostCurrency (deref s credit))))))
      (ToNumber (hostCurrencyFxRate (deref s r))).
Proof.
  intros Hr. rewrite rewriteFees_cells, (named_either credit debit r Hr).
  unfold trValue, with_fees.
  cbn [amountInHostCurrency hostFeeInHostCurrency platformFeeInHostCurrency
       paymentProcessorFeeInHostCurrency hostCurrencyFxRate
       set_hostFeeInHostCurrency set_platformFeeInHostCurrency
       set_paymentProcessorFeeInHostCurrency].
  rewrite (js_add_comp _ _ _ _
             (Qeq_refl (ToNumber (amountInHostCurrency (deref s r))))
             (ToNumber_toNegative (hostFeeInHostCurrency (deref s credit)))).
  rewrite (js_add_comp _ _ _ _ (Qeq_refl _)
             (ToNumber_toNegative (platformFeeInHostCurrency (deref s credit)))).
  rewrite (js_add_comp _ _ _ _ (Qeq_refl _)
             (ToNumber_toNegative
                (paymentProcessorFeeInHostCurrency (deref s credit)))).
  reflexivity.
Qed.

Lemma trValue_after_rewriteFees_witness :
  trValue (deref (rewriteFees Tr1 Tr2
                    (ExtraFixtures.positive_fee_credit,
                     ExtraFixtures.positive_fee_debit)) Tr2)
  = js_mul
      (Math_round
         (js_add
            (js_add
               (js_add
                  (ToNumber (amountInHostCurrency ExtraFixtures.positive_fee_debit))
                  (- Qabs.Qabs
                       (ToNumber (hostFeeInHostCurrency
                                    ExtraFixtures.positive_fee_credit))))
               (- Qabs.Qabs
                    (ToNumber (platformFeeInHostCurrency
                                 ExtraFixtures.positive_fee_credit))))
            (- Qabs.Qabs
                 (ToNumber (paymentProcessorFeeInHostCurrency
                              ExtraFixtures.positive_fee_credit)))))
      (ToNumber (hostCurrencyFxRate ExtraFixtures.positive_fee_debit)).
Proof.
  apply (trValue_after_rewriteFees Tr1 Tr2 Tr2
           (ExtraFixtures.positive_fee_credit, ExtraFixtures.positive_fee_debit)).
  right. reflexivity.
Defined.

(** X6: [migrate] throws exactly when the two rows are of different
    groups, and then before it has written anything: both rows are as they
    were.  The loop of [run] hands it rows of one group only, so that the
    promise that loop drops is never a rejected one. *)
Theorem migrate_rejects_exactly_on_different_groups (tr1 tr2 : Transaction) :
  ((migrate tr1 tr2).1.1 = Resolved <->
   TransactionGroup tr1 = TransactionGroup tr2) /\
  ((migrate tr1 tr2).1.1 <> Resolved ->
   (migrate tr1 tr2).1.1 = Rejected (Error "Wrong transaction pair detected") /\
   (migrate tr1 tr2).1.2 = (tr1, tr2)).
Proof.
  unfold migrate.
  destruct (String.eqb_spec (TransactionGroup tr1) (TransactionGroup tr2))
    as [Hg | Hg]; cbn [negb].
  - cbv zeta.
    destruct (same_non_null (ExpenseId tr1) (ExpenseId tr2));
      [|destruct (same_non_null (OrderId tr1) (OrderId tr2));
        [destruct (negb _ && negb _)|]];
      cbn [fst snd]; (split; [tauto|intros H; contradiction]).
  - cbn [fst snd]. split; [|intros _; split; reflexivity].
    split; [discriminate|contradiction].
Qed.

(* ===================================================================== *)
(** * Further properties of the scan *)
(* ===================================================================== *)

Import Cli.

(** ** One batch *)

Lemma paired_take_drop (k : nat) (l : list Transaction) :
  paired l -> paired (take (2 * k) l) /\ paired (drop (2 * k) l).
Proof.
  revert l. induction k as [|k IH]; intros l Hl.
  - split; [constructor|exact Hl].
  - replace (2 * S k)%nat with (S (S (2 * k))) by lia.
    destruct Hl as [|t1 t2 l Hg Hl]; [split; constructor|].
    cbn [take drop]. destruct (IH l Hl) as [Ht Hd].
    split; [constructor; assumption|exact Hd].
Qed.

Lemma for_pairs_paired (l : list Transaction) (out : console) :
  paired l -> (for_pairs l out).1 = Resolved.
Proof.
  intros Hl. revert out.
  induction Hl as [|t1 t2 l Hg Hl IH]; intros out; [reflexivity|].
  rewrite for_pairs_match by exact Hg. apply IH.
Qed.

(** ** Whole runs *)

Lemma count_valid_scanned (d : table) : count_valid d = length (scanned d).
Proof.
  unfold count_valid, scanned. rewrite order_by_group_length. reflexivity.
Qed.

(** A batch of even size cuts the rows between two pairs: the loop over
    the rows is the loop over the batch followed, when the batch went
    through, by the loop over the rows after it. *)
Lemma for_pairs_take (k : nat) (l : list Transaction) (c : console) :
  for_pairs l c
  = match for_pairs (take (2 * k) l) c with
    | (Resolved, c') => for_pairs (drop (2 * k) l) c'
    | (Rejected e, c') => (Rejected e, c')
    end.
Proof.
  revert l c. induction k as [|k IH]; intros l c; [reflexivity|].
  replace (2 * S k)%nat with (S (S (2 * k))) by lia.
  destruct l as [|t1 [|t2 l]]; [reflexivity|reflexivity|].
  cbn [take drop for_pairs].
  destruct (negb (String.eqb (TransactionGroup t1) (TransactionGroup t2)));
    [reflexivity|].
  destruct (migrate t1 t2) as [[? ?] lines]. apply IH.
Qed.

Lemma retrieveValidTransactions_batch (o : options) (n : nat) (m : migration)
      (w : world) :
  batchSize o <> ANull ->
  Number (batchSize o) = Some n ->
  retrieveValidTransactions o m w
  = inr (take n (drop (offset m) (scanned (db w))),
         mkMigration
           (offset m + length (take n (drop (offset m) (scanned (db w)))))
           (migrated m)).
Proof.
  intros Hnn Hb. unfold retrieveValidTransactions, findAll_valid.
  fold (scanned (db w)).
  destruct (batchSize o) as [|n0|s] eqn:E; cbn [Number] in Hb |- *.
  - contradiction.
  - injection Hb as ->. reflexivity.
  - rewrite Hb. reflexivity.
Qed.

(** The loop of [run] on a positive even batch size, from any cursor. *)
Lemma run_loop_even (o : options) (k : nat) (d : table) :
  Number (batchSize o) = Some (2 * S k)%nat ->
  forall (fuel : nat) (m : migration) (c : console),
    (length (scanned d) - offset m < fuel)%nat ->
    (run_loop fuel o (ANum (count_valid d)) m (mkWorld d c)).1.1
    = Some (for_pairs (drop (offset m) (scanned d)) c).1 /\
    (run_loop fuel o (ANum (count_valid d)) m (mkWorld d c)).2
    = mkWorld d (for_pairs (drop (offset m) (scanned d)) c).2 /\
    ((for_pairs (drop (offset m) (scanned d)) c).1 = Resolved ->
     (run_loop fuel o (ANum (count_valid d)) m (mkWorld d c)).1.2
     = mkMigration (Nat.max (offset m) (length (scanned d))) (migrated m)).
Proof.
  intros Hb.
  assert (Hnn : batchSize o <> ANull).
  { intros E. rewrite E in Hb. cbn in Hb. injection Hb as Hb. lia. }
  induction fuel as [|fuel IH]; intros m c Hlt; [lia|].
  cbn [run_loop]. unfold offset_below. cbn [Number].
  rewrite count_valid_scanned.
  destruct (offset m <? length (scanned d))%nat eqn:E.
  - apply Nat.ltb_lt in E.
    rewrite (retrieveValidTransactions_batch o (2 * S k) m (mkWorld d c) Hnn Hb).
    cbn [out db].
    set (rest := drop (offset m) (scanned d)) in *.
    assert (Hrest : length rest = (length (scanned d) - offset m)%nat)
      by (unfold rest; apply length_drop).
    rewrite (for_pairs_take (S k) rest c).
    destruct (for_pairs (take (2 * S k) rest) c) as [[|e] out'] eqn:F.
    + assert (Hdrop : drop (offset m + length (take (2 * S k) rest)) (scanned d)
                      = drop (2 * S k) rest).
      { unfold rest. rewrite drop_drop.
        destruct (Nat.le_gt_cases (2 * S k) (length (drop (offset m) (scanned d))))
          as [Hle | Hgt].
        - rewrite length_take, Nat.min_l by exact Hle. reflexivity.
        - rewrite length_drop in Hgt.
          rewrite length_take, length_drop, Nat.min_r by lia.
          rewrite (drop_ge (scanned d)
                     (offset m + (length (scanned d) - offset m))) by lia.
          rewrite (drop_ge (scanned d) (offset m + 2 * S k)) by lia.
          reflexivity. }
      assert (Hlen : (0 < length (take (2 * S k) rest) <= length rest)%nat)
        by (rewrite length_take; lia).
      rewrite count_valid_scanned in IH.
      destruct (IH (mkMigration (offset m + length (take (2 * S k) rest))
                                (migrated m)) out') as (H1 & H2 & H3).
      { cbn [offset]. lia. }
      cbn [offset migrated] in H1, H2, H3. rewrite Hdrop in H1, H2, H3.
      split; [exact H1|]. split; [exact H2|].
      intros Hres. rewrite (H3 Hres). f_equal. lia.
    + cbn [fst snd]. split; [reflexivity|]. split; [reflexivity|].
      discriminate.
  - apply Nat.ltb_ge in E. rewrite drop_ge by exact E.
    destruct m as [off mig]. cbn [for_pairs fst snd offset migrated] in *.
    split; [reflexivity|]. split; [reflexivity|].
    intros _. rewrite Nat.max_l by exact E. reflexivity.
Qed.

(** X7: without a limit and with a positive even batch size, cutting the
    scan into batches changes nothing: the run settles, on any table, as
    the loop over all the valid rows in one pass does, with the same
    error if any and the same console output, and leaves the table as it
    was; when the pass goes through, the cursor ends on the number of valid
    rows. *)
Theorem run_even_batches_as_one_pass (o : options) (w : world) (k : nat) :
  truthy (limit o) = false ->
  Number (batchSize o) = Some (2 * S k)%nat ->
  (run (S (count_valid (db w))) o w).1.1 = Some (one_pass w).1 /\
  (run (S (count_valid (db w))) o w).2 = mkWorld (db w) (one_pass w).2 /\
  ((one_pass w).1 = Resolved ->
   (run (S (count_valid (db w))) o w).1.2
   = mkMigration (count_valid (db w)) 0).
Proof.
  intros Hl Hb. unfold run, js_or, countValidTransactions, one_pass.
  rewrite Hl. destruct w as [d c]. cbn [db out].
  destruct (run_loop_even o k d Hb (S (count_valid d)) new_Migration c)
    as (H1 & H2 & H3).
  { rewrite <- count_valid_scanned. cbn [new_Migration offset]. lia. }
  unfold new_Migration in *. cbn [offset migrated] in H1, H2, H3.
  rewrite drop_0 in H1, H2, H3. rewrite <- count_valid_scanned in H3.
  split; [exact H1|]. split; [exact H2|]. exact H3.
Qed.

Lemma run_even_batches_as_one_pass_witness :
  (run (S (count_valid (db ExtraFixtures.two_pair_world)))
       (ExtraFixtures.batch_of 2) ExtraFixtures.two_pair_world).1.1
  = Some (one_pass ExtraFixtures.two_pair_world).1 /\
  (run (S (count_valid (db ExtraFixtures.two_pair_world)))
       (ExtraFixtures.batch_of 2) ExtraFixtures.two_pair_world).2
  = mkWorld (db ExtraFixtures.two_pair_world)
            (one_pass ExtraFixtures.two_pair_world).2 /\
  ((one_pass ExtraFixtures.two_pair_world).1 = Resolved ->
   (run (S (count_valid (db ExtraFixtures.two_pair_world)))
        (ExtraFixtures.batch_of 2) ExtraFixtures.two_pair_world).1.2
   = mkMigration (count_valid (db ExtraFixtures.two_pair_world)) 0).
Proof.
  apply (run_even_batches_as_one_pass (ExtraFixtures.batch_of 2)
           ExtraFixtures.two_pair_world 0); reflexivity.
Defined.

(** ** Batch sizes and limits that break the scan *)

(** X8: an odd batch size breaks the scan of a healthy table.  Without a
    limit, on a table whose valid rows pair up in scan order and are more
    than the batch size, the first batch ends on the first row of a pair:
    after the pairs before it the run stops with the [TypeError] of a
    property read on [undefined], the cursor on the batch size. *)
Theorem run_odd_batch_size_splits_a_pair
        (o : options) (w : world) (k fuel : nat) :
  truthy (limit o) = false ->
  Number (batchSize o) = Some (2 * k + 1)%nat ->
  paired (scanned (db w)) ->
  (2 * k + 1 < count_valid (db w))%nat ->
  run (S fuel) o w
  = (Some (Rejected
       (TypeError "Cannot read property 'TransactionGroup' of undefined")),
     mkMigration (2 * k + 1) 0,
     mkWorld (db w) (for_pairs (take (2 * k) (scanned (db w))) (out w)).2).
Proof.
  intros Hl Hb Hp Hn.
  assert (Hnn : batchSize o <> ANull).
  { intros E. rewrite E in Hb. cbn in Hb. injection Hb as Hb. lia. }
  rewrite count_valid_scanned in Hn.
  destruct (lookup_lt_is_Some_2 (scanned (db w)) (2 * k)) as [t Ht]; [lia|].
  assert (Hbatch : take (2 * k + 1) (drop 0 (scanned (db w)))
                   = take (2 * k) (scanned (db w)) ++ [t]).
  { rewrite drop_0. replace (2 * k + 1)%nat with (S (2 * k)) by lia.
    apply take_S_r. exact Ht. }
  unfold run, js_or, countValidTransactions. rewrite Hl. cbn [run_loop].
  unfold offset_below. cbn [Number new_Migration offset].
  rewrite count_valid_scanned.
  replace (0 <? length (scanned (db w)))%nat with true
    by (symmetry; apply Nat.ltb_lt; lia).
  rewrite (retrieveValidTransactions_batch o (2 * k + 1) _ w Hnn Hb).
  unfold new_Migration. cbn [offset migrated]. rewrite Hbatch.
  rewrite for_pairs_odd by (apply paired_take_drop; exact Hp).
  rewrite length_app, length_take. cbn [length].
  replace (0 + (Nat.min (2 * k) (length (scanned (db w))) + 1))%nat
    with (2 * k + 1)%nat by lia.
  reflexivity.
Qed.

Lemma run_odd_batch_size_splits_a_pair_witness :
  run 1 (parseCommandLineArguments (mkArgv false false None (Some "3")))
      ExtraFixtures.two_pair_world
  = (Some (Rejected
       (TypeError "Cannot read property 'TransactionGroup' of undefined")),
     mkMigration (2 * 1 + 1) 0,
     mkWorld (db ExtraFixtures.two_pair_world)
       (for_pairs (take (2 * 1) (scanned (db ExtraFixtures.two_pair_world)))
                  (out ExtraFixtures.two_pair_world)).2).
Proof.
  apply (run_odd_batch_size_splits_a_pair
           (parseCommandLineArguments (mkArgv false false None (Some "3")))
           ExtraFixtures.two_pair_world 1 0).
  - reflexivity.
  - reflexivity.
  - repeat constructor.
  - vm_compute. lia.
Defined.

(** X9: a batch size whose number is 0, as with [--batch-size 0], makes
    the run spin: without a limit, on a table with a valid row, every batch
    is empty, the cursor stays on 0 and the loop is still running after any
    number of iterations, having printed nothing. *)
Theorem run_batch_size_zero_never_settles (o : options) (w : world) (fuel : nat) :
  truthy (limit o) = false ->
  batchSize o <> ANull ->
  Number (batchSize o) = Some 0%nat ->
  count_valid (db w) <> 0%nat ->
  run fuel o w = (None, mkMigration 0 0, w).
Proof.
  intros Hl Hnn Hb Hc. unfold run, js_or, countValidTransactions. rewrite Hl.
  apply run_loop_stuck.
  - unfold offset_below. cbn [Number new_Migration offset].
    apply Nat.ltb_lt. lia.
  - rewrite (retrieveValidTransactions_batch o 0 _ w Hnn Hb). reflexivity.
Qed.

Lemma run_batch_size_zero_never_settles_witness :
  run 1000 (parseCommandLineArguments (mkArgv false false None (Some "0")))
      ExtraFixtures.two_pair_world
  = (None, mkMigration 0 0, ExtraFixtures.two_pair_world).
Proof.
  apply (run_batch_size_zero_never_settles
           (parseCommandLineArguments (mkArgv false false None (Some "0")))
           ExtraFixtures.two_pair_world 1000).
  - reflexivity.
  - discriminate.
  - reflexivity.
  - vm_compute. discriminate.
Defined.

(** X10: a limit that is given and whose number is 0, as with [--limit 0],
    does not mean no limit: the loop is not entered, no row is read and
    nothing is printed. *)
Theorem run_limit_zero_scans_nothing (o : options) (w : world) (fuel : nat) :
  truthy (limit o) = true ->
  Number (limit o) = Some 0%nat ->
  run (S fuel) o w = (Some Resolved, mkMigration 0 0, w).
Proof.
  intros Ht Hn. unfold run, js_or. rewrite Ht. cbn [run_loop].
  unfold offset_below. rewrite Hn. reflexivity.
Qed.

Lemma run_limit_zero_scans_nothing_witness :
  run 1 (parseCommandLineArguments (mkArgv false false (Some "0") None))
      ExtraFixtures.two_pair_world
  = (Some Resolved, mkMigration 0 0, ExtraFixtures.two_pair_world).
Proof.
  apply (run_limit_zero_scans_nothing
           (parseCommandLineArguments (mkArgv false false (Some "0") None))
           ExtraFixtures.two_pair_world 0); reflexivity.
Defined.

(** X11: the limit is compared with the cursor between two batches only.
    With a positive limit that is at most the batch size and at most the
    number of valid rows, the run is the loop over the whole first batch,
    and the cursor ends on the size of that batch, not on the limit. *)
Theorem run_limit_within_first_batch
        (o : options) (w : world) (L n fuel : nat) :
  truthy (limit o) = true ->
  Number (limit o) = Some (S L) ->
  batchSize o <> ANull ->
  Number (batchSize o) = Some n ->
  (S L <= n)%nat -> (S L <= count_valid (db w))%nat ->
  run (S (S fuel)) o w
  = (Some (for_pairs (findAll_valid (db w) n 0) (out w)).1,
     mkMigration (Nat.min n (count_valid (db w))) 0,
     mkWorld (db w) (for_pairs (findAll_valid (db w) n 0) (out w)).2).
Proof.
  intros Ht HL Hnn Hb Hn Hc. unfold run, js_or. rewrite Ht.
  cbn [run_loop]. unfold offset_below. rewrite HL.
  cbn [new_Migration offset].
  replace (0 <? S L)%nat with true by reflexivity.
  rewrite (retrieveValidTransactions_batch o n _ w Hnn Hb).
  unfold new_Migration. cbn [offset migrated].
  change (take n (drop 0 (scanned (db w)))) with (findAll_valid (db w) n 0).
  rewrite findAll_valid_length, Nat.sub_0_r, Nat.add_0_l.
  destruct (for_pairs (findAll_valid (db w) n 0) (out w)) as [[|e] out'];
    cbn [fst snd offset]; [|reflexivity].
  replace (Nat.min n (count_valid (db w)) <? S L)%nat with false
    by (symmetry; apply Nat.ltb_ge; lia).
  reflexivity.
Qed.

Lemma run_limit_within_first_batch_witness :
  run 2 (parseCommandLineArguments (mkArgv false false (Some "1") None))
      ExtraFixtures.two_pair_world
  = (Some (for_pairs (findAll_valid (db ExtraFixtures.two_pair_world) 10 0)
                     (out ExtraFixtures.two_pair_world)).1,
     mkMigration (Nat.min 10 (count_valid (db ExtraFixtures.two_pair_world))) 0,
     mkWorld (db ExtraFixtures.two_pair_world)
       (for_pairs (findAll_valid (db ExtraFixtures.two_pair_world) 10 0)
                  (out ExtraFixtures.two_pair_world)).2).
Proof.
  apply (run_limit_within_first_batch
           (parseCommandLineArguments (mkArgv false false (Some "1") None))
           ExtraFixtures.two_pair_world 0 10 0).
  - reflexivity.
  - reflexivity.
  - discriminate.
  - reflexivity.
  - lia.
  - vm_compute. lia.
Defined.

(** ** The order of the scan *)

Lemma leb_spec (a b : string) :
  String.leb a b = true <-> a = b \/ OrderedTypeEx.String_as_OT.lt a b.
Proof.
  unfold String.leb.
  pose proof (OrderedTypeEx.String_as_OT.cmp_eq a b) as He.
  pose proof (OrderedTypeEx.String_as_OT.cmp_lt a b) as Hl.
  unfold OrderedTypeEx.String_as_OT.cmp in He, Hl.
  destruct (String.compare a b) eqn:E.
  - split; [intros _; left; apply He; reflexivity|reflexivity].
  - split; [intros _; right; apply Hl; reflexivity|reflexivity].
  - split; [discriminate|].
    intros [H | H]; [apply He in H; discriminate|apply Hl in H; discriminate].
Qed.

Lemma leb_trans (a b c : string) :
  String.leb a b = true -> String.leb b c = true -> String.leb a c = true.
Proof.
  rewrite !leb_spec. intros [-> | H1] [-> | H2]; auto.
  right. exact (OrderedTypeEx.String_as_OT.lt_trans _ _ _ H1 H2).
Qed.

Lemma insert_by_group_Forall (P : Transaction -> Prop) (t : Transaction)
      (l : list Transaction) :
  P t -> Forall P l -> Forall P (insert_by_group t l).
Proof.
  intros Ht Hl. induction Hl as [|x l Hx Hl IH]; cbn [insert_by_group].
  - constructor; [exact Ht|constructor].
  - destruct (String.leb _ _); repeat constructor; assumption.
Qed.

Lemma order_by_group_Forall (P : Transaction -> Prop) (l : list Transaction) :
  Forall P l -> Forall P (order_by_group l).
Proof.
  induction 1 as [|x l Hx Hl IH]; [constructor|].
  cbn [order_by_group foldr]. apply insert_by_group_Forall; assumption.
Qed.

Lemma insert_by_group_sorted (t : Transaction) (l : list Transaction) :
  Sorted.StronglySorted le_group l -> Sorted.StronglySorted le_group (insert_by_group t l).
Proof.
  induction 1 as [|x l Hl IH Hx]; cbn [insert_by_group].
  - repeat constructor.
  - destruct (String.leb (TransactionGroup t) (TransactionGroup x)) eqn:E.
    + constructor; [constructor; assumption|].
      constructor; [exact E|].
      eapply Forall_impl; [exact Hx|].
      intros y Hy. exact (leb_trans _ _ _ E Hy).
    + constructor; [exact IH|].
      apply insert_by_group_Forall; [|exact Hx].
      destruct (String.leb_total (TransactionGroup t) (TransactionGroup x))
        as [H | H]; [congruence|exact H].
Qed.

Lemma order_by_group_sorted (l : list Transaction) :
  Sorted.StronglySorted le_group (order_by_group l).
Proof.
  induction l as [|x l IH]; [constructor|].
  cbn [order_by_group foldr]. apply insert_by_group_sorted. exact IH.
Qed.

Lemma group_size_cons (g : string) (t : Transaction) (l : list Transaction) :
  group_size g (t :: l)
  = ((if String.eqb (TransactionGroup t) g then 1 else 0) + group_size g l)%nat.
Proof.
  unfold group_size. cbn [List.filter].
  destruct (String.eqb (TransactionGroup t) g); reflexivity.
Qed.

Lemma group_size_insert (g : string) (t : Transaction) (l : list Transaction) :
  group_size g (insert_by_group t l) = group_size g (t :: l).
Proof.
  induction l as [|x l IH]; [reflexivity|]. cbn [insert_by_group].
  destruct (String.leb _ _); [reflexivity|].
  rewrite group_size_cons, IH, !group_size_cons. lia.
Qed.

Lemma group_size_order (g : string) (l : list Transaction) :
  group_size g (order_by_group l) = group_size g l.
Proof.
  induction l as [|x l IH]; [reflexivity|].
  cbn [order_by_group foldr]. rewrite group_size_insert, !group_size_cons.
  f_equal. exact IH.
Qed.

Lemma group_size_positive (g : string) (l : list Transaction) :
  (0 < group_size g l)%nat ->
  exists t, In t l /\ TransactionGroup t = g.
Proof.
  induction l as [|x l IH]; [cbn; lia|].
  rewrite group_size_cons.
  destruct (String.eqb (TransactionGroup x) g) eqn:E.
  - intros _. exists x. split; [left; reflexivity|].
    apply String.eqb_eq. exact E.
  - intros H. destruct (IH H) as (t & Hin & Hg).
    exists t. split; [right; exact Hin|exact Hg].
Qed.

Lemma paired_group_sizes (l : list Transaction) (g : string) :
  paired l -> Nat.even (group_size g l) = true.
Proof.
  induction 1 as [|t1 t2 l Hg Hl IH]; [reflexivity|].
  rewrite !group_size_cons, <- Hg.
  destruct (String.eqb (TransactionGroup t1) g); exact IH.
Qed.

Lemma sorted_even_groups_paired (n : nat) (l : list Transaction) :
  (length l <= n)%nat ->
  Sorted.StronglySorted le_group l ->
  (forall g, Nat.even (group_size g l) = true) ->
  paired l.
Proof.
  revert l. induction n as [|n IH]; intros l Hn Hs He.
  - destruct l; [constructor|cbn in Hn; lia].
  - destruct l as [|t1 [|t2 l]]; [constructor| |].
    + specialize (He (TransactionGroup t1)).
      rewrite group_size_cons, String.eqb_refl in He. discriminate He.
    + apply Sorted.StronglySorted_inv in Hs as [Hs H1].
      apply Sorted.StronglySorted_inv in Hs as [Hs H2].
      assert (Hg : TransactionGroup t1 = TransactionGroup t2).
      { destruct (String.eqb (TransactionGroup t2) (TransactionGroup t1)) eqn:E;
          [symmetry; apply String.eqb_eq; exact E|].
        pose proof (He (TransactionGroup t1)) as He1.
        rewrite !group_size_cons, String.eqb_refl, E in He1.
        destruct (group_size (TransactionGroup t1) l) as [|k] eqn:Ek;
          [discriminate He1|].
        destruct (group_size_positive (TransactionGroup t1) l) as (x & Hin & Hx);
          [lia|].
        apply Forall_cons in H1 as [H12 _].
        pose proof (proj1 (List.Forall_forall _ _) H2 x Hin) as H2x.
        clear H2. rename H2x into H2. unfold le_group in H12, H2. rewrite Hx in H2.
        apply String.leb_antisym; assumption. }
      constructor; [exact Hg|].
      apply IH; [cbn in Hn; lia|exact Hs|].
      intros g. specialize (He g).
      rewrite !group_size_cons, <- Hg in He.
      destruct (String.eqb (TransactionGroup t1) g); exact He.
Qed.

(** X12: the scan pairs up exactly on the tables every group of which has
    an even number of valid rows: sorting by group puts the rows of a group
    next to each other, so that rows 2i and 2i+1 share a group, for every
    i, if and only if no group has an odd number of rows that are not
    deleted. *)
Theorem scan_pairs_up_iff_groups_are_even (d : table) :
  paired (scanned d) <->
  forall g, Nat.even (group_size g (List.filter not_deleted d)) = true.
Proof.
  unfold scanned. split.
  - intros Hp g. rewrite <- group_size_order. apply paired_group_sizes. exact Hp.
  - intros He.
    apply (sorted_even_groups_paired
             (length (order_by_group (List.filter not_deleted d))));
      [lia|apply order_by_group_sorted|].
    intros g. rewrite group_size_order. apply He.
Qed.

(** X13: on a table every group of which has an even number of valid rows,
    the run without a limit and with a positive even batch size completes:
    it resolves with the cursor on the number of valid rows, having gone
    through all of them pair by pair, and the table is as it was. *)
Theorem run_completes_on_even_groups (o : options) (w : world) (k : nat) :
  (forall g, Nat.even (group_size g (List.filter not_deleted (db w))) = true) ->
  truthy (limit o) = false ->
  Number (batchSize o) = Some (2 * S k)%nat ->
  run (S (count_valid (db w))) o w
  = (Some Resolved,
     mkMigration (count_valid (db w)) 0,
     mkWorld (db w) (one_pass w).2).
Proof.
  intros He Hl Hb.
  assert (Hp : paired (scanned (db w))).
  { unfold scanned.
    apply (sorted_even_groups_paired
             (length (order_by_group (List.filter not_deleted (db w)))));
      [lia|apply order_by_group_sorted|].
    intros g. rewrite group_size_order. apply He. }
  assert (Hres : (one_pass w).1 = Resolved)
    by (apply for_pairs_paired; exact Hp).
  unfold run, js_or, countValidTransactions. rewrite Hl.
  destruct w as [d c]. cbn [db out] in *.
  destruct (run_loop_even o k d Hb (S (count_valid d)) new_Migration c)
    as (H1 & H2 & H3).
  { rewrite <- count_valid_scanned. cbn [new_Migration offset]. lia. }
  unfold new_Migration in *. cbn [offset migrated] in H1, H2, H3.
  rewrite drop_0 in H1, H2, H3. rewrite <- count_valid_scanned in H3.
  unfold one_pass in Hres. cbn [db out] in Hres.
  specialize (H3 Hres). rewrite Hres in H1.
  destruct (run_loop _ _ _ _ _) as [[r m] w'].
  cbn [fst snd] in H1, H2, H3. subst. reflexivity.
Qed.

Lemma run_completes_on_even_groups_witness :
  run (S (count_valid (db ExtraFixtures.two_pair_world)))
      (parseCommandLineArguments Fixtures.no_flags) ExtraFixtures.two_pair_world
  = (Some Resolved,
     mkMigration (count_valid (db ExtraFixtures.two_pair_world)) 0,
     mkWorld (db ExtraFixtures.two_pair_world)
             (one_pass ExtraFixtures.two_pair_world).2).
Proof.
  apply (run_completes_on_even_groups
           (parseCommandLineArguments Fixtures.no_flags)
           ExtraFixtures.two_pair_world 4).
  - intros g.
    change (List.filter not_deleted (db ExtraFixtures.two_pair_world))
      with ExtraFixtures.two_pair_table.
    unfold ExtraFixtures.two_pair_table. rewrite !group_size_cons.
    change (TransactionGroup Fixtures.expense_credit) with "a2e0".
    change (TransactionGroup Fixtures.expense_debit) with "a2e0".
    change (TransactionGroup Fixtures.example_credit) with "6f1c".
    change (TransactionGroup Fixtures.example_debit) with "6f1c".
    destruct (String.eqb "a2e0" g), (String.eqb "6f1c" g); reflexivity.
  - reflexivity.
  - reflexivity.
Defined.

(** ** Where the run stops *)

(** X14: with a positive even batch size and no limit, the first pair of
    the scan whose rows are of different groups, wherever it lies in the
    table, stops the run with the error of the sanity check, which names
    the first row of that pair; the pairs before it have been migrated,
    none after it, and the table is as it was. *)
Theorem run_stops_at_first_mismatched_pair
        (o : options) (w : world) (k : nat)
        (l rest : list Transaction) (t1 t2 : Transaction) :
  truthy (limit o) = false ->
  Number (batchSize o) = Some (2 * S k)%nat ->
  scanned (db w) = l ++ t1 :: t2 :: rest ->
  paired l ->
  TransactionGroup t1 <> TransactionGroup t2 ->
  (run (S (count_valid (db w))) o w).1.1
  = Some (Rejected (Error ("Cannot find pair for the transaction id "
                           ++ pretty.pretty (id t1)))) /\
  (run (S (count_valid (db w))) o w).2
  = mkWorld (db w) (for_pairs l (out w)).2.
Proof.
  intros Hl Hb Hscan Hp Hg.
  unfold run, js_or, countValidTransactions. rewrite Hl.
  destruct w as [d c]. cbn [db out] in *.
  destruct (run_loop_even o k d Hb (S (count_valid d)) new_Migration c)
    as (H1 & H2 & _).
  { rewrite <- count_valid_scanned. cbn [new_Migration offset]. lia. }
  unfold new_Migration in *. cbn [offset migrated] in H1, H2.
  rewrite drop_0, Hscan, (for_pairs_first_mismatch l t1 t2 rest c Hp Hg)
    in H1, H2.
  split; [exact H1|exact H2].
Qed.

Lemma run_stops_at_first_mismatched_pair_witness :
  (run (S (count_valid (db ExtraFixtures.mismatch_world)))
       (parseCommandLineArguments Fixtures.no_flags)
       ExtraFixtures.mismatch_world).1.1
  = Some (Rejected (Error ("Cannot find pair for the transaction id "
                           ++ pretty.pretty (id Fixtures.expense_credit)))) /\
  (run (S (count_valid (db ExtraFixtures.mismatch_world)))
       (parseCommandLineArguments Fixtures.no_flags)
       ExtraFixtures.mismatch_world).2
  = mkWorld (db ExtraFixtures.mismatch_world)
      (for_pairs [Fixtures.example_credit; Fixtures.example_debit]
                 (out ExtraFixtures.mismatch_world)).2.
Proof.
  apply (run_stops_at_first_mismatched_pair
           (parseCommandLineArguments Fixtures.no_flags)
           ExtraFixtures.mismatch_world 4
           [Fixtures.example_credit; Fixtures.example_debit]
           [] Fixtures.expense_credit ExtraFixtures.stray_row).
  - reflexivity.
  - reflexivity.
  - vm_compute. reflexivity.
  - repeat constructor.
  - discriminate.
Defined.

(** The loop of [run] under a count above the number of valid rows, on
    rows that pair up from the cursor on. *)
Lemma run_loop_beyond (o : options) (k L : nat) (count : arg) (d : table) :
  Number (batchSize o) = Some (2 * S k)%nat ->
  Number count = Some L ->
  (length (scanned d) < L)%nat ->
  forall (fuel : nat) (m : migration) (c : console),
    paired (drop (offset m) (scanned d)) ->
    (offset m <= length (scanned d))%nat ->
    (run_loop fuel o count m (mkWorld d c)).1.1 = None /\
    (offset (run_loop fuel o count m (mkWorld d c)).1.2
     <= length (scanned d))%nat /\
    ((length (scanned d) - offset m <= fuel)%nat ->
     offset (run_loop fuel o count m (mkWorld d c)).1.2 = length (scanned d)).
Proof.
  intros Hb HL Hlt.
  assert (Hnn : batchSize o <> ANull).
  { intros E. rewrite E in Hb. cbn in Hb. injection Hb as Hb. lia. }
  induction fuel as [|fuel IH]; intros m c Hp Hm.
  - cbn [run_loop fst snd]. split; [reflexivity|]. split; [exact Hm|]. lia.
  - cbn [run_loop]. unfold offset_below. rewrite HL.
    replace (offset m <? L)%nat with true
      by (symmetry; apply Nat.ltb_lt; lia).
    rewrite (retrieveValidTransactions_batch o (2 * S k) m (mkWorld d c) Hnn Hb).
    cbn [out db].
    set (rest := drop (offset m) (scanned d)) in *.
    assert (Hrest : length rest = (length (scanned d) - offset m)%nat)
      by (unfold rest; apply length_drop).
    destruct (paired_take_drop (S k) rest Hp) as [Ht Hd].
    pose proof (for_pairs_paired (take (2 * S k) rest) c Ht) as Hres.
    destruct (for_pairs (take (2 * S k) rest) c) as [res out'].
    cbn [fst] in Hres. subst res.
    assert (Hlen : (length (take (2 * S k) rest) <= length rest)%nat)
      by (rewrite length_take; lia).
    assert (Hpos : (offset m < length (scanned d) ->
                    0 < length (take (2 * S k) rest))%nat)
      by (rewrite length_take; lia).
    assert (Hdrop : drop (offset m + length (take (2 * S k) rest)) (scanned d)
                    = drop (2 * S k) rest).
    { unfold rest. rewrite drop_drop.
      destruct (Nat.le_gt_cases (2 * S k) (length (drop (offset m) (scanned d))))
        as [Hle | Hgt].
      - rewrite length_take, Nat.min_l by exact Hle. reflexivity.
      - rewrite length_drop in Hgt.
        rewrite length_take, length_drop, Nat.min_r by lia.
        rewrite (drop_ge (scanned d)
                   (offset m + (length (scanned d) - offset m))) by lia.
        rewrite (drop_ge (scanned d) (offset m + 2 * S k)) by lia.
        reflexivity. }
    destruct (IH (mkMigration (offset m + length (take (2 * S k) rest))
                              (migrated m)) out') as (H1 & H2 & H3).
    { cbn [offset]. rewrite Hdrop. exact Hd. }
    { cbn [offset]. lia. }
    cbn [offset] in H3.
    split; [exact H1|]. split; [exact H2|].
    intros Hf. apply H3. lia.
Qed.

(** X15: a limit above the number of valid rows keeps the run from ever
    settling on a healthy table.  With a positive even batch size, on a
    table whose valid rows pair up in scan order, the loop is still running
    after any number of iterations; the cursor never passes the number of
    valid rows, and has reached it once the iterations are as many as the
    rows. *)
Theorem run_limit_beyond_healthy_table_never_settles
        (o : options) (w : world) (L k fuel : nat) :
  truthy (limit o) = true ->
  Number (limit o) = Some L ->
  (count_valid (db w) < L)%nat ->
  Number (batchSize o) = Some (2 * S k)%nat ->
  paired (scanned (db w)) ->
  (run fuel o w).1.1 = None /\
  (offset (run fuel o w).1.2 <= count_valid (db w))%nat /\
  ((count_valid (db w) <= fuel)%nat ->
   offset (run fuel o w).1.2 = count_valid (db w)).
Proof.
  intros Ht HL Hlt Hb Hp. unfold run, js_or. rewrite Ht.
  destruct w as [d c]. cbn [db] in *.
  rewrite count_valid_scanned in *.
  destruct (run_loop_beyond o k L (limit o) d Hb HL Hlt fuel new_Migration c)
    as (H1 & H2 & H3).
  - cbn [new_Migration offset]. rewrite drop_0. exact Hp.
  - cbn [new_Migration offset]. lia.
  - split; [exact H1|]. split; [exact H2|].
    intros Hf. apply H3. cbn [new_Migration offset]. lia.
Qed.

Lemma run_limit_beyond_healthy_table_never_settles_witness :
  (run 1000 (parseCommandLineArguments (mkArgv false false (Some "5") None))
       ExtraFixtures.two_pair_world).1.1 = None /\
  (offset (run 1000 (parseCommandLineArguments
                       (mkArgv false false (Some "5") None))
               ExtraFixtures.two_pair_world).1.2
   <= count_valid (db ExtraFixtures.two_pair_world))%nat /\
  ((count_valid (db ExtraFixtures.two_pair_world) <= 1000)%nat ->
   offset (run 1000 (parseCommandLineArguments
                       (mkArgv false false (Some "5") None))
               ExtraFixtures.two_pair_world).1.2
   = count_valid (db ExtraFixtures.two_pair_world)).
Proof.
  apply (run_limit_beyond_healthy_table_never_settles
           (parseCommandLineArguments (mkArgv false false (Some "5") None))
           ExtraFixtures.two_pair_world 5 4 1000).
  - reflexivity.
  - reflexivity.
  - vm_compute. lia.
  - reflexivity.
  - repeat constructor.
Defined.

(** ** What a batch holds *)

Lemma StronglySorted_drop (n : nat) (l : list Transaction) :
  Sorted.StronglySorted le_group l ->
  Sorted.StronglySorted le_group (drop n l).
Proof.
  revert l. induction n as [|n IH]; intros l Hl; [exact Hl|].
  destruct l as [|x l]; [constructor|].
  apply Sorted.StronglySorted_inv in Hl as [Hl _]. apply IH. exact Hl.
Qed.

Lemma StronglySorted_take (n : nat) (l : list Transaction) :
  Sorted.StronglySorted le_group l ->
  Sorted.StronglySorted le_group (take n l).
Proof.
  revert l. induction n as [|n IH]; intros l Hl; [constructor|].
  destruct l as [|x l]; [constructor|].
  apply Sorted.StronglySorted_inv in Hl as [Hl Hx]. cbn [take].
  constructor; [apply IH; exact Hl|apply Forall_take; exact Hx].
Qed.

Lemma scanned_valid_rows (d : table) :
  Forall (fun t => In t d /\ deletedAt t = None) (scanned d).
Proof.
  unfold scanned. apply order_by_group_Forall.
  apply List.Forall_forall. intros t Ht.
  apply List.filter_In in Ht as [Hin Hv]. split; [exact Hin|].
  unfold not_deleted in Hv. destruct (deletedAt t); [discriminate|reflexivity].
Qed.

(** X16: a batch that [retrieveValidTransactions] hands back holds rows of
    the table only, none of them deleted, in the order of their groups; the
    cursor moves by the number of rows handed back, and that number is the
    batch size, or what is left of the valid rows after the cursor when
    that is less. *)
Theorem retrieveValidTransactions_returns_valid_rows
        (o : options) (m m' : migration) (w : world)
        (transactions : list Transaction) :
  retrieveValidTransactions o m w = inr (transactions, m') ->
  Forall (fun t => In t (db w) /\ deletedAt t = None) transactions /\
  Sorted.StronglySorted le_group transactions /\
  offset m' = (offset m + length transactions)%nat /\
  migrated m' = migrated m /\
  (forall n, batchSize o <> ANull -> Number (batchSize o) = Some n ->
     length transactions = Nat.min n (count_valid (db w) - offset m)).
Proof.
  intros H.
  pose proof (scanned_valid_rows (db w)) as Hv.
  pose proof (order_by_group_sorted (List.filter not_deleted (db w))) as Hs.
  fold (scanned (db w)) in Hs.
  unfold retrieveValidTransactions, findAll_valid in H.
  fold (scanned (db w)) in H.
  destruct (batchSize o) as [|n0|s] eqn:E; cbn [Number] in H |- *.
  - injection H as <- <-. cbn [offset migrated].
    split; [apply Forall_drop; exact Hv|].
    split; [apply StronglySorted_drop; exact Hs|].
    split; [reflexivity|]. split; [reflexivity|].
    intros n Hnn. contradiction.
  - injection H as <- <-. cbn [offset migrated].
    split; [apply Forall_take, Forall_drop; exact Hv|].
    split; [apply StronglySorted_take, StronglySorted_drop; exact Hs|].
    split; [reflexivity|]. split; [reflexivity|].
    intros n _ [= <-].
    rewrite length_take, length_drop, count_valid_scanned. reflexivity.
  - destruct (digits_value s 0) as [n1|]; [|discriminate H].
    injection H as <- <-. cbn [offset migrated].
    split; [apply Forall_take, Forall_drop; exact Hv|].
    split; [apply StronglySorted_take, StronglySorted_drop; exact Hs|].
    split; [reflexivity|]. split; [reflexivity|].
    intros n _ [= <-].
    rewrite length_take, length_drop, count_valid_scanned. reflexivity.
Qed.

Lemma retrieveValidTransactions_returns_valid_rows_witness :
  Forall (fun t => In t (db ExtraFixtures.two_pair_world) /\ deletedAt t = None)
         [Fixtures.example_debit; Fixtures.expense_credit] /\
  Sorted.StronglySorted le_group [Fixtures.example_debit; Fixtures.expense_credit] /\
  offset (mkMigration 3 0) = (offset (mkMigration 1 0) + 2)%nat /\
  migrated (mkMigration 3 0) = migrated (mkMigration 1 0) /\
  (forall n, batchSize (ExtraFixtures.batch_of 2) <> ANull ->
     Number (batchSize (ExtraFixtures.batch_of 2)) = Some n ->
     2%nat = Nat.min n (count_valid (db ExtraFixtures.two_pair_world)
                        - offset (mkMigration 1 0))).
Proof.
  apply (retrieveValidTransactions_returns_valid_rows
           (ExtraFixtures.batch_of 2) (mkMigration 1 0) (mkMigration 3 0)
           ExtraFixtures.two_pair_world
           [Fixtures.example_debit; Fixtures.expense_credit]).
  vm_compute. reflexivity.
Defined.

(* ===================================================================== *)
(** * Properties of the entry point *)
(* ===================================================================== *)

Import Script.

Lemma run_loop_reads_only (fuel : nat) (o : options) (count : arg)
      (m : migration) (w : world) :
  db (run_loop fuel o count m w).2 = db w.
Proof.
  revert m w. induction fuel as [|fuel IH]; intros m w; [reflexivity|].
  cbn [run_loop].
  destruct (offset_below m count); [|reflexivity].
  destruct (retrieveValidTransactions o m w) as [e | [transactions m']];
    [reflexivity|].
  destruct (for_pairs transactions (out w)) as [[|e] out'].
  - rewrite IH. reflexivity.
  - reflexivity.
Qed.



(* ===================================================================== *)
(** * Further properties of the trial end date *)
(* ===================================================================== *)

Import JsDate.

Lemma yoe_of_doe_bounds (doe : Z) :
  0 <= doe < 146097 ->
  0 <= yoe_of_doe doe <= 399 /\
  doe_of (yoe_of_doe doe) 0 <= doe /\
  (doe < doe_of (yoe_of_doe doe + 1) 0 \/ yoe_of_doe doe = 399).
Proof.
  intros H. unfold yoe_of_doe, doe_of.
  repeat split; Z.div_mod_to_equations; lia.
Qed.

Lemma mp_of_doy_bounds (doy : Z) :
  0 <= doy <= 365 ->
  0 <= mp_of_doy doy <= 11 /\
  doy_of_month (mp_of_doy doy) <= doy /\
  doy < doy_of_month (mp_of_doy doy + 1).
Proof.
  intros H. unfold mp_of_doy, doy_of_month.
  repeat split; Z.div_mod_to_equations; lia.
Qed.

(** From any day, the first day of the following month is 1 to 31 days
    ahead, and the first day of the same month of the following year 335
    to 366 days ahead. *)
Lemma first_of_later_month (z : Z) :
  z < MakeDay (civil_from_days z).1.1 ((civil_from_days z).1.2 - 1 + 1) 1
    <= z + 31 /\
  z + 335 <= MakeDay (civil_from_days z).1.1 ((civil_from_days z).1.2 - 1 + 12) 1
    <= z + 366.
Proof.
  unfold civil_from_days, civil_of_era. cbv zeta. cbn [fst snd].
  set (era := (z + 719468) / 146097).
  assert (Hdoe : 0 <= z + 719468 - era * 146097 < 146097)
    by (unfold era; Z.div_mod_to_equations; lia).
  set (doe := z + 719468 - era * 146097) in *.
  assert (Hz : z = doe + era * 146097 - 719468) by (unfold doe; lia).
  clearbody doe.
  destruct (yoe_of_doe_bounds doe Hdoe) as (Hy & Hlo & Hup).
  set (yoe := yoe_of_doe doe) in *. clearbody yoe.
  assert (Hdoy : 0 <= doe - doe_of yoe 0 <= 365).
  { unfold doe_of in *. Z.div_mod_to_equations. lia. }
  set (doy := doe - doe_of yoe 0) in *.
  assert (Hd : doe = doe_of yoe 0 + doy) by (unfold doy; lia).
  clearbody doy.
  destruct (mp_of_doy_bounds doy Hdoy) as (Hmp & Hmlo & Hmup).
  set (mp := mp_of_doy doy) in *. clearbody mp. clearbody era.
  unfold MakeDay, days_from_civil. cbv zeta.
  assert (Hcase : mp = 0 \/ mp = 1 \/ mp = 2 \/ mp = 3 \/ mp = 4 \/ mp = 5 \/
                  mp = 6 \/ mp = 7 \/ mp = 8 \/ mp = 9 \/ mp = 10 \/ mp = 11)
    by lia.
  repeat (destruct Hcase as [-> | Hcase]); try subst mp.
  all: repeat match goal with
       | |- context [if ?c then _ else _] =>
           let b := eval vm_compute in c in change c with b; cbv iota
       end.
  all: unfold doe_of, doy_of_month in *.
  all: repeat match goal with
       | |- context [Z.div ?a 12] =>
           let v := eval vm_compute in (Z.div a 12) in
           change (Z.div a 12) with v
       | |- context [Z.modulo ?a 12] =>
           let v := eval vm_compute in (Z.modulo a 12) in
           change (Z.modulo a 12) with v
       end.
  all: Z.div_mod_to_equations; lia.
Qed.

Lemma trial_end_in_fixed_zone (c t k : Z) :
  setMonth (fixed_zone c) (setDate (fixed_zone c) t 1)
           (getMonth (fixed_zone c) (setDate (fixed_zone c) t 1) + k) / 1000
  = t / 1000
    + (MakeDay (civil_from_days (Day (t + c))).1.1
               ((civil_from_days (Day (t + c))).1.2 - 1 + k) 1
       - Day (t + c)) * 86400.
Proof.
  rewrite setMonth_after_setDate
    by (unfold LocalTime, UTC, fixed_zone; lia).
  unfold LocalTime, UTC, fixed_zone, YearFromTime, MonthFromTime.
  set (N := MakeDay _ _ _). clearbody N.
  unfold MakeDate, TimeWithinDay, Day, msPerDay.
  Z.div_mod_to_equations. lia.
Qed.

(** X18: in a time zone whose offset never changes, the trial never ends
    in the past and never late: for the interval month it ends a whole
    number of days, at least 1 and at most 31, after the second of the
    creation date, and for the interval year at least 335 and at most 366
    days after it. *)
Theorem trial_end_days_ahead (c t : Z) :
  (exists k, 1 <= k <= 31 /\
     getSubscriptionTrialEndDate (fixed_zone c) t "month"
     = Some (t / 1000 + k * 86400)) /\
  (exists k, 335 <= k <= 366 /\
     getSubscriptionTrialEndDate (fixed_zone c) t "year"
     = Some (t / 1000 + k * 86400)).
Proof.
  destruct (first_of_later_month (Day (t + c))) as [Hmonth Hyear].
  unfold getSubscriptionTrialEndDate, new_Date, getTime.
  cbn [String.eqb Ascii.eqb Bool.eqb].
  rewrite !trial_end_in_fixed_zone.
  split; eexists; (split; [|reflexivity]); lia.
Qed.

(* ===================================================================== *)
(** * Further properties of the order processor *)
(* ===================================================================== *)

Import OrderProcessor.

Section OrderProcessing.

Variable stripe : Stripe.Gateway.
Variable models : Models.Persistence.
Variable LocalTZA : Z -> bool -> Z.
Variable OC_FEE_PERCENT : Z.
Variable DONATION BACKER SUBSCRIPTION_CONFIRMED website : string.

(** ** Settlements of [processOrder] *)

(** X19: when the collective has no host account, so that
    [getHostStripeAccount] rejects, [processOrder] rejects with the same
    error before anything else happens: the gateway receives no call and
    nothing is written. *)
Theorem processOrder_without_host_account (w : world) (e : exn) :
  hostStripeAccount (toCollective (order w)) = inl e ->
  processOrder stripe models LocalTZA OC_FEE_PERCENT DONATION BACKER
               SUBSCRIPTION_CONFIRMED website w
  = (inl e, w).
Proof.
  intros H. unfold processOrder, and_then, get, settle. rewrite H.
  reflexivity.
Qed.

(** X20: when [processOrder] resolves, it resolves to the transaction it
    has appended to the table, which carries the id and the amount of the
    order; the order is marked as processed and the payment method as
    confirmed, both at the time of the clock; and the user holds the backer
    role on the collective. *)
Theorem processOrder_resolved (w w' : world) (t : transaction_payload) :
  processOrder stripe models LocalTZA OC_FEE_PERCENT DONATION BACKER
               SUBSCRIPTION_CONFIRMED website w
  = (inr t, w') ->
  Transactions w' = Transactions w ++ [t] /\
  p_OrderId t = order_id (order w) /\
  p_amount t = totalAmount (order w) /\
  processedAt (order w') = Some (now w) /\
  confirmedAt (paymentMethod w') = Some (now w) /\
  exists m,
    In m (Members w') /\
    grants BACKER (createdByUser (order w)) (toCollective (order w)) m.
Proof.
  unfold_chain. destruct w as [o pm s txs acts mems cs errs clock]. cbn.
  follow_chain.
  all: try discriminate.
  all: intros [= <- <-]; cbn.
  all: repeat (split; [reflexivity|]).
  all: try (match goal with
            | H : existsb _ _ = true |- _ =>
                apply existsb_exists in H as (m & Hin & Hm);
                exists m; split; [exact Hin|];
                apply andb_prop in Hm as [Hm Hr];
                apply andb_prop in Hm as [Hu Hc];
                repeat split;
                [apply Z.eqb_eq; exact Hu | apply Z.eqb_eq; exact Hc
                 | apply String.eqb_eq; exact Hr]
            end).
  all: eexists; split;
    [apply in_or_app; right; left; reflexivity|repeat split].
Qed.


(** X22: an order without a subscription never reaches the subscription
    steps: whatever the gateway and the models answer, no plan and no
    subscription is asked of the gateway, no activity is recorded and no
    subscription appears; and when the gateway answers a call of such an
    order with an error, the order is rejected, no transaction and no
    member has been written and the order is as it was. *)
Theorem processOrder_one_time_order
        (w w' : world) (r : exn + transaction_payload) :
  subscription w = None ->
  processOrder stripe models LocalTZA OC_FEE_PERCENT DONATION BACKER
               SUBSCRIPTION_CONFIRMED website w
  = (r, w') ->
  subscription w' = None /\
  Activities w' = Activities w /\
  (exists cs, calls w' = calls w ++ cs /\
              ~ In CallGetOrCreatePlan cs /\
              ~ In CallCreateSubscription cs) /\
  (errors w' <> errors w ->
     (exists e, r = inl e) /\
     Transactions w' = Transactions w /\ Members w' = Members w /\
     order w' = order w).
Proof.
  intros Hsub. revert Hsub.
  unfold_chain. destruct w as [o pm s txs acts mems cs errs clock]. cbn.
  intros ->. follow_chain.
  all: intros [= <- <-]; cbn.
  all: split; [reflexivity|]; split; [reflexivity|].
  all: split;
    [eexists; split;
     [rewrite <- ?app_assoc;
      first [reflexivity | symmetry; apply app_nil_r]
     |cbn; intuition discriminate]|].
  all: intros Herr; try (exfalso; apply Herr; reflexivity).
  all: split; [eexists; reflexivity|].
  all: repeat split; reflexivity.
Qed.

(** X23: when [processOrder] rejects, at whatever step, the payment method
    is not marked as confirmed and at most one transaction has been
    written; when none has been written, the order, the members, the
    activities and the subscription are as they were; when the rejection
    is an error that the gateway has answered with, the order is not
    marked as processed and no member has been added, and a transaction
    has been written only for an order with a subscription, whose steps
    come after the charge; and when the order has been marked as processed
    all the same (the step after it has failed), its transaction has been
    written and the user holds the backer role on the collective. *)
Theorem processOrder_rejected (w w' : world) (e : exn) :
  processOrder stripe models LocalTZA OC_FEE_PERCENT DONATION BACKER
               SUBSCRIPTION_CONFIRMED website w
  = (inl e, w') ->
  confirmedAt (paymentMethod w') = confirmedAt (paymentMethod w) /\
  (Transactions w' = Transactions w \/
   exists t, Transactions w' = Transactions w ++ [t]) /\
  (Transactions w' = Transactions w ->
   order w' = order w /\ Members w' = Members w /\
   Activities w' = Activities w /\ subscription w' = subscription w) /\
  (errors w' <> errors w ->
   processedAt (order w') = processedAt (order w) /\
   Members w' = Members w /\
   (Transactions w' = Transactions w \/ subscription w <> None)) /\
  (processedAt (order w') <> processedAt (order w) ->
   (exists t, Transactions w' = Transactions w ++ [t]) /\
   exists m,
     In m (Members w') /\
     grants BACKER (createdByUser (order w)) (toCollective (order w)) m).
Proof.
  unfold_chain. destruct w as [o pm s txs acts mems cs errs clock]. cbn.
  follow_chain.
  all: try discriminate.
  all: intros [= <- <-]; cbn.
  all: split; [reflexivity|].
  all: split; [first [left; reflexivity | right; eexists; reflexivity]|].
  all: split;
    [intros Htx;
     first [repeat split; reflexivity
           | exfalso; apply (f_equal (@length _)) in Htx;
             rewrite length_app in Htx; cbn in Htx; lia]|].
  all: split;
    [intros Herr;
     first [exfalso; apply Herr; reflexivity
           | split; [reflexivity|]; split; [reflexivity|];
             first [left; reflexivity | right; discriminate]]|].
  all: intros Hp; first [exfalso; apply Hp; reflexivity | idtac].
  all: split; [eexists; reflexivity|].
  all: try (match goal with
            | H : existsb _ _ = true |- _ =>
                apply existsb_exists in H as (m & Hin & Hm);
                exists m; split; [exact Hin|];
                apply andb_prop in Hm as [Hm Hr];
                apply andb_prop in Hm as [Hu Hc];
                repeat split;
                [apply Z.eqb_eq; exact Hu | apply Z.eqb_eq; exact Hc
                 | apply String.eqb_eq; exact Hr]
            end).
  all: eexists; split;
    [apply in_or_app; right; left; reflexivity|repeat split].
Qed.

(** X24: a charge may be left without a transaction.  On a gateway that
    fails to show the balance transaction of a charge, once the run has
    come to ask for it, the gateway has accepted a charge of the amount of
    the order, [processOrder] rejects with the error of the gateway, and
    neither a transaction nor anything else about the order has been
    written. *)
Theorem balance_failure_leaves_charge_unrecorded
        (w w' : world) (r : exn + transaction_payload) (e : exn) :
  (forall h a b, Stripe.retrieveBalanceTransaction stripe h a b = inl e) ->
  ~ In CallRetrieveBalanceTransaction (calls w) ->
  processOrder stripe models LocalTZA OC_FEE_PERCENT DONATION BACKER
               SUBSCRIPTION_CONFIRMED website w
  = (r, w') ->
  In CallRetrieveBalanceTransaction (calls w') ->
  r = inl e /\
  (exists h a req c,
     Stripe.createCharge stripe h a req = inr c /\
     cr_amount req = totalAmount (order w)) /\
  Transactions w' = Transactions w /\
  Activities w' = Activities w /\
  Members w' = Members w /\
  order w' = order w /\
  subscription w' = subscription w.
Proof.
  intros Hfail. unfold_chain.
  destruct w as [o pm s txs acts mems cs errs clock]. cbn.
  intros Hnot.
  repeat match goal with
  | |- context [Stripe.retrieveBalanceTransaction stripe ?h ?a ?b] =>
      rewrite (Hfail h a b)
  | |- context [match ?x with inl _ => _ | inr _ => _ end] =>
      destruct x eqn:?; cbn
  | |- context [if ?c then _ else _] => destruct c eqn:?; cbn
  | |- context [match ?x with Some _ => _ | None => _ end] =>
      destruct x eqn:?; cbn
  end.
  all: intros [= <- <-]; cbn.
  all: intros Hin; repeat (rewrite in_app_iff in Hin; cbn in Hin).
  all: try (exfalso; intuition congruence).
  all: split; [reflexivity|].
  all: split; [do 4 eexists; split; [eassumption|reflexivity]|].
  all: repeat split; reflexivity.
Qed.

(** ** The customer of the platform *)

(** X25: a payment method that is a customer of the platform already is
    used as it is: its customer id is the same after [processOrder],
    however the call settles, and the first call that the gateway receives,
    if it receives any, is not the creation of a customer. *)
Theorem processOrder_reuses_platform_customer
        (w w' : world) (r : exn + transaction_payload) :
  truthy_string (customerId (paymentMethod w)) = true ->
  processOrder stripe models LocalTZA OC_FEE_PERCENT DONATION BACKER
               SUBSCRIPTION_CONFIRMED website w
  = (r, w') ->
  customerId (paymentMethod w') = customerId (paymentMethod w) /\
  exists cs, calls w' = calls w ++ cs /\ head cs <> Some CallCreateCustomer.
Proof.
  intros Hc. destruct w as [o pm s txs acts mems cs errs clock].
  destruct pm as [pid tok cid dat conf].
  cbn [paymentMethod customerId] in Hc.
  destruct cid as [c|]; [|discriminate Hc].
  unfold truthy_string in Hc. apply negb_true_iff in Hc.
  unfold_chain. cbn. rewrite ?Hc. cbn. follow_chain.
  all: try congruence.
  all: intros [= <- <-]; cbn.
  all: split; [reflexivity|].
  all: eexists; split;
    [rewrite <- ?app_assoc;
     first [reflexivity | symmetry; apply app_nil_r]
    |cbn; discriminate].
Qed.

(** X26: a payment method that is no customer of the platform yet becomes
    one as soon as the gateway has created the customer: once the
    collective has a host account and the gateway answers the creation
    with a customer, the payment method carries the id of that customer
    after [processOrder], also when a later step fails. *)
Theorem processOrder_keeps_new_platform_customer
        (w w' : world) (r : exn + transaction_payload)
        (a : StripeAccount) (c : Customer) :
  truthy_string (customerId (paymentMethod w)) = false ->
  hostStripeAccount (toCollective (order w)) = inr a ->
  Stripe.createCustomer stripe (calls w) None (token (paymentMethod w))
    (mkProfile (email (createdByUser (order w)))
               (info (fromCollective (order w))))
  = inr c ->
  processOrder stripe models LocalTZA OC_FEE_PERCENT DONATION BACKER
               SUBSCRIPTION_CONFIRMED website w
  = (r, w') ->
  customerId (paymentMethod w') = Some (customer_id c).
Proof.
  intros Hc Ha Hcus. destruct w as [o pm s txs acts mems cs errs clock].
  destruct pm as [pid tok cid dat conf].
  cbn [paymentMethod customerId order calls token] in Hc, Ha, Hcus.
  destruct cid as [c0|];
    [unfold truthy_string in Hc;
     apply negb_false_iff, String.eqb_eq in Hc; subst c0|].
  all: unfold_chain; cbn; rewrite Ha; cbn; follow_chain.
  all: intros [= <- <-]; cbn; congruence.
Qed.

End OrderProcessing.

Section HostCustomer.

Variable stripe : Stripe.Gateway.

(** ** The customer of the host *)

(** X27: the customer made for a host is made once.  When
    [getOrCreateCustomerIdForHost] resolves to a customer id that is not
    empty, the payment method holds that id for the host, the ids it held
    for other hosts are kept, and asking again gives the same id without a
    call to the gateway and without a change. *)
Theorem getOrCreateCustomerIdForHost_caches
        (h : StripeAccount) (w w' : world) (id : string) :
  getOrCreateCustomerIdForHost stripe h w = (inr id, w') ->
  id <> "" ->
  getOrCreateCustomerIdForHost stripe h w' = (inr id, w') /\
  exists m',
    data (paymentMethod w') = Some (Some m') /\
    m' !! username h = Some id /\
    forall m u, data (paymentMethod w) = Some (Some m) ->
                u <> username h -> m' !! u = m !! u.
Proof.
  destruct w as [o pm s txs acts mems cs errs clock].
  destruct pm as [pid tok cid dat conf].
  unfold getOrCreateCustomerIdForHost, paymentMethod_save_data.
  unfold and_then, get, gateway_call, record_call, record_error,
    set_paymentMethod, modify, resolve.
  assert (Hhit : forall (m : gmap string string) (k : string),
            m !! username h = Some k -> k <> "" ->
            truthy_string (m !! username h) = true).
  { intros m k -> Hk. cbn. destruct (String.eqb_spec k ""); [contradiction|].
    reflexivity. }
  destruct dat as [[m|]|]; cbn -[lookup insert empty truthy_string].
  - destruct (truthy_string (m !! username h)) eqn:T.
    + intros [= <- <-] Hid.
      cbn -[lookup insert empty truthy_string].
      rewrite T. split; [reflexivity|].
      exists m. split; [reflexivity|]. split.
      * unfold truthy_string in T.
        destruct (m !! username h); [reflexivity|discriminate T].
      * intros m0 u [= <-] _. reflexivity.
    + destruct (Stripe.createToken _ _ _ _) as [e|tk]; [discriminate|].
      destruct (Stripe.createCustomer _ _ _ _ _) as [e|c]; [discriminate|].
      intros [= <- <-] Hid.
      cbn -[lookup insert empty truthy_string].
      rewrite (Hhit _ (customer_id c)) by (try apply lookup_insert_eq; exact Hid).
      rewrite lookup_insert_eq. split; [reflexivity|].
      eexists. split; [reflexivity|]. split; [apply lookup_insert_eq|].
      intros m0 u [= <-] Hu. apply lookup_insert_ne. congruence.
  - rewrite lookup_empty. cbn -[lookup insert empty].
    destruct (Stripe.createToken _ _ _ _) as [e|tk]; [discriminate|].
    destruct (Stripe.createCustomer _ _ _ _ _) as [e|c]; [discriminate|].
    intros [= <- <-] Hid.
    cbn -[lookup insert empty truthy_string].
    rewrite (Hhit _ (customer_id c)) by (try apply lookup_insert_eq; exact Hid).
    rewrite lookup_insert_eq. split; [reflexivity|].
    eexists. split; [reflexivity|]. split; [apply lookup_insert_eq|].
    intros m0 u [=].
  - rewrite lookup_empty. cbn -[lookup insert empty].
    destruct (Stripe.createToken _ _ _ _) as [e|tk]; [discriminate|].
    destruct (Stripe.createCustomer _ _ _ _ _) as [e|c]; [discriminate|].
    intros [= <- <-] Hid.
    cbn -[lookup insert empty truthy_string].
    rewrite (Hhit _ (customer_id c)) by (try apply lookup_insert_eq; exact Hid).
    rewrite lookup_insert_eq. split; [reflexivity|].
    eexists. split; [reflexivity|]. split; [apply lookup_insert_eq|].
    intros m0 u [=].
Qed.

End HostCustomer.

Section ChargeStep.

Variable stripe : Stripe.Gateway.
Variable models : Models.Persistence.
Variable OC_FEE_PERCENT : Z.
Variable DONATION website : string.

(** ** The transaction of a charge *)


End ChargeStep.

(** ** Examples *)

Lemma processOrder_without_host_account_witness :
  OrderExtraFixtures.process OrderExtraFixtures.accepting_gateway
    OrderExtraFixtures.orphan_world
  = (inl (Error "no host"), OrderExtraFixtures.orphan_world).
Proof.
  unfold OrderExtraFixtures.process, OrderExtraFixtures.process_with.
  apply (processOrder_without_host_account
           OrderExtraFixtures.accepting_gateway OrderFixtures.reliable_models
           JsDate.utc_zone 5 "DONATION"
           "BACKER" "subscription.confirmed" "https://example.org"
           OrderExtraFixtures.orphan_world (Error "no host")).
  reflexivity.
Defined.

Lemma processOrder_resolved_witness :
  Transactions OrderExtraFixtures.accepted_run.2
  = Transactions OrderFixtures.monthly_world
    ++ [OrderExtraFixtures.monthly_payload] /\
  p_OrderId OrderExtraFixtures.monthly_payload
  = order_id (order OrderFixtures.monthly_world) /\
  p_amount OrderExtraFixtures.monthly_payload
  = totalAmount (order OrderFixtures.monthly_world) /\
  processedAt (order OrderExtraFixtures.accepted_run.2)
  = Some (now OrderFixtures.monthly_world) /\
  confirmedAt (paymentMethod OrderExtraFixtures.accepted_run.2)
  = Some (now OrderFixtures.monthly_world) /\
  exists m,
    In m (Members OrderExtraFixtures.accepted_run.2) /\
    grants "BACKER" (createdByUser (order OrderFixtures.monthly_world))
           (toCollective (order OrderFixtures.monthly_world)) m.
Proof.
  apply (processOrder_resolved
           OrderExtraFixtures.accepting_gateway OrderFixtures.reliable_models
           JsDate.utc_zone 5 "DONATION"
           "BACKER" "subscription.confirmed" "https://example.org"
           OrderFixtures.monthly_world OrderExtraFixtures.accepted_run.2
           OrderExtraFixtures.monthly_payload).
  vm_compute. reflexivity.
Defined.


Lemma processOrder_one_time_order_witness :
  subscription OrderExtraFixtures.declined_run.2 = None /\
  Activities OrderExtraFixtures.declined_run.2
  = Activities OrderExtraFixtures.one_time_world /\
  (exists cs,
     calls OrderExtraFixtures.declined_run.2
     = calls OrderExtraFixtures.one_time_world ++ cs /\
     ~ In CallGetOrCreatePlan cs /\ ~ In CallCreateSubscription cs) /\
  (errors OrderExtraFixtures.declined_run.2
   <> errors OrderExtraFixtures.one_time_world ->
   (exists e, OrderExtraFixtures.declined_run.1 = inl e) /\
   Transactions OrderExtraFixtures.declined_run.2
   = Transactions OrderExtraFixtures.one_time_world /\
   Members OrderExtraFixtures.declined_run.2
   = Members OrderExtraFixtures.one_time_world /\
   order OrderExtraFixtures.declined_run.2
   = order OrderExtraFixtures.one_time_world).
Proof.
  apply (processOrder_one_time_order
           OrderExtraFixtures.declining_gateway OrderFixtures.reliable_models
           JsDate.utc_zone 5 "DONATION"
           "BACKER" "subscription.confirmed" "https://example.org"
           OrderExtraFixtures.one_time_world OrderExtraFixtures.declined_run.2
           OrderExtraFixtures.declined_run.1).
  - reflexivity.
  - vm_compute. reflexivity.
Defined.

Lemma processOrder_rejected_witness :
  confirmedAt (paymentMethod OrderExtraFixtures.unconfirmed_run.2)
  = confirmedAt (paymentMethod OrderExtraFixtures.one_time_world) /\
  (Transactions OrderExtraFixtures.unconfirmed_run.2
   = Transactions OrderExtraFixtures.one_time_world \/
   exists t, Transactions OrderExtraFixtures.unconfirmed_run.2
             = Transactions OrderExtraFixtures.one_time_world ++ [t]) /\
  (Transactions OrderExtraFixtures.unconfirmed_run.2
   = Transactions OrderExtraFixtures.one_time_world ->
   order OrderExtraFixtures.unconfirmed_run.2
   = order OrderExtraFixtures.one_time_world /\
   Members OrderExtraFixtures.unconfirmed_run.2
   = Members OrderExtraFixtures.one_time_world /\
   Activities OrderExtraFixtures.unconfirmed_run.2
   = Activities OrderExtraFixtures.one_time_world /\
   subscription OrderExtraFixtures.unconfirmed_run.2
   = subscription OrderExtraFixtures.one_time_world) /\
  (errors OrderExtraFixtures.unconfirmed_run.2
   <> errors OrderExtraFixtures.one_time_world ->
   processedAt (order OrderExtraFixtures.unconfirmed_run.2)
   = processedAt (order OrderExtraFixtures.one_time_world) /\
   Members OrderExtraFixtures.unconfirmed_run.2
   = Members OrderExtraFixtures.one_time_world /\
   (Transactions OrderExtraFixtures.unconfirmed_run.2
    = Transactions OrderExtraFixtures.one_time_world \/
    subscription OrderExtraFixtures.one_time_world <> None)) /\
  (processedAt (order OrderExtraFixtures.unconfirmed_run.2)
   <> processedAt (order OrderExtraFixtures.one_time_world) ->
   (exists t, Transactions OrderExtraFixtures.unconfirmed_run.2
              = Transactions OrderExtraFixtures.one_time_world ++ [t]) /\
   exists m,
     In m (Members OrderExtraFixtures.unconfirmed_run.2) /\
     grants "BACKER" (createdByUser (order OrderExtraFixtures.one_time_world))
            (toCollective (order OrderExtraFixtures.one_time_world)) m).
Proof.
  apply (processOrder_rejected
           OrderExtraFixtures.accepting_gateway
           OrderExtraFixtures.unconfirming_models
           JsDate.utc_zone 5 "DONATION"
           "BACKER" "subscription.confirmed" "https://example.org"
           OrderExtraFixtures.one_time_world
           OrderExtraFixtures.unconfirmed_run.2
           OrderExtraFixtures.unsaved).
  vm_compute. reflexivity.
Defined.

(** A rejected run may leave the order marked as processed: on models that
    fail to save the payment method and nothing else, the one-time order is
    rejected with the error of that write after its transaction, its member
    and the date of its processing have been written; and a charge that the
    gateway declines leaves none of them. *)
Example processOrder_rejected_after_processing :
  OrderExtraFixtures.unconfirmed_run.1 = inl OrderExtraFixtures.unsaved /\
  processedAt (order OrderExtraFixtures.unconfirmed_run.2)
  = Some (now OrderExtraFixtures.one_time_world) /\
  confirmedAt (paymentMethod OrderExtraFixtures.unconfirmed_run.2) = None /\
  Transactions OrderExtraFixtures.unconfirmed_run.2
  = [OrderExtraFixtures.monthly_payload] /\
  Members OrderExtraFixtures.unconfirmed_run.2
  = [mkMember 11 22 "BACKER" None] /\
  errors OrderExtraFixtures.unconfirmed_run.2 = [] /\
  OrderExtraFixtures.declined_run.1 = inl OrderExtraFixtures.declined /\
  errors OrderExtraFixtures.declined_run.2
  = [(CallCreateCharge, OrderExtraFixtures.declined)] /\
  processedAt (order OrderExtraFixtures.declined_run.2) = None /\
  Transactions OrderExtraFixtures.declined_run.2 = [] /\
  Members OrderExtraFixtures.declined_run.2 = [].
Proof. repeat split; vm_compute; reflexivity. Qed.

Lemma balance_failure_leaves_charge_unrecorded_witness :
  OrderExtraFixtures.forgotten_run.1 = inl OrderExtraFixtures.lost_balance /\
  (exists h a req c,
     Stripe.createCharge OrderExtraFixtures.forgetful_gateway h a req = inr c /\
     cr_amount req = totalAmount (order OrderExtraFixtures.one_time_world)) /\
  Transactions OrderExtraFixtures.forgotten_run.2
  = Transactions OrderExtraFixtures.one_time_world /\
  Activities OrderExtraFixtures.forgotten_run.2
  = Activities OrderExtraFixtures.one_time_world /\
  Members OrderExtraFixtures.forgotten_run.2
  = Members OrderExtraFixtures.one_time_world /\
  order OrderExtraFixtures.forgotten_run.2
  = order OrderExtraFixtures.one_time_world /\
  subscription OrderExtraFixtures.forgotten_run.2
  = subscription OrderExtraFixtures.one_time_world.
Proof.
  apply (balance_failure_leaves_charge_unrecorded
           OrderExtraFixtures.forgetful_gateway OrderFixtures.reliable_models
           JsDate.utc_zone 5 "DONATION"
           "BACKER" "subscription.confirmed" "https://example.org"
           OrderExtraFixtures.one_time_world OrderExtraFixtures.forgotten_run.2
           OrderExtraFixtures.forgotten_run.1 OrderExtraFixtures.lost_balance).
  - intros h a b. reflexivity.
  - intros H. exact H.
  - vm_compute. reflexivity.
  - vm_compute. tauto.
Defined.

Lemma processOrder_reuses_platform_customer_witness :
  customerId (paymentMethod OrderExtraFixtures.known_customer_run.2)
  = customerId (paymentMethod OrderExtraFixtures.known_customer_world) /\
  exists cs,
    calls OrderExtraFixtures.known_customer_run.2
    = calls OrderExtraFixtures.known_customer_world ++ cs /\
    head cs <> Some CallCreateCustomer.
Proof.
  apply (processOrder_reuses_platform_customer
           OrderExtraFixtures.accepting_gateway OrderFixtures.reliable_models
           JsDate.utc_zone 5 "DONATION"
           "BACKER" "subscription.confirmed" "https://example.org"
           OrderExtraFixtures.known_customer_world
           OrderExtraFixtures.known_customer_run.2
           OrderExtraFixtures.known_customer_run.1).
  - reflexivity.
  - vm_compute. reflexivity.
Defined.

Lemma processOrder_keeps_new_platform_customer_witness :
  customerId (paymentMethod OrderExtraFixtures.declined_run.2)
  = Some (customer_id (mkCustomer "cus_1")).
Proof.
  apply (processOrder_keeps_new_platform_customer
           OrderExtraFixtures.declining_gateway OrderFixtures.reliable_models
           JsDate.utc_zone 5 "DONATION"
           "BACKER" "subscription.confirmed" "https://example.org"
           OrderExtraFixtures.one_time_world OrderExtraFixtures.declined_run.2
           OrderExtraFixtures.declined_run.1
           OrderFixtures.host_account (mkCustomer "cus_1")).
  - reflexivity.
  - reflexivity.
  - reflexivity.
  - vm_compute. reflexivity.
Defined.

Lemma getOrCreateCustomerIdForHost_caches_witness :
  getOrCreateCustomerIdForHost OrderExtraFixtures.accepting_gateway
    OrderFixtures.host_account OrderExtraFixtures.host_customer_run.2
  = (inr "cus_1", OrderExtraFixtures.host_customer_run.2) /\
  exists m',
    data (paymentMethod OrderExtraFixtures.host_customer_run.2)
    = Some (Some m') /\
    m' !! username OrderFixtures.host_account = Some "cus_1" /\
    forall m u,
      data (paymentMethod OrderExtraFixtures.one_time_world) = Some (Some m) ->
      u <> username OrderFixtures.host_account -> m' !! u = m !! u.
Proof.
  apply (getOrCreateCustomerIdForHost_caches
           OrderExtraFixtures.accepting_gateway OrderFixtures.host_account
           OrderExtraFixtures.one_time_world
           OrderExtraFixtures.host_customer_run.2 "cus_1").
  - vm_compute. reflexivity.
  - discriminate.
Defined.

